(** * Governance action: a shallow embedding of the orchestration core

    The Go program reads its configuration from the process environment,
    obtains a sequence of findings (from the governance service or from the
    mock generator), prints a report, writes CI outputs and decides the exit
    status.  The sources embedded here are [pkg/core/action.go] (package
    [core]) and the analysis client of package [integrations]; the decoder
    that the client calls on the response body, [json.Unmarshal] of the Go
    standard library, is modelled in module [json].

    Conventions of the embedding:
    - a Go [int] is a [Z]; arithmetic on it wraps at 64 bits ([int_add],
      [int_sub]);
    - a Go [string] is a [string] of bytes; an [error] is its message;
    - the process environment and the file system are finite maps;
    - effects are threaded through a small state-and-panic monad [IO] over a
      [World]. *)

From Stdlib Require Import Ascii String.
From stdpp Require Import gmap strings list fin_maps pretty.

Open Scope Z_scope.

(** ** The Go runtime the program relies on *)

Module Go.

(** *** Machine integers *)

Definition MaxInt : Z := 2 ^ 63 - 1.
Definition MinInt : Z := - 2 ^ 63.

(** Two's-complement reduction of a mathematical integer to [int]. *)
Definition wrap (z : Z) : Z := (z + 2 ^ 63) `mod` 2 ^ 64 - 2 ^ 63.

Definition int_add (a b : Z) : Z := wrap (a + b).
Definition int_sub (a b : Z) : Z := wrap (a - b).

Definition is_int (z : Z) : Prop := MinInt ≤ z ≤ MaxInt.

(** [len] of a slice.  A slice never holds more than [MaxInt] elements;
    theorems that let a counter run over a slice assume it. *)
Definition len {A} (l : list A) : Z := Z.of_nat (length l).

(** *** Errors and results *)

Definition error : Type := string.

Inductive result (A : Type) : Type :=
| Ok (a : A)
| Err (e : error).
Global Arguments Ok {A} a.
Global Arguments Err {A} e.

(** *** Formatting *)

(** The verb [%d]. *)
Definition fmt_d (n : Z) : string := pretty n.

Definition SP : ascii := Ascii.ascii_of_nat 32.
Definition LF : ascii := Ascii.ascii_of_nat 10.
Definition CR : ascii := Ascii.ascii_of_nat 13.
Definition nl : string := String LF "".

Fixpoint spaces (n : nat) : string :=
  match n with
  | O => ""
  | S n' => String SP (spaces n')
  end.

(** The verb [%4d]: at least [width] columns, padded with spaces on the
    left; a longer number is printed in full. *)
Definition fmt_wd (width : nat) (n : Z) : string :=
  let s := fmt_d n in
  spaces (width - String.length s) +:+ s.

(** [strings.Join]. *)
Fixpoint strings_Join (elems : list string) (sep : string) : string :=
  match elems with
  | [] => ""
  | [e] => e
  | e :: rest => e +:+ sep +:+ strings_Join rest sep
  end.

(** *** Line scanning ([bufio.Scanner] with the default [ScanLines]) *)

Definition MaxScanTokenSize : Z := 64 * 1024.

Fixpoint rev_string (acc s : string) : string :=
  match s with
  | EmptyString => acc
  | String c s' => rev_string (String c acc) s'
  end.

(** [dropCR] on a line held in reverse. *)
Definition dropCR_rev (racc : string) : string :=
  match racc with
  | String c rest => if Ascii.eqb c CR then rest else racc
  | EmptyString => racc
  end.

Definition token_of (racc : string) : string := rev_string "" (dropCR_rev racc).

(** The tokens [Scan] yields until it returns false: lines are cut at LF,
    one trailing CR is dropped, a last line without LF is yielded when it
    is not empty, and a line that fills the whole buffer stops the scan
    (the lines read so far are kept). [racc] is the current line in
    reverse and [n] its length. *)
Fixpoint scan_from (racc : string) (n : Z) (data : string) : list string :=
  match data with
  | EmptyString => if n =? 0 then [] else [token_of racc]
  | String c rest =>
      if Ascii.eqb c LF then token_of racc :: scan_from "" 0 rest
      else if MaxScanTokenSize <=? n + 1 then []
      else scan_from (String c racc) (n + 1) rest
  end.

Definition scan_lines (data : string) : list string := scan_from "" 0 data.

(** *** The world: environment, files, output streams *)

Inductive OpenMode := ReadOnly | AppendCreate.

Inductive FsEvent :=
| EvOpen (mode : OpenMode) (path : string) (ok : bool)
| EvWrite (path : string) (data : string).

Inductive LogLevel := LDebug | LInfo | LError.

Record HTTPRequest := {
  req_method : string;
  req_url : string;
  req_headers : list (string * string);
  req_body : string;
}.

(** What one round trip of [http.Client.Do] followed by [io.ReadAll] of
    the body can give. *)
Inductive HTTPOutcome :=
| TransportFailure (e : error)
| Response (status : Z) (body : string) (read_err : option error).

Record World := {
  environ : gmap string string;
  files : gmap string string;
  open_refused : OpenMode → string → bool;
  remote : HTTPRequest → HTTPOutcome;
  stdout : list string;
  logs : list (LogLevel * string);
  trace : list FsEvent;
}.

Definition with_environ (w : World) (e : gmap string string) : World :=
  {| environ := e; files := files w; open_refused := open_refused w;
     remote := remote w; stdout := stdout w; logs := logs w; trace := trace w |}.
Definition with_files (w : World) (f : gmap string string) : World :=
  {| environ := environ w; files := f; open_refused := open_refused w;
     remote := remote w; stdout := stdout w; logs := logs w; trace := trace w |}.
Definition with_stdout (w : World) (o : list string) : World :=
  {| environ := environ w; files := files w; open_refused := open_refused w;
     remote := remote w; stdout := o; logs := logs w; trace := trace w |}.
Definition with_logs (w : World) (l : list (LogLevel * string)) : World :=
  {| environ := environ w; files := files w; open_refused := open_refused w;
     remote := remote w; stdout := stdout w; logs := l; trace := trace w |}.
Definition with_trace (w : World) (t : list FsEvent) : World :=
  {| environ := environ w; files := files w; open_refused := open_refused w;
     remote := remote w; stdout := stdout w; logs := logs w; trace := t |}.

(** *** The monad *)

Inductive Outcome (A : Type) : Type :=
| Done (w : World) (a : A)
| Panic (w : World) (msg : string)
| OutOfFuel.
Global Arguments Done {A} w a.
Global Arguments Panic {A} w msg.
Global Arguments OutOfFuel {A}.

Definition IO (A : Type) : Type := World → Outcome A.

Definition ret {A} (a : A) : IO A := λ w, Done w a.

Definition bind {A B} (k : A → IO B) (m : IO A) : IO B :=
  λ w, match m w with
       | Done w' a => k a w'
       | Panic w' msg => Panic w' msg
       | OutOfFuel => OutOfFuel
       end.

(** The instances give the program text stdpp's [x ← m; k] and [m;; k]. *)
Global Instance IO_ret : MRet IO := @ret.
Global Instance IO_bind : MBind IO := @bind.

Definition panic {A} (msg : string) : IO A := λ w, Panic w msg.

(** [os.Getenv]: the empty string when the variable is not set. *)
Definition os_Getenv (key : string) : IO string :=
  λ w, Done w (default "" (environ w !! key)).

Definition os_Setenv (key value : string) : IO unit :=
  λ w, Done (with_environ w (<[key := value]> (environ w))) tt.

(** One call of [fmt.Print*] appends one chunk to the standard output. *)
Definition fmt_Print (s : string) : IO unit :=
  λ w, Done (with_stdout w (stdout w ++ [s])) tt.

Definition fmt_Println (s : string) : IO unit := fmt_Print (s +:+ nl).

Definition logger (lvl : LogLevel) (msg : string) : IO unit :=
  λ w, Done (with_logs w (logs w ++ [(lvl, msg)])) tt.

(** [os.Open]: the content of the file, or nothing when the open fails. *)
Definition os_Open (path : string) : IO (option string) :=
  λ w, let r := if open_refused w ReadOnly path then None else files w !! path in
       Done (with_trace w (trace w ++ [EvOpen ReadOnly path (bool_decide (is_Some r))])) r.

(** [os.OpenFile(path, O_APPEND|O_CREATE|O_WRONLY, 0644)]. *)
Definition os_OpenFile_append (path : string) : IO bool :=
  λ w, if open_refused w AppendCreate path
       then Done (with_trace w (trace w ++ [EvOpen AppendCreate path false])) false
       else Done (with_trace
                    (with_files w (<[path := default "" (files w !! path)]> (files w)))
                    (trace w ++ [EvOpen AppendCreate path true])) true.

(** [fmt.Fprintf] on a file opened for appending. *)
Definition file_append (path data : string) : IO unit :=
  λ w, Done (with_trace
               (with_files w (<[path := default "" (files w !! path) +:+ data]> (files w)))
               (trace w ++ [EvWrite path data])) tt.

(** Indexing a slice; out of range is a run-time panic. *)
Definition index {A} (l : list A) (i : Z) : IO A :=
  if (0 <=? i) && (i <? len l) then
    match l !! Z.to_nat i with
    | Some x => mret x
    | None => panic "index out of range"
    end
  else panic "index out of range".

(** [http.Client.Do] and [io.ReadAll]. *)
Definition http_Do (req : HTTPRequest) : IO HTTPOutcome :=
  λ w, Done w (remote w req).

End Go.

Export Go.

(** ** Package [integrations]: the result types and the analysis client *)

Module integrations.

(** [LintLocation]: a position in the source file. *)
Record LintLocation := {
  Line : Z;
  Character : Z;
}.

(** [LintRange]: the location of an issue in the source file. *)
Record LintRange := {
  Start : LintLocation;
  End_ : LintLocation;
}.

(** [APIReference]. *)
Record APIReference := {
  ID : string;
  Name : string;
}.

(** [RuleReference]. *)
Record RuleReference := {
  RuleName : string;
}.

(** [LintResult]: one governance analysis result. *)
Record LintResult := {
  Code : string;
  Path : list string;
  Message : string;
  Severity : Z;
  Range : LintRange;
  Source : string;
  API : APIReference;
  Rule : RuleReference;
}.

(** [GovernanceClient]: the HTTP client (timeout 30 s) and the logger
    live in the [World]. *)
Record GovernanceClient := {
  baseURL : string;
  authToken : string;
}.

Definition NewGovernanceClient (baseURL authToken : string) : GovernanceClient :=
  {| baseURL := baseURL; authToken := authToken |}.

Local Set Warnings "-register-all".

(** A value of type [interface{}] as the client builds it: strings and
    [map[string]interface{}]. *)
Inductive GoValue :=
| VString (s : string)
| VMap (entries : list (string * GoValue)).

Definition Header_Set (req : HTTPRequest) (key value : string) : HTTPRequest :=
  {| req_method := req_method req; req_url := req_url req;
     req_headers := filter (λ kv, kv.1 ≠ key) (req_headers req) ++ [(key, value)];
     req_body := req_body req |}.

Section client.

(** The standard library, as far as the client calls it:
    [json.Marshal] of the request value, the URL check of
    [http.NewRequestWithContext] (its only way to fail here) and
    [json.Unmarshal] into a [[]LintResult] (module [json] below has the
    decoder itself). *)
Variable json_Marshal : GoValue → result string.
Variable url_error : string → option error.
Variable json_Unmarshal : string → result (list LintResult).

Definition http_NewRequest (method url body : string) : result HTTPRequest :=
  match url_error url with
  | Some e => Err e
  | None => Ok {| req_method := method; req_url := url;
                  req_headers := []; req_body := body |}
  end.

(** [makeAnalysisRequest]: the HTTP request to the governance service. *)
Definition makeAnalysisRequest (c : GovernanceClient) (request : GoValue)
  : IO (result (list LintResult)) :=
  match json_Marshal request with
  | Err e => mret (Err ("failed to marshal request: " +:+ e))
  | Ok requestBody =>
      let url := baseURL c +:+ "/rulesets/evaluate" in
      match http_NewRequest "POST" url requestBody with
      | Err e => mret (Err ("failed to create request: " +:+ e))
      | Ok req =>
          let req := Header_Set req "Content-Type" "application/json" in
          let req := Header_Set req "X-API-Key" (authToken c) in
          logger LDebug "Making request to governance service";;
          resp ← http_Do req;
          match resp with
          | TransportFailure e => mret (Err ("failed to make request: " +:+ e))
          | Response _ _ (Some e) =>
              mret (Err ("failed to read response body: " +:+ e))
          | Response StatusCode body None =>
              if negb (StatusCode =? 200) then
                logger LError "Governance service returned error";;
                mret (Err ("governance service returned status "
                           +:+ fmt_d StatusCode +:+ ": " +:+ body))
              else
                match json_Unmarshal body with
                | Err e => mret (Err ("failed to unmarshal response: " +:+ e))
                | Ok results => mret (Ok results)
                end
          end
      end
  end.

(** [AnalyzeOAS]: analyses a specification against one rule. *)
Definition AnalyzeOAS (c : GovernanceClient) (oasContent ruleID filename : string)
  : IO (result (list LintResult)) :=
  logger LInfo "Starting OAS analysis";;
  let request :=
    VMap [("ruleSetSelector", VMap [("id", VString ruleID)]);
          ("apiContent", VMap [("name", VString filename);
                               ("content", VString oasContent)])] in
  r ← makeAnalysisRequest c request;
  match r with
  | Err e => mret (Err ("failed to make analysis request: " +:+ e))
  | Ok results => logger LInfo "Analysis completed";; mret (Ok results)
  end.

(** [AnalyzeOASWithUpload]: the placeholder workflow, which analyses
    under the empty file name. *)
Definition AnalyzeOASWithUpload (c : GovernanceClient) (oasContent ruleID : string)
  : IO (result (list LintResult)) :=
  logger LInfo "Starting OAS analysis with upload workflow";;
  AnalyzeOAS c oasContent ruleID "".

End client.

(** [DetectCI] detects the running CI platform. *)
Definition DetectCI : IO string :=
  github ← os_Getenv "GITHUB_ACTIONS";
  if bool_decide (github = "true") then mret "github"
  else
    gitlab ← os_Getenv "GITLAB_CI";
    if bool_decide (gitlab = "true") then mret "gitlab"
    else mret "local".

(** [GetContext] extracts context information based on the CI platform. *)
Definition GetContext (ci : string) : IO (gmap string string) :=
  if bool_decide (ci = "github") then
    repository ← os_Getenv "GITHUB_REPOSITORY";
    commit ← os_Getenv "GITHUB_SHA";
    branch ← os_Getenv "GITHUB_REF_NAME";
    actor ← os_Getenv "GITHUB_ACTOR";
    workflow ← os_Getenv "GITHUB_WORKFLOW";
    run_id ← os_Getenv "GITHUB_RUN_ID";
    mret (<["repository" := repository]> (<["commit" := commit]>
           (<["branch" := branch]> (<["actor" := actor]>
             (<["workflow" := workflow]> (<["run_id" := run_id]> ∅))))))
  else if bool_decide (ci = "gitlab") then
    repository ← os_Getenv "CI_PROJECT_PATH";
    commit ← os_Getenv "CI_COMMIT_SHA";
    branch ← os_Getenv "CI_COMMIT_BRANCH";
    actor ← os_Getenv "GITLAB_USER_NAME";
    pipeline ← os_Getenv "CI_PIPELINE_ID";
    job ← os_Getenv "CI_JOB_ID";
    mret (<["repository" := repository]> (<["commit" := commit]>
           (<["branch" := branch]> (<["actor" := actor]>
             (<["pipeline" := pipeline]> (<["job" := job]> ∅))))))
  else mret (<["env" := "local"]> ∅).

End integrations.

Export integrations.

(** ** Package [encoding/json]: [Unmarshal] into a [[]LintResult]

    The client hands the response body to [json.Unmarshal] with a nil
    [[]LintResult] as target.  The decoder belongs to the Go standard
    library (the image is built with Go 1.21), not to this repository; the
    model follows what the library does, for the types of package
    [integrations] only:
    - [Unmarshal] first checks the whole input against the JSON grammar
      ([checkValid]; here [scan] and [build], with the scanner's states,
      its four white-space bytes and its nesting limit), then stores the
      value in the target;
    - a string literal is unquoted the way [unquoteBytes] does it: escapes
      are replaced, surrogate pairs are joined, and every byte that does
      not start a well-formed UTF-8 sequence becomes U+FFFD;
    - [null] leaves a string, an [int] or a struct as it is and makes a
      slice nil; a value of another JSON type than the target's is an
      [UnmarshalTypeError], as is a number that [strconv.ParseInt] does not
      read as a 64-bit integer;
    - an object member is stored in the field whose name is the key, or
      else equals it under case folding; other members are skipped;
      members are stored one after the other, so a repeated key stores
      twice;
    - an array is stored element by element into the elements the slice
      already has ([v.Index(i)]), and [SetLen] cuts the slice after the
      last, so the backing array keeps what earlier stores left behind the
      slice's length.
    The decoder goes on after a type error and reports the first one at the
    end; as the client drops the target on every error, the model stops at
    the first. *)

Module json.

Local Set Warnings "-register-all".

Inductive Value :=
| JNull
| JBool (b : bool)
| JNumber (literal : string)
| JString (s : string)
| JArray (items : list Value)
| JObject (members : list (string * Value)).

(** *** Bytes and runes *)

Definition ord (c : ascii) : Z := Z.of_nat (Ascii.nat_of_ascii c).
Definition chr (z : Z) : ascii := Ascii.ascii_of_nat (Z.to_nat z).

Definition quote : ascii := chr 34.
Definition backslash : ascii := chr 92.

Definition between (lo hi : Z) (c : ascii) : bool :=
  (lo <=? ord c) && (ord c <=? hi).

Definition is_digit (c : ascii) : bool := between 48 57 c.

(** [isSpace] of the scanner. *)
Definition isSpace (c : ascii) : bool :=
  (ord c =? 32) || (ord c =? 9) || (ord c =? 13) || (ord c =? 10).

Definition hex_digit (c : ascii) : option Z :=
  if between 48 57 c then Some (ord c - 48)
  else if between 97 102 c then Some (ord c - 97 + 10)
  else if between 65 70 c then Some (ord c - 65 + 10)
  else None.

(** [getu4] on the four digits after a backslash and a [u]. *)
Definition hex4 (h1 h2 h3 h4 : ascii) : option Z :=
  d1 ← hex_digit h1; d2 ← hex_digit h2; d3 ← hex_digit h3; d4 ← hex_digit h4;
  Some (((d1 * 16 + d2) * 16 + d3) * 16 + d4).

Definition RuneError : Z := 65533.

(** [utf8.EncodeRune]. *)
Definition utf8_EncodeRune (r : Z) : string :=
  if (0 <=? r) && (r <? 128) then String (chr r) ""
  else if (0 <=? r) && (r <? 2048) then
    String (chr (192 + r / 64)) (String (chr (128 + r `mod` 64)) "")
  else if (r <? 0) || (1114111 <? r) || ((55296 <=? r) && (r <=? 57343)) then
    String (chr 239) (String (chr 191) (String (chr 189) ""))
  else if r <? 65536 then
    String (chr (224 + r / 4096))
      (String (chr (128 + (r / 64) `mod` 64)) (String (chr (128 + r `mod` 64)) ""))
  else
    String (chr (240 + r / 262144))
      (String (chr (128 + (r / 4096) `mod` 64))
         (String (chr (128 + (r / 64) `mod` 64)) (String (chr (128 + r `mod` 64)) ""))).

Definition utf16_IsSurrogate (r : Z) : bool := (55296 <=? r) && (r <? 57344).

(** [utf16.DecodeRune]. *)
Definition utf16_DecodeRune (r1 r2 : Z) : Z :=
  if (55296 <=? r1) && (r1 <? 56320) && (56320 <=? r2) && (r2 <? 57344)
  then (r1 - 55296) * 1024 + (r2 - 56320) + 65536
  else RuneError.

(** The size of the well-formed UTF-8 sequence that [lead] starts, followed
    by [rest]; 0 when there is none, which is where [utf8.DecodeRune]
    returns [RuneError] and the size 1. *)
Definition utf8_size (lead : ascii) (rest : string) : nat :=
  let cont := between 128 191 in
  let l := ord lead in
  match rest with
  | String c2 rest2 =>
      if between 194 223 lead then (if cont c2 then 2 else 0)%nat
      else
        let second :=
          if l =? 224 then between 160 191 c2
          else if l =? 237 then between 128 159 c2
          else if l =? 240 then between 144 191 c2
          else if l =? 244 then between 128 143 c2
          else cont c2 in
        match rest2 with
        | String c3 rest3 =>
            if between 224 239 lead then (if second && cont c3 then 3 else 0)%nat
            else if between 240 244 lead then
              match rest3 with
              | String c4 _ => (if second && cont c3 && cont c4 then 4 else 0)%nat
              | EmptyString => 0%nat
              end
            else 0%nat
        | EmptyString => 0%nat
        end
  | EmptyString => 0%nat
  end.

(** *** [unquoteBytes], on the bytes between the quotes

    [copy] counts the bytes of the current UTF-8 sequence that are still to
    be copied. *)
Fixpoint unquote_from (copy : nat) (s : string) : option string :=
  match s with
  | EmptyString => Some ""
  | String c rest =>
      match copy with
      | S k => String c <$> unquote_from k rest
      | O =>
          if Ascii.eqb c backslash then
            match rest with
            | EmptyString => None
            | String e rest1 =>
                if Ascii.eqb e "u" then
                  match rest1 with
                  | String h1 (String h2 (String h3 (String h4 rest2))) =>
                      rr ← hex4 h1 h2 h3 h4;
                      if utf16_IsSurrogate rr then
                        let alone := String.append (utf8_EncodeRune RuneError) <$> unquote_from O rest2 in
                        match rest2 with
                        | String b (String u (String l1 (String l2 (String l3 (String l4 rest3))))) =>
                            let rr1 :=
                              if Ascii.eqb b backslash && Ascii.eqb u "u"
                              then default (-1) (hex4 l1 l2 l3 l4) else -1 in
                            let dec := utf16_DecodeRune rr rr1 in
                            if dec =? RuneError then alone
                            else String.append (utf8_EncodeRune dec) <$> unquote_from O rest3
                        | _ => alone
                        end
                      else String.append (utf8_EncodeRune rr) <$> unquote_from O rest2
                  | _ => None
                  end
                else
                  let plain (b : ascii) := String b <$> unquote_from O rest1 in
                  if Ascii.eqb e quote then plain quote
                  else if Ascii.eqb e backslash then plain backslash
                  else if Ascii.eqb e "/" then plain "/"%char
                  else if Ascii.eqb e (chr 39) then plain (chr 39)
                  else if Ascii.eqb e "b" then plain (chr 8)
                  else if Ascii.eqb e "f" then plain (chr 12)
                  else if Ascii.eqb e "n" then plain (chr 10)
                  else if Ascii.eqb e "r" then plain (chr 13)
                  else if Ascii.eqb e "t" then plain (chr 9)
                  else None
            end
          else if Ascii.eqb c quote || (ord c <? 32) then None
          else if ord c <? 128 then String c <$> unquote_from O rest
          else
            match utf8_size c rest with
            | O => String.append (utf8_EncodeRune RuneError) <$> unquote_from O rest
            | S k => String c <$> unquote_from k rest
            end
      end
  end.

Definition unquote (s : string) : option string := unquote_from O s.

(** *** The scanner *)

Inductive Token :=
| TBeginArray
| TEndArray
| TBeginObject
| TEndObject
| TComma
| TColon
| TLiteral (v : Value).

(** The scanner's states inside a number. *)
Inductive NumState :=
| stateNeg
| state0
| state1
| stateDot
| stateDot0
| stateE
| stateESign
| stateE0.

Inductive NumStep :=
| NumContinue (st : NumState)
| NumEnd
| NumError.

Definition num_step (st : NumState) (c : ascii) : NumStep :=
  let exponent := Ascii.eqb c "e" || Ascii.eqb c "E" in
  match st with
  | stateNeg =>
      if Ascii.eqb c "0" then NumContinue state0
      else if between 49 57 c then NumContinue state1
      else NumError
  | state1 =>
      if is_digit c then NumContinue state1
      else if Ascii.eqb c "." then NumContinue stateDot
      else if exponent then NumContinue stateE
      else NumEnd
  | state0 =>
      if Ascii.eqb c "." then NumContinue stateDot
      else if exponent then NumContinue stateE
      else NumEnd
  | stateDot => if is_digit c then NumContinue stateDot0 else NumError
  | stateDot0 =>
      if is_digit c then NumContinue stateDot0
      else if exponent then NumContinue stateE
      else NumEnd
  | stateE =>
      if Ascii.eqb c "+" || Ascii.eqb c "-" then NumContinue stateESign
      else if is_digit c then NumContinue stateE0
      else NumError
  | stateESign => if is_digit c then NumContinue stateE0 else NumError
  | stateE0 => if is_digit c then NumContinue stateE0 else NumEnd
  end.

(** Where a number may end. *)
Definition num_final (st : NumState) : bool :=
  match st with
  | state0 | state1 | stateDot0 | stateE0 => true
  | _ => false
  end.

(** What the scanner is reading: nothing yet, a string (its bytes so far,
    escapes included), a number (its state and bytes so far), or one of the
    words [true], [false] and [null] (the letters still expected). *)
Inductive Scan :=
| Between
| InString (raw : string)
| InStringEsc (raw : string)
| InStringEscU (digits : nat) (raw : string)
| InNumber (st : NumState) (raw : string)
| InWord (rest : string) (v : Value).

Definition snoc (s : string) (c : ascii) : string := s +:+ String c "".

(** A byte outside every literal ([stateBeginValue] and [stateEndValue],
    as far as the byte itself goes). *)
Definition step_between (c : ascii) : option (Scan * list Token) :=
  if isSpace c then Some (Between, [])
  else if Ascii.eqb c "[" then Some (Between, [TBeginArray])
  else if Ascii.eqb c "]" then Some (Between, [TEndArray])
  else if Ascii.eqb c "{" then Some (Between, [TBeginObject])
  else if Ascii.eqb c "}" then Some (Between, [TEndObject])
  else if Ascii.eqb c "," then Some (Between, [TComma])
  else if Ascii.eqb c ":" then Some (Between, [TColon])
  else if Ascii.eqb c quote then Some (InString "", [])
  else if Ascii.eqb c "-" then Some (InNumber stateNeg (String c ""), [])
  else if Ascii.eqb c "0" then Some (InNumber state0 (String c ""), [])
  else if between 49 57 c then Some (InNumber state1 (String c ""), [])
  else if Ascii.eqb c "t" then Some (InWord "rue" (JBool true), [])
  else if Ascii.eqb c "f" then Some (InWord "alse" (JBool false), [])
  else if Ascii.eqb c "n" then Some (InWord "ull" JNull, [])
  else None.

Definition step (st : Scan) (c : ascii) : option (Scan * list Token) :=
  match st with
  | Between => step_between c
  | InString raw =>
      if Ascii.eqb c quote then s ← unquote raw; Some (Between, [TLiteral (JString s)])
      else if Ascii.eqb c backslash then Some (InStringEsc (snoc raw c), [])
      else if ord c <? 32 then None
      else Some (InString (snoc raw c), [])
  | InStringEsc raw =>
      if Ascii.eqb c "b" || Ascii.eqb c "f" || Ascii.eqb c "n" || Ascii.eqb c "r"
         || Ascii.eqb c "t" || Ascii.eqb c backslash || Ascii.eqb c "/"
         || Ascii.eqb c quote
      then Some (InString (snoc raw c), [])
      else if Ascii.eqb c "u" then Some (InStringEscU 4 (snoc raw c), [])
      else None
  | InStringEscU digits raw =>
      match hex_digit c, digits with
      | Some _, S O => Some (InString (snoc raw c), [])
      | Some _, S k => Some (InStringEscU k (snoc raw c), [])
      | _, _ => None
      end
  | InNumber ns raw =>
      match num_step ns c with
      | NumContinue ns' => Some (InNumber ns' (snoc raw c), [])
      | NumEnd =>
          '(st', out) ← step_between c; Some (st', TLiteral (JNumber raw) :: out)
      | NumError => None
      end
  | InWord rest v =>
      match rest with
      | String c' rest' =>
          if Ascii.eqb c c' then
            match rest' with
            | EmptyString => Some (Between, [TLiteral v])
            | _ => Some (InWord rest' v, [])
            end
          else None
      | EmptyString => None
      end
  end.

(** The end of the input. *)
Definition eof (st : Scan) : option (list Token) :=
  match st with
  | Between => Some []
  | InNumber ns raw => if num_final ns then Some [TLiteral (JNumber raw)] else None
  | _ => None
  end.

Fixpoint scan (st : Scan) (data : string) : option (list Token) :=
  match data with
  | EmptyString => eof st
  | String c rest => '(st', out) ← step st c; (out ++.) <$> scan st' rest
  end.

(** *** The grammar

    A frame per open array or object: the elements or members read so far,
    last first, and for an object the key whose value is being read. *)
Inductive Frame :=
| FArray (items : list Value)
| FObject (members : list (string * Value))
| FMember (members : list (string * Value)) (key : string).

(** What may come next, after the scanner's states of these names. *)
Inductive Expect :=
| BeginValue
| BeginValueOrEmpty
| BeginString
| BeginStringOrEmpty
| EndKey
| EndValue
| EndTop (v : Value).

Definition maxNestingDepth : Z := 10000.

(** A value is complete: it is the top-level value, an element or the value
    of a member. *)
Definition complete (v : Value) (stack : list Frame) : option (Expect * list Frame) :=
  match stack with
  | [] => Some (EndTop v, [])
  | FArray items :: stack' => Some (EndValue, FArray (v :: items) :: stack')
  | FMember members key :: stack' => Some (EndValue, FObject ((key, v) :: members) :: stack')
  | FObject _ :: _ => None
  end.

Definition push (f : Frame) (next : Expect) (stack : list Frame)
  : option (Expect * list Frame) :=
  if len stack <? maxNestingDepth then Some (next, f :: stack) else None.

Definition begin_value (t : Token) (stack : list Frame) : option (Expect * list Frame) :=
  match t with
  | TLiteral v => complete v stack
  | TBeginArray => push (FArray []) BeginValueOrEmpty stack
  | TBeginObject => push (FObject []) BeginStringOrEmpty stack
  | _ => None
  end.

Definition begin_string (t : Token) (stack : list Frame) : option (Expect * list Frame) :=
  match t, stack with
  | TLiteral (JString key), FObject members :: stack' =>
      Some (EndKey, FMember members key :: stack')
  | _, _ => None
  end.

Definition end_container (stack : list Frame) : option (Expect * list Frame) :=
  match stack with
  | FArray items :: stack' => complete (JArray (reverse items)) stack'
  | FObject members :: stack' => complete (JObject (reverse members)) stack'
  | _ => None
  end.

Definition accept (e : Expect) (stack : list Frame) (t : Token)
  : option (Expect * list Frame) :=
  match e with
  | BeginValue => begin_value t stack
  | BeginValueOrEmpty =>
      match t with
      | TEndArray => end_container stack
      | _ => begin_value t stack
      end
  | BeginString => begin_string t stack
  | BeginStringOrEmpty =>
      match t with
      | TEndObject => end_container stack
      | _ => begin_string t stack
      end
  | EndKey =>
      match t with
      | TColon => Some (BeginValue, stack)
      | _ => None
      end
  | EndValue =>
      match t, stack with
      | TComma, FArray _ :: _ => Some (BeginValue, stack)
      | TEndArray, FArray _ :: _ => end_container stack
      | TComma, FObject _ :: _ => Some (BeginString, stack)
      | TEndObject, FObject _ :: _ => end_container stack
      | _, _ => None
      end
  | EndTop _ => None
  end.

Fixpoint build (e : Expect) (stack : list Frame) (ts : list Token) : option Value :=
  match ts with
  | [] =>
      match e with
      | EndTop v => Some v
      | _ => None
      end
  | t :: ts' => '(e', stack') ← accept e stack t; build e' stack' ts'
  end.

(** The value a valid input denotes; [None] is a [SyntaxError]. *)
Definition parse (data : string) : option Value :=
  ts ← scan Between data; build BeginValue [] ts.

(** *** [strconv.ParseInt] with base 10 and 64 bits *)

Fixpoint digits_from (acc : Z) (s : string) : option Z :=
  match s with
  | EmptyString => Some acc
  | String c rest =>
      if is_digit c then digits_from (10 * acc + (ord c - 48)) rest else None
  end.

Definition strconv_ParseUint (s : string) : option Z :=
  match s with
  | EmptyString => None
  | _ => un ← digits_from 0 s; if un <? 2 ^ 64 then Some un else None
  end.

Definition strconv_ParseInt (s : string) : option Z :=
  match s with
  | EmptyString => None
  | String c rest =>
      let neg := Ascii.eqb c "-" in
      let digits := if Ascii.eqb c "+" || neg then rest else s in
      un ← strconv_ParseUint digits;
      if neg then (if un <=? 2 ^ 63 then Some (- un) else None)
      else (if un <? 2 ^ 63 then Some un else None)
  end.

(** *** Storing a value *)

Definition store_string (x : Value) (old : string) : option string :=
  match x with
  | JNull => Some old
  | JString s => Some s
  | _ => None
  end.

Definition store_int (x : Value) (old : Z) : option Z :=
  match x with
  | JNull => Some old
  | JNumber literal => strconv_ParseInt literal
  | _ => None
  end.

(** [foldName], as far as a key can meet a name of ASCII letters: letters
    go to upper case, and the two runes whose fold orbit holds an ASCII
    letter, U+017F and U+212A, go to S and K.  Every other rune folds to a
    rune outside ASCII and is left in place. *)
Fixpoint foldName (s : string) : string :=
  match s with
  | EmptyString => ""
  | String c rest =>
      if between 97 122 c then String (chr (ord c - 32)) (foldName rest)
      else
        match rest with
        | String c2 rest2 =>
            if (ord c =? 197) && (ord c2 =? 191) then String "S" (foldName rest2)
            else
              match rest2 with
              | String c3 rest3 =>
                  if (ord c =? 226) && (ord c2 =? 132) && (ord c3 =? 170)
                  then String "K" (foldName rest3)
                  else String c (foldName rest)
              | EmptyString => String c (foldName rest)
              end
        | EmptyString => String c ""
        end
  end.

(** The field a key selects: the one of that name, or else the first
    whose name equals the key under case folding. *)
Definition field {F} (fields : list (string * F)) (key : string) : option F :=
  match list_find (λ nf, nf.1 = key) fields with
  | Some (_, nf) => Some nf.2
  | None =>
      (λ inf : nat * (string * F), inf.2.2)
        <$> list_find (λ nf, foldName nf.1 = foldName key) fields
  end.

(** The fields that the members of an object select. *)
Definition selected {F} (fields : list (string * F))
    (members : list (string * Value)) : list F :=
  omap (field fields) members.*1.

(** The members of an object, stored one after the other in a struct. *)
Fixpoint members_into {S F} (fields : list (string * F))
    (store : F → Value → S → option S)
    (members : list (string * Value)) (s : S) : option S :=
  match members with
  | [] => Some s
  | (key, x) :: rest =>
      s' ← match field fields key with
           | Some f => store f x s
           | None => Some s
           end;
      members_into fields store rest s'
  end.

Definition store_struct {S F} (fields : list (string * F))
    (store : F → Value → S → option S) (x : Value) (old : S) : option S :=
  match x with
  | JNull => Some old
  | JObject members => members_into fields store members old
  | _ => None
  end.

(** [LintLocation]. *)
Inductive LintLocation_field :=
| F_line
| F_character.

Definition LintLocation_fields : list (string * LintLocation_field) :=
  [("line", F_line); ("character", F_character)].

Definition LintLocation_store (f : LintLocation_field) (x : Value) (l : LintLocation)
  : option LintLocation :=
  match f with
  | F_line => n ← store_int x (Line l); Some {| Line := n; Character := Character l |}
  | F_character => n ← store_int x (Character l); Some {| Line := Line l; Character := n |}
  end.

Definition store_LintLocation : Value → LintLocation → option LintLocation :=
  store_struct LintLocation_fields LintLocation_store.

(** [LintRange]. *)
Inductive LintRange_field :=
| F_start
| F_end.

Definition LintRange_fields : list (string * LintRange_field) :=
  [("start", F_start); ("end", F_end)].

Definition LintRange_store (f : LintRange_field) (x : Value) (r : LintRange)
  : option LintRange :=
  match f with
  | F_start => l ← store_LintLocation x (Start r); Some {| Start := l; End_ := End_ r |}
  | F_end => l ← store_LintLocation x (End_ r); Some {| Start := Start r; End_ := l |}
  end.

Definition store_LintRange : Value → LintRange → option LintRange :=
  store_struct LintRange_fields LintRange_store.

(** [APIReference]. *)
Inductive APIReference_field :=
| F_id
| F_api_name.

Definition APIReference_fields : list (string * APIReference_field) :=
  [("id", F_id); ("name", F_api_name)].

Definition APIReference_store (f : APIReference_field) (x : Value) (a : APIReference)
  : option APIReference :=
  match f with
  | F_id => s ← store_string x (ID a); Some {| ID := s; Name := Name a |}
  | F_api_name => s ← store_string x (Name a); Some {| ID := ID a; Name := s |}
  end.

Definition store_APIReference : Value → APIReference → option APIReference :=
  store_struct APIReference_fields APIReference_store.

(** [RuleReference]. *)
Inductive RuleReference_field :=
| F_rule_name.

Definition RuleReference_fields : list (string * RuleReference_field) :=
  [("name", F_rule_name)].

Definition RuleReference_store (f : RuleReference_field) (x : Value) (r : RuleReference)
  : option RuleReference :=
  match f with
  | F_rule_name => s ← store_string x (RuleName r); Some {| RuleName := s |}
  end.

Definition store_RuleReference : Value → RuleReference → option RuleReference :=
  store_struct RuleReference_fields RuleReference_store.

(** A [[]string] while it is decoded: the slice, and what its backing
    array holds behind the slice's length ([spare]).  An array stores its
    elements from index 0 on, each into what the backing array holds
    there (the empty string where nothing was stored before); the slice
    ends after the last element, and an empty array gives a new, empty
    slice. *)
Fixpoint store_elements (items : list Value) (backing : list string)
  : option (list string) :=
  match items with
  | [] => Some []
  | x :: items' =>
      s ← store_string x (hd "" backing);
      (s ::.) <$> store_elements items' (tl backing)
  end.

Definition store_strings (x : Value) (old : list string * list string)
  : option (list string * list string) :=
  match x with
  | JNull => Some ([], [])
  | JArray [] => Some ([], [])
  | JArray items =>
      let backing := old.1 ++ old.2 in
      new ← store_elements items backing;
      Some (new, drop (length items) backing)
  | _ => None
  end.

(** [LintResult], with the spare elements of its [Path]. *)
Inductive LintResult_field :=
| F_code
| F_path
| F_message
| F_severity
| F_range
| F_source
| F_api
| F_rule.

Definition LintResult_fields : list (string * LintResult_field) :=
  [("code", F_code); ("path", F_path); ("message", F_message);
   ("severity", F_severity); ("range", F_range); ("source", F_source);
   ("api", F_api); ("rule", F_rule)].

Definition LintResult_store (f : LintResult_field) (x : Value)
    (old : LintResult * list string) : option (LintResult * list string) :=
  let '(r, spare) := old in
  match f with
  | F_code =>
      s ← store_string x (Code r);
      Some ({| Code := s; Path := Path r; Message := Message r;
               Severity := Severity r; Range := Range r; Source := Source r;
               API := API r; Rule := Rule r |}, spare)
  | F_path =>
      '(p, spare') ← store_strings x (Path r, spare);
      Some ({| Code := Code r; Path := p; Message := Message r;
               Severity := Severity r; Range := Range r; Source := Source r;
               API := API r; Rule := Rule r |}, spare')
  | F_message =>
      s ← store_string x (Message r);
      Some ({| Code := Code r; Path := Path r; Message := s;
               Severity := Severity r; Range := Range r; Source := Source r;
               API := API r; Rule := Rule r |}, spare)
  | F_severity =>
      n ← store_int x (Severity r);
      Some ({| Code := Code r; Path := Path r; Message := Message r;
               Severity := n; Range := Range r; Source := Source r;
               API := API r; Rule := Rule r |}, spare)
  | F_range =>
      g ← store_LintRange x (Range r);
      Some ({| Code := Code r; Path := Path r; Message := Message r;
               Severity := Severity r; Range := g; Source := Source r;
               API := API r; Rule := Rule r |}, spare)
  | F_source =>
      s ← store_string x (Source r);
      Some ({| Code := Code r; Path := Path r; Message := Message r;
               Severity := Severity r; Range := Range r; Source := s;
               API := API r; Rule := Rule r |}, spare)
  | F_api =>
      a ← store_APIReference x (API r);
      Some ({| Code := Code r; Path := Path r; Message := Message r;
               Severity := Severity r; Range := Range r; Source := Source r;
               API := a; Rule := Rule r |}, spare)
  | F_rule =>
      u ← store_RuleReference x (Rule r);
      Some ({| Code := Code r; Path := Path r; Message := Message r;
               Severity := Severity r; Range := Range r; Source := Source r;
               API := API r; Rule := u |}, spare)
  end.

(** The zero value of [LintResult]: what a new element of the target
    holds. *)
Definition zero : LintResult :=
  {| Code := ""; Path := []; Message := ""; Severity := 0;
     Range := {| Start := {| Line := 0; Character := 0 |};
                 End_ := {| Line := 0; Character := 0 |} |};
     Source := ""; API := {| ID := ""; Name := "" |};
     Rule := {| RuleName := "" |} |}.

(** One element of the target. *)
Definition store_LintResult (x : Value) : option LintResult :=
  fst <$> store_struct LintResult_fields LintResult_store x (zero, []).

(** The whole target, nil before the call: [null] leaves it nil, an array
    fills it, every other value is a type error. *)
Definition store_results (x : Value) : option (list LintResult) :=
  match x with
  | JNull => Some []
  | JArray items => mapM store_LintResult items
  | _ => None
  end.

Section Unmarshal.

(** The text of the error that [Unmarshal] returns for an input. *)
Variable error_text : string → error.

(** [json.Unmarshal(data, &results)] with [var results []LintResult]. *)
Definition Unmarshal (data : string) : result (list LintResult) :=
  match parse data ≫= store_results with
  | Some results => Ok results
  | None => Err (error_text data)
  end.

End Unmarshal.

End json.

(** ** Package [core]: configuration, mock results, report *)

Module core.

(** [Configuration] holds the action configuration. *)
Record Configuration := {
  GovernanceService : string;
  GovernanceAuth : string;
  RuleID : string;
  APIPath : string;
  Mocked : string;
}.

(** The statement [if x == "" { x = os.Getenv(key) }]. *)
Definition if_empty_getenv (x key : string) : IO string :=
  if bool_decide (x = "") then os_Getenv key else mret x.

(** [getConfiguration] retrieves the configuration from environment
    variables. *)
Definition getConfiguration : IO (Configuration * option error) :=
  service ← os_Getenv "INPUT_GOVERNANCE_SERVICE";
  auth ← os_Getenv "INPUT_GOVERNANCE_AUTH";
  rule ← os_Getenv "INPUT_RULE_ID";
  path ← os_Getenv "INPUT_API_PATH";
  mocked ← os_Getenv "INPUT_MOCKED";
  (* Fallback to direct environment variables *)
  service ← if_empty_getenv service "GOVERNANCE_SERVICE";
  auth ← if_empty_getenv auth "GOVERNANCE_AUTH";
  rule ← if_empty_getenv rule "RULE_ID";
  path ← if_empty_getenv path "API_PATH";
  mocked ← if_empty_getenv mocked "MOCKED";
  (* GitLab CI specific fallbacks *)
  service ← if_empty_getenv service "GOVERNANCE_API_URL";
  auth ← if_empty_getenv auth "GOVERNANCE_API_TOKEN";
  rule ← if_empty_getenv rule "GOVERNANCE_RULE_ID";
  path ← if_empty_getenv path "OAS_FILE_PATH";
  mret ({| GovernanceService := service; GovernanceAuth := auth;
           RuleID := rule; APIPath := path; Mocked := mocked |}, None).

(** [Validate] checks if the configuration is valid; [None] is [nil]. *)
Definition Validate (c : Configuration) : option error :=
  if bool_decide (Mocked c ≠ "") then
    if bool_decide (Mocked c ≠ "success") && bool_decide (Mocked c ≠ "fail")
       && bool_decide (Mocked c ≠ "warning")
    then Some "mocked must be one of: success, fail, warning"
    else if bool_decide (RuleID c = "") then Some "rule_id is required"
    else if bool_decide (APIPath c = "") then Some "api_path is required"
    else None
  else if bool_decide (GovernanceService c = "") then Some "governance_service is required"
  else if bool_decide (GovernanceAuth c = "") then Some "governance_auth is required"
  else if bool_decide (RuleID c = "") then Some "rule_id is required"
  else if bool_decide (APIPath c = "") then Some "api_path is required"
  else None.

(** [generateMockResults] creates predefined analysis results. *)
Definition generateMockResults (mockedType ruleID : string) : list LintResult :=
  if bool_decide (mockedType = "success") then []
  else if bool_decide (mockedType = "warning") then
    [ {| Code := "mock-warning-001";
         Path := ["paths"; "/test"; "get"; "responses"];
         Message := "Mock warning: Consider adding rate limiting headers";
         Severity := 1;
         Range := {| Start := {| Line := 10; Character := 5 |};
                     End_ := {| Line := 10; Character := 15 |} |};
         Source := "mock-source";
         API := {| ID := "mock-api-id"; Name := "Mock API" |};
         Rule := {| RuleName := ruleID |} |};
      {| Code := "mock-warning-002";
         Path := ["paths"; "/test"; "get"; "security"];
         Message := "Mock warning: Consider adding authentication";
         Severity := 1;
         Range := {| Start := {| Line := 8; Character := 3 |};
                     End_ := {| Line := 8; Character := 12 |} |};
         Source := "mock-source";
         API := {| ID := "mock-api-id"; Name := "Mock API" |};
         Rule := {| RuleName := ruleID |} |} ]
  else if bool_decide (mockedType = "fail") then
    [ {| Code := "mock-error-001";
         Path := ["paths"; "/test"; "get"; "responses"];
         Message := "Mock error: Missing required 401 response code";
         Severity := 0;
         Range := {| Start := {| Line := 10; Character := 5 |};
                     End_ := {| Line := 10; Character := 15 |} |};
         Source := "mock-source";
         API := {| ID := "mock-api-id"; Name := "Mock API" |};
         Rule := {| RuleName := ruleID |} |};
      {| Code := "mock-error-002";
         Path := ["paths"; "/test"; "get"; "responses"; "200"];
         Message := "Mock error: Missing rate limiting headers in 200 response";
         Severity := 0;
         Range := {| Start := {| Line := 12; Character := 7 |};
                     End_ := {| Line := 12; Character := 10 |} |};
         Source := "mock-source";
         API := {| ID := "mock-api-id"; Name := "Mock API" |};
         Rule := {| RuleName := ruleID |} |};
      {| Code := "mock-warning-003";
         Path := ["paths"; "/test"; "get"; "security"];
         Message := "Mock warning: Consider adding authentication";
         Severity := 1;
         Range := {| Start := {| Line := 8; Character := 3 |};
                     End_ := {| Line := 8; Character := 12 |} |};
         Source := "mock-source";
         API := {| ID := "mock-api-id"; Name := "Mock API" |};
         Rule := {| RuleName := ruleID |} |} ]
  else [].

(** [setGitHubOutput] sets a GitHub Actions output variable. *)
Definition setGitHubOutput (name value : string) : IO unit :=
  outputFile ← os_Getenv "GITHUB_OUTPUT";
  if bool_decide (outputFile ≠ "") then
    ok ← os_OpenFile_append outputFile;
    if ok : bool then file_append outputFile (name +:+ "=" +:+ value +:+ nl)
    else mret tt
  else mret tt.

(** [setGitLabOutput] sets a GitLab CI output variable. *)
Definition setGitLabOutput (name value : string) : IO unit :=
  outputFile ← os_Getenv "GITLAB_OUTPUT_FILE";
  let outputFile :=
    if bool_decide (outputFile = "") then "governance_output.env" else outputFile in
  ok ← os_OpenFile_append outputFile;
  (if ok : bool
   then file_append outputFile ("export " +:+ name +:+ "=" +:+ value +:+ nl)
   else mret tt);;
  (* Also set as environment variable for current job *)
  os_Setenv name value.

(** The loop
    [for i := start - 1; i < end && i < len(oasLines); i++ { Printf(...) }],
    entered at [i]. *)
Fixpoint snippet_loop (fuel : nat) (oasLines : list string) (endLine i : Z) : IO unit :=
  if (i <? endLine) && (i <? len oasLines) then
    match fuel with
    | O => λ _, OutOfFuel
    | S fuel' =>
        line ← index oasLines i;
        fmt_Print ("    " +:+ fmt_wd 4 (int_add i 1) +:+ " | " +:+ line +:+ nl);;
        snippet_loop fuel' oasLines endLine (int_add i 1)
    end
  else mret tt.

(** The line printed for each result:
    ["%s [%s] [%s] %s\n    %s\n    Location: line %d, char %d - line %d, char %d\n"]. *)
Definition result_line (icon sev path : string) (result : LintResult) : string :=
  icon +:+ " [" +:+ sev +:+ "] [" +:+ path +:+ "] " +:+ RuleName (Rule result) +:+ nl
  +:+ "    " +:+ Message result +:+ nl
  +:+ "    Location: line " +:+ fmt_d (Line (Start (Range result)))
  +:+ ", char " +:+ fmt_d (Character (Start (Range result)))
  +:+ " - line " +:+ fmt_d (Line (End_ (Range result)))
  +:+ ", char " +:+ fmt_d (Character (End_ (Range result))) +:+ nl.

(** The body of [for _, result := range results]; the counters go in and
    come out. *)
Definition report_result (oasLines : list string) (result : LintResult)
    (errorCount warningCount : Z) : IO (Z * Z) :=
  let '(sev, icon, errorCount, warningCount) :=
    if Severity result =? 0 then ("ERROR", "❌", int_add errorCount 1, warningCount)
    else if Severity result =? 1 then ("WARNING", "⚠️", errorCount, int_add warningCount 1)
    else ("INFO", "ℹ️", errorCount, warningCount) in
  let path := strings_Join (Path result) "." in
  fmt_Print (result_line icon sev path result);;
  (* Print OAS snippet if available *)
  (if (0 <? len oasLines) && (0 <? Line (Start (Range result)))
      && (Line (End_ (Range result)) <=? len oasLines)
   then
     fmt_Println "    --- OAS snippet ---";;
     snippet_loop (length oasLines) oasLines (Line (End_ (Range result)))
                  (int_sub (Line (Start (Range result))) 1);;
     fmt_Println "    -------------------"
   else mret tt);;
  mret (errorCount, warningCount).

Fixpoint report_loop (oasLines : list string) (results : list LintResult)
    (errorCount warningCount : Z) : IO (Z * Z) :=
  match results with
  | [] => mret (errorCount, warningCount)
  | result :: rest =>
      '(errorCount, warningCount) ← report_result oasLines result errorCount warningCount;
      report_loop oasLines rest errorCount warningCount
  end.

(** Reading the OAS file lines for snippet printing. *)
Definition load_oasLines : IO (list string) :=
  apiPath ← os_Getenv "INPUT_API_PATH";
  apiPath ← if_empty_getenv apiPath "API_PATH";
  if bool_decide (apiPath ≠ "") then
    file ← os_Open apiPath;
    match file with
    | Some content => mret ([] ++ scan_lines content)
    | None => mret []
    end
  else mret [].

(** Setting the output variables, for GitHub Actions and for GitLab CI. *)
Definition emit_outputs (errorCount warningCount total : Z) : IO unit :=
  github ← os_Getenv "GITHUB_ACTIONS";
  (if bool_decide (github = "true") then
     setGitHubOutput "error_count" (fmt_d errorCount);;
     setGitHubOutput "warning_count" (fmt_d warningCount);;
     setGitHubOutput "total_issues" (fmt_d total)
   else mret tt);;
  gitlab ← os_Getenv "GITLAB_CI";
  if bool_decide (gitlab = "true") then
    setGitLabOutput "error_count" (fmt_d errorCount);;
    setGitLabOutput "warning_count" (fmt_d warningCount);;
    setGitLabOutput "total_issues" (fmt_d total)
  else mret tt.

(** [processResults] handles the analysis results and determines
    success or failure; [None] is [nil]. *)
Definition processResults (results : list LintResult) : IO (option error) :=
  if len results =? 0 then
    logger LInfo "No governance issues found";;
    mret None
  else
    oasLines ← load_oasLines;
    fmt_Println (nl +:+ "================ Governance Analysis Report ================");;
    '(errorCount, warningCount) ← report_loop oasLines results 0 0;
    fmt_Println ("===========================================================" +:+ nl);;
    emit_outputs errorCount warningCount (len results);;
    (* Fail if there are errors *)
    if 0 <? errorCount then
      mret (Some ("governance analysis failed with " +:+ fmt_d errorCount
                  +:+ " errors and " +:+ fmt_d warningCount +:+ " warnings"))
    else mret None.

Section action.

(** What the file system and the client look like from [RunAction]:
    [filepath.Abs] (which consults the working directory), the text of the
    error [os.ReadFile] returns for a path it cannot read, and the method
    [client.AnalyzeOAS] as [RunAction] calls it, with the content and the
    rule id. *)
Variable filepath_Abs : string → result string.
Variable read_error : string → error.
Variable client_AnalyzeOAS :
  GovernanceClient → string → string → IO (result (list LintResult)).

(** [filepath.IsAbs], on Unix. *)
Definition filepath_IsAbs (path : string) : bool :=
  match path with
  | String c _ => bool_decide (c = Ascii.ascii_of_nat 47)
  | EmptyString => false
  end.

(** [os.ReadFile]. *)
Definition os_ReadFile (path : string) : IO (result string) :=
  file ← os_Open path;
  match file with
  | Some content => mret (Ok content)
  | None => mret (Err (read_error path))
  end.

(** [readOASFile] reads the OAS file from the specified path. *)
Definition readOASFile (path : string) : IO (result string) :=
  (* Resolve relative paths *)
  let resolved :=
    if negb (filepath_IsAbs path) then filepath_Abs path else Ok path in
  match resolved with
  | Err e => mret (Err ("failed to resolve absolute path: " +:+ e))
  | Ok path =>
      content ← os_ReadFile path;
      match content with
      | Err e => mret (Err ("failed to read file " +:+ path +:+ ": " +:+ e))
      | Ok content => mret (Ok content)
      end
  end.

(** The two ways [RunAction] obtains the results; [Err] is the error it
    returns at once. *)
Definition obtain_results (config : Configuration) : IO (result (list LintResult)) :=
  (* Check if mocked mode is enabled *)
  if bool_decide (Mocked config ≠ "") then
    logger LInfo "Running in mocked mode";;
    (* Generate mock results based on the mocked type *)
    let results := generateMockResults (Mocked config) (RuleID config) in
    logger LInfo "Generated mock results";;
    mret (Ok results)
  else
    (* Normal mode - create governance client and analyze *)
    let client := NewGovernanceClient (GovernanceService config) (GovernanceAuth config) in
    (* Read and validate the OAS file *)
    oas ← readOASFile (APIPath config);
    match oas with
    | Err e =>
        logger LError "Failed to read OAS file";;
        mret (Err ("failed to read OAS file: " +:+ e))
    | Ok oasContent =>
        (* Analyze the OAS file *)
        r ← client_AnalyzeOAS client oasContent (RuleID config);
        match r with
        | Err e =>
            logger LError "Failed to analyze OAS";;
            mret (Err ("failed to analyze OAS: " +:+ e))
        | Ok results => mret (Ok results)
        end
    end.

(** [RunAction] is the main entry point for the governance action;
    [None] is [nil]. *)
Definition RunAction : IO (option error) :=
  logger LInfo "Starting governance action";;
  (* Detect CI platform *)
  ci ← DetectCI;
  logger LInfo "Detected CI platform";;
  (* Get context information *)
  ciContext ← GetContext ci;
  logger LInfo "Retrieved context";;
  (* Get configuration from environment *)
  '(config, err) ← getConfiguration;
  match err with
  | Some e =>
      logger LError "Failed to get configuration";;
      mret (Some ("configuration error: " +:+ e))
  | None =>
      (* Validate configuration *)
      match Validate config with
      | Some e =>
          logger LError "Invalid configuration";;
          mret (Some ("invalid configuration: " +:+ e))
      | None =>
          obtained ← obtain_results config;
          match obtained with
          | Err e => mret (Some e)
          | Ok results =>
              (* Process and report results *)
              err ← processResults results;
              match err with
              | Some e =>
                  logger LError "Failed to process results";;
                  mret (Some ("failed to process results: " +:+ e))
              | None =>
                  logger LInfo "Governance action completed successfully";;
                  mret None
              end
          end
      end
  end.

End action.

End core.

Export core.

(** ** The specification's vocabulary

    Definitions written after the specification's words; the theorems below
    relate them to the embedded program. *)

Module Spec.

(** The value of an environment variable, empty when unset. *)
Definition env_value (w : World) (name : string) : string :=
  default "" (environ w !! name).

(** First non-empty value over ordered tiers. *)
Fixpoint first_nonempty (tiers : list string) : string :=
  match tiers with
  | [] => ""
  | v :: rest => if decide (v = "") then first_nonempty rest else v
  end.

(** The configuration the precedence table asks for. *)
Definition resolved (w : World) : Configuration :=
  {| GovernanceService :=
       first_nonempty [env_value w "INPUT_GOVERNANCE_SERVICE";
                       env_value w "GOVERNANCE_SERVICE";
                       env_value w "GOVERNANCE_API_URL"];
     GovernanceAuth :=
       first_nonempty [env_value w "INPUT_GOVERNANCE_AUTH";
                       env_value w "GOVERNANCE_AUTH";
                       env_value w "GOVERNANCE_API_TOKEN"];
     RuleID :=
       first_nonempty [env_value w "INPUT_RULE_ID";
                       env_value w "RULE_ID";
                       env_value w "GOVERNANCE_RULE_ID"];
     APIPath :=
       first_nonempty [env_value w "INPUT_API_PATH";
                       env_value w "API_PATH";
                       env_value w "OAS_FILE_PATH"];
     Mocked :=
       first_nonempty [env_value w "INPUT_MOCKED"; env_value w "MOCKED"] |}.

(** The allowed mock scenarios. *)
Definition scenario (s : string) : Prop := s = "success" ∨ s = "fail" ∨ s = "warning".

(** A finding reduced to what the fixtures fix: code, severity, range
    (start line, start char, end line, end char) and rule name. *)
Definition fixture (r : LintResult) : string * Z * (Z * Z * Z * Z) * string :=
  (Code r, Severity r,
   (Line (Start (Range r)), Character (Start (Range r)),
    Line (End_ (Range r)), Character (End_ (Range r))),
   RuleName (Rule r)).

Definition with_rule_name (name : string) (r : LintResult) : LintResult :=
  {| Code := Code r; Path := Path r; Message := Message r; Severity := Severity r;
     Range := Range r; Source := Source r; API := API r;
     Rule := {| RuleName := name |} |}.

(** The number of findings of one severity. *)
Definition count_severity (s : Z) (findings : list LintResult) : Z :=
  len (filter (λ r, Severity r = s) findings).

Definition errorCount (findings : list LintResult) : Z := count_severity 0 findings.
Definition warningCount (findings : list LintResult) : Z := count_severity 1 findings.
Definition totalCount (findings : list LintResult) : Z := len findings.

Definition failure_message (findings : list LintResult) : string :=
  "governance analysis failed with " +:+ fmt_d (errorCount findings)
  +:+ " errors and " +:+ fmt_d (warningCount findings) +:+ " warnings".

(** The values a Go program can hold: every [int] field of a finding is a
    64-bit integer, and a slice has at most [MaxInt] elements. *)
Definition int_fields (r : LintResult) : Prop :=
  is_int (Severity r)
  ∧ is_int (Line (Start (Range r))) ∧ is_int (Character (Start (Range r)))
  ∧ is_int (Line (End_ (Range r))) ∧ is_int (Character (End_ (Range r))).

Definition go_slice {A} (l : list A) : Prop := len l ≤ MaxInt.

(** The document path the report stage looks at, and the lines it loads:
    none when the path is empty or the open fails. *)
Definition snippet_path (w : World) : string :=
  first_nonempty [env_value w "INPUT_API_PATH"; env_value w "API_PATH"].

Definition opened (w : World) (path : string) : option string :=
  if open_refused w ReadOnly path then None else files w !! path.

Definition loaded_lines (w : World) : list string :=
  if decide (snippet_path w = "") then []
  else match opened w (snippet_path w) with
       | Some content => scan_lines content
       | None => []
       end.

(** Severity classes with their icon and label. *)
Definition level (severity : Z) : string * string :=
  if decide (severity = 0) then ("❌", "ERROR")
  else if decide (severity = 1) then ("⚠️", "WARNING")
  else ("ℹ️", "INFO").

Definition finding_line (r : LintResult) : string :=
  (level (Severity r)).1 +:+ " [" +:+ (level (Severity r)).2 +:+ "] ["
  +:+ strings_Join (Path r) "." +:+ "] " +:+ RuleName (Rule r) +:+ nl
  +:+ "    " +:+ Message r +:+ nl
  +:+ "    Location: line " +:+ fmt_d (Line (Start (Range r)))
  +:+ ", char " +:+ fmt_d (Character (Start (Range r)))
  +:+ " - line " +:+ fmt_d (Line (End_ (Range r)))
  +:+ ", char " +:+ fmt_d (Character (End_ (Range r))) +:+ nl.

(** When a snippet block is printed for a finding. *)
Definition has_snippet (lines : list string) (r : LintResult) : Prop :=
  lines ≠ [] ∧ 0 < Line (Start (Range r)) ∧ Line (End_ (Range r)) ≤ len lines.

Global Instance has_snippet_dec lines r : Decision (has_snippet lines r).
Proof. unfold has_snippet. apply _. Defined.

(** Line number [k] (1-based) of the document, annotated: the report's
    indentation, the number right-aligned to 4 columns, a bar, the line. *)
Definition numbered_line (lines : list string) (k : Z) : string :=
  "    " +:+ fmt_wd 4 k +:+ " | " +:+ default "" (lines !! Z.to_nat (k - 1)) +:+ nl.

(** The delimited block holding the lines [startLine .. endLine]. *)
Definition snippet_block (lines : list string) (r : LintResult) : list string :=
  if decide (has_snippet lines r) then
    ["    --- OAS snippet ---" +:+ nl]
    ++ (numbered_line lines <$>
          seqZ (Line (Start (Range r)))
               (Line (End_ (Range r)) - Line (Start (Range r)) + 1))
    ++ ["    -------------------" +:+ nl]
  else [].

Definition report_header : string :=
  nl +:+ "================ Governance Analysis Report ================" +:+ nl.
Definition report_footer : string :=
  "===========================================================" +:+ nl +:+ nl.

(** The whole report, chunk by chunk. *)
Definition report (lines : list string) (findings : list LintResult) : list string :=
  [report_header]
  ++ flat_map (λ r, finding_line r :: snippet_block lines r) findings
  ++ [report_footer].

(** The lines the emitter appends to the two output files. *)
Definition github_lines (findings : list LintResult) : string :=
  "error_count=" +:+ fmt_d (errorCount findings) +:+ nl
  +:+ "warning_count=" +:+ fmt_d (warningCount findings) +:+ nl
  +:+ "total_issues=" +:+ fmt_d (totalCount findings) +:+ nl.

Definition gitlab_lines (findings : list LintResult) : string :=
  "export error_count=" +:+ fmt_d (errorCount findings) +:+ nl
  +:+ "export warning_count=" +:+ fmt_d (warningCount findings) +:+ nl
  +:+ "export total_issues=" +:+ fmt_d (totalCount findings) +:+ nl.

(** The world after the attempt to load the document lines: one open
    event when there is a path to open. *)
Definition after_load (w : World) : World :=
  if decide (snippet_path w = "") then w
  else with_trace w (trace w ++
         [EvOpen ReadOnly (snippet_path w)
                 (bool_decide (is_Some (opened w (snippet_path w))))]).

(** The world once the report is printed, before the outputs are set. *)
Definition printed (w : World) (results : list LintResult) : World :=
  with_stdout (after_load w) (stdout w ++ report (loaded_lines w) results).

(** A computation that always returns and leaves the report and the log
    as they are. *)
Definition quiet {A} (m : IO A) : Prop :=
  ∀ w, ∃ w' a, m w = Done w' a ∧ stdout w' = stdout w ∧ logs w' = logs w.

(** The world with more log entries. *)
Definition log_more (w : World) (entries : list (LogLevel * string)) : World :=
  with_logs w (logs w ++ entries).

(** The platform the environment announces: the GitHub flag first. *)
Definition platform (w : World) : string :=
  if decide (env_value w "GITHUB_ACTIONS" = "true") then "github"
  else if decide (env_value w "GITLAB_CI" = "true") then "gitlab"
  else "local".

(** The file of the GitLab channel. *)
Definition gitlab_output_file (w : World) : string :=
  if decide (env_value w "GITLAB_OUTPUT_FILE" = "") then "governance_output.env"
  else env_value w "GITLAB_OUTPUT_FILE".

(** The names under which the counts are published. *)
Definition count_names : list string := ["error_count"; "warning_count"; "total_issues"].

(** What the emitter may change between two worlds: the two output files
    and the three count variables, nothing else besides the trace. *)
Definition emits_only (w w' : World) : Prop :=
  stdout w' = stdout w ∧ logs w' = logs w
  ∧ open_refused w' = open_refused w ∧ remote w' = remote w
  ∧ (∀ name, name ∉ count_names → environ w' !! name = environ w !! name)
  ∧ (∀ path, path ≠ env_value w "GITHUB_OUTPUT" → path ≠ gitlab_output_file w
             → files w' !! path = files w !! path).

(** The verdict of the report stage, as a function of the findings. *)
Definition verdict (findings : list LintResult) : option error :=
  if decide (0 < errorCount findings) then Some (failure_message findings) else None.

(** The world after an attempt to open [path] for reading. *)
Definition after_open (w : World) (path : string) : World :=
  with_trace w (trace w ++ [EvOpen ReadOnly path (bool_decide (is_Some (opened w path)))]).

(** What [RunAction] logs before it looks at the configuration, and what
    it logs in mock mode. *)
Definition started : list (LogLevel * string) :=
  [(LInfo, "Starting governance action"); (LInfo, "Detected CI platform");
   (LInfo, "Retrieved context")].

Definition mock_logs : list (LogLevel * string) :=
  [(LInfo, "Running in mocked mode"); (LInfo, "Generated mock results")].

(** The path [readOASFile] reads: the given one when it is absolute, its
    resolution otherwise. *)
Definition resolved_path (Abs : string → result string) (path : string) : result string :=
  if filepath_IsAbs path then Ok path else Abs path.

(** The request the client sends, and the value it marshals. *)
Definition sent_request (c : GovernanceClient) (requestBody : string) : HTTPRequest :=
  {| req_method := "POST";
     req_url := baseURL c +:+ "/rulesets/evaluate";
     req_headers := [("Content-Type", "application/json"); ("X-API-Key", authToken c)];
     req_body := requestBody |}.

Definition analysis_request (oasContent ruleID filename : string) : GoValue :=
  VMap [("ruleSetSelector", VMap [("id", VString ruleID)]);
        ("apiContent", VMap [("name", VString filename);
                             ("content", VString oasContent)])].

(** What the service's answer becomes, and what is logged about it. *)
Definition answer (json_Unmarshal : string → result (list LintResult))
    (o : HTTPOutcome) : result (list LintResult) :=
  match o with
  | TransportFailure e => Err ("failed to make request: " +:+ e)
  | Response _ _ (Some e) => Err ("failed to read response body: " +:+ e)
  | Response status body None =>
      if decide (status = 200) then
        match json_Unmarshal body with
        | Ok results => Ok results
        | Err e => Err ("failed to unmarshal response: " +:+ e)
        end
      else Err ("governance service returned status " +:+ fmt_d status +:+ ": " +:+ body)
  end.

Definition answer_logs (o : HTTPOutcome) : list (LogLevel * string) :=
  match o with
  | Response status _ None =>
      if decide (status = 200) then []
      else [(LError, "Governance service returned error")]
  | _ => []
  end.

(** A computation that returns and changes only what the emitter may. *)
Definition emitter (m : IO unit) : Prop :=
  ∀ w, ∃ w', m w = Done w' tt ∧ emits_only w w'.

(** *** The response body

    The JSON text of a finding, as a value: an object with the members of
    the Finding shape in any order, the numbers in decimal. *)
Definition json_int (z : Z) : json.Value := json.JNumber (fmt_d z).

Definition object_of (v : json.Value) (members : list (string * json.Value)) : Prop :=
  ∃ ms, v = json.JObject ms ∧ ms ≡ₚ members.

Definition location_object (v : json.Value) (l : LintLocation) : Prop :=
  object_of v [("line", json_int (Line l)); ("character", json_int (Character l))].

Definition range_object (v : json.Value) (g : LintRange) : Prop :=
  ∃ s e, object_of v [("start", s); ("end", e)]
         ∧ location_object s (Start g) ∧ location_object e (End_ g).

Definition api_object (v : json.Value) (a : APIReference) : Prop :=
  object_of v [("id", json.JString (ID a)); ("name", json.JString (Name a))].

Definition rule_object (v : json.Value) (u : RuleReference) : Prop :=
  object_of v [("name", json.JString (RuleName u))].

Definition finding_object (v : json.Value) (r : LintResult) : Prop :=
  ∃ g a u,
    object_of v [("code", json.JString (Code r));
                 ("path", json.JArray (json.JString <$> Path r));
                 ("message", json.JString (Message r));
                 ("severity", json_int (Severity r));
                 ("range", g);
                 ("source", json.JString (Source r));
                 ("api", a);
                 ("rule", u)]
    ∧ range_object g (Range r) ∧ api_object a (API r) ∧ rule_object u (Rule r).

(** A body that is a JSON array of Finding objects. *)
Definition finding_array (body : string) (findings : list LintResult) : Prop :=
  ∃ items, json.parse body = Some (json.JArray items)
           ∧ Forall2 finding_object items findings.

(** The values the decoder stores without a type error, by shape: [null]
    everywhere; a string for a string; a number that [strconv.ParseInt]
    reads for an [int]; an array of such strings for the path; for a
    struct an object whose members, where the key selects a field, hold
    what the field takes. *)
Definition takes_string (x : json.Value) : bool :=
  match x with
  | json.JNull | json.JString _ => true
  | _ => false
  end.

Definition takes_int (x : json.Value) : bool :=
  match x with
  | json.JNull => true
  | json.JNumber literal => bool_decide (is_Some (json.strconv_ParseInt literal))
  | _ => false
  end.

Definition takes_strings (x : json.Value) : bool :=
  match x with
  | json.JNull => true
  | json.JArray items => forallb takes_string items
  | _ => false
  end.

Definition takes_struct {F} (fields : list (string * F)) (takes : F → json.Value → bool)
    (x : json.Value) : bool :=
  match x with
  | json.JNull => true
  | json.JObject members =>
      forallb (λ kx : string * json.Value,
                 match json.field fields kx.1 with
                 | Some f => takes f kx.2
                 | None => true
                 end) members
  | _ => false
  end.

Definition takes_LintLocation : json.Value → bool :=
  takes_struct json.LintLocation_fields (λ _, takes_int).

Definition takes_LintRange : json.Value → bool :=
  takes_struct json.LintRange_fields (λ _, takes_LintLocation).

Definition takes_APIReference : json.Value → bool :=
  takes_struct json.APIReference_fields (λ _, takes_string).

Definition takes_RuleReference : json.Value → bool :=
  takes_struct json.RuleReference_fields (λ _, takes_string).

Definition LintResult_takes (f : json.LintResult_field) : json.Value → bool :=
  match f with
  | json.F_code | json.F_message | json.F_source => takes_string
  | json.F_path => takes_strings
  | json.F_severity => takes_int
  | json.F_range => takes_LintRange
  | json.F_api => takes_APIReference
  | json.F_rule => takes_RuleReference
  end.

Definition takes_LintResult : json.Value → bool :=
  takes_struct json.LintResult_fields LintResult_takes.

Definition decodable (x : json.Value) : bool :=
  match x with
  | json.JNull => true
  | json.JArray items => forallb takes_LintResult items
  | _ => false
  end.

End Spec.

Export Spec.

(** ** Sample inputs *)

Module Samples.

(** A document of twelve lines. *)
Definition document : string :=
  "openapi: 3.0.0" +:+ nl +:+ "info:" +:+ nl +:+ "  title: t" +:+ nl
  +:+ "  version: 1" +:+ nl +:+ "paths:" +:+ nl +:+ "  /test:" +:+ nl
  +:+ "    get:" +:+ nl +:+ "      security: []" +:+ nl
  +:+ "      responses:" +:+ nl +:+ "        '200':" +:+ nl
  +:+ "          description: ok" +:+ nl +:+ "          headers: {}" +:+ nl.

Definition no_service (req : HTTPRequest) : HTTPOutcome :=
  TransportFailure "connection refused".

(** A GitHub Actions run whose document is named by [INPUT_API_PATH]. *)
Definition github_run : World :=
  {| environ := <["INPUT_API_PATH" := "openapi.yaml"]>
                  (<["GITHUB_ACTIONS" := "true"]>
                     (<["GITHUB_OUTPUT" := "github_output"]> ∅));
     files := <["openapi.yaml" := document]> ∅;
     open_refused := λ _ _, false;
     remote := no_service;
     stdout := []; logs := []; trace := [] |}.

(** A GitLab CI run whose document is named by the legacy alias only. *)
Definition gitlab_run : World :=
  {| environ := <["OAS_FILE_PATH" := "openapi.yaml"]>
                  (<["GITLAB_CI" := "true"]> ∅);
     files := <["openapi.yaml" := document]> ∅;
     open_refused := λ _ _, false;
     remote := no_service;
     stdout := []; logs := []; trace := [] |}.

(** A document of one line, and a finding on that line. *)
Definition one_line_run : World :=
  {| environ := <["API_PATH" := "one.yaml"]> ∅;
     files := <["one.yaml" := "openapi: 3.0.0" +:+ nl]> ∅;
     open_refused := λ _ _, false;
     remote := no_service;
     stdout := []; logs := []; trace := [] |}.

(** A service that answers 401, and stand-ins for the JSON codec that
    know the empty array only. *)
Definition unauthorized (req : HTTPRequest) : HTTPOutcome :=
  Response 401 "unauthorized" None.

Definition service_run : World :=
  {| environ := ∅; files := ∅; open_refused := λ _ _, false;
     remote := unauthorized;
     stdout := []; logs := []; trace := [] |}.

Definition marshal (v : GoValue) : result string := Ok "{}".

Definition unmarshal (body : string) : result (list LintResult) :=
  if bool_decide (body = "[]") then Ok [] else Err "unexpected end of JSON input".

Definition finding_at (startLine endLine : Z) : LintResult :=
  {| Code := "rule"; Path := ["info"]; Message := "message"; Severity := 2;
     Range := {| Start := {| Line := startLine; Character := 1 |};
                 End_ := {| Line := endLine; Character := 2 |} |};
     Source := ""; API := {| ID := ""; Name := "" |};
     Rule := {| RuleName := "r" |} |}.

(** A mock run of the "fail" scenario on GitHub Actions. *)
Definition mock_fail_run : World :=
  {| environ := <["MOCKED" := "fail"]>
                  (<["RULE_ID" := "rule-1"]>
                     (<["API_PATH" := "openapi.yaml"]>
                        (<["GITHUB_ACTIONS" := "true"]>
                           (<["GITHUB_OUTPUT" := "github_output"]> ∅))));
     files := <["openapi.yaml" := document]> ∅;
     open_refused := λ _ _, false;
     remote := no_service;
     stdout := []; logs := []; trace := [] |}.

(** A run against a service that answers 401; the document is there. *)
Definition normal_run : World :=
  {| environ := <["GOVERNANCE_SERVICE" := "http://localhost:8080/api"]>
                  (<["GOVERNANCE_AUTH" := "token"]>
                     (<["RULE_ID" := "rule-1"]>
                        (<["API_PATH" := "/work/openapi.yaml"]> ∅)));
     files := <["/work/openapi.yaml" := document]> ∅;
     open_refused := λ _ _, false;
     remote := unauthorized;
     stdout := []; logs := []; trace := [] |}.

(** The same run with a document that does not exist. *)
Definition missing_document_run : World :=
  {| environ := <["GOVERNANCE_SERVICE" := "http://localhost:8080/api"]>
                  (<["GOVERNANCE_AUTH" := "token"]>
                     (<["RULE_ID" := "rule-1"]>
                        (<["API_PATH" := "/work/missing.yaml"]> ∅)));
     files := <["/work/openapi.yaml" := document]> ∅;
     open_refused := λ _ _, false;
     remote := unauthorized;
     stdout := []; logs := []; trace := [] |}.

(** GitHub Actions without an output file, and a run under both flags. *)
Definition github_no_output_run : World :=
  {| environ := <["GITHUB_ACTIONS" := "true"]> ∅;
     files := ∅; open_refused := λ _ _, false; remote := no_service;
     stdout := []; logs := []; trace := [] |}.

Definition both_flags_run : World :=
  {| environ := <["GITHUB_ACTIONS" := "true"]>
                  (<["GITLAB_CI" := "true"]>
                     (<["GITHUB_OUTPUT" := "github_output"]> ∅));
     files := ∅; open_refused := λ _ _, false; remote := no_service;
     stdout := []; logs := []; trace := [] |}.

(** Stand-ins for the working directory, the text of a failed read and a
    client that returns one finding. *)
Definition abs (path : string) : result string := Ok ("/work/" +:+ path).

Definition read_error (path : string) : error :=
  "open " +:+ path +:+ ": no such file or directory".

Definition one_finding (c : GovernanceClient) (oasContent ruleID : string)
  : IO (result (list LintResult)) := mret (Ok [finding_at 1 1]).

(** A service that answers 200 with a given body; JSON texts, written
    with apostrophes for the quotation marks; the text of a decoding
    error. *)
Definition answering (body : string) : World :=
  {| environ := ∅; files := ∅; open_refused := λ _ _, false;
     remote := λ _, Response 200 body None;
     stdout := []; logs := []; trace := [] |}.

Fixpoint json_text (s : string) : string :=
  match s with
  | EmptyString => ""
  | String c rest =>
      String (if Ascii.eqb c (json.chr 39) then json.quote else c) (json_text rest)
  end.

Definition finding_body : string :=
  json_text ("[{'rule':{'name':'r'},'code':'rule','path':['info'],"
             +:+ "'message':'message','severity':2,"
             +:+ "'range':{'end':{'line':4,'character':2},"
             +:+ "'start':{'character':1,'line':3}},"
             +:+ "'source':'','api':{'id':'','name':''}}]").

Definition decode_error (body : string) : error := "unexpected end of JSON input".

End Samples.

(** * Properties *)

(** ** Machine integers *)

Lemma wrap_id z : is_int z → wrap z = z.
Proof.
  unfold is_int, wrap, MinInt, MaxInt. intros Hz.
  rewrite Z.mod_small; lia.
Qed.

Lemma wrap_is_int z : is_int (wrap z).
Proof.
  unfold is_int, wrap, MinInt, MaxInt.
  pose proof (Z.mod_pos_bound (z + 2 ^ 63) (2 ^ 64)). lia.
Qed.

Lemma wrap_add_l a b : wrap (wrap a + b) = wrap (a + b).
Proof.
  unfold wrap. f_equal.
  replace ((a + 2 ^ 63) `mod` 2 ^ 64 - 2 ^ 63 + b + 2 ^ 63)
    with ((a + 2 ^ 63) `mod` 2 ^ 64 + b) by lia.
  rewrite Zplus_mod_idemp_l. f_equal. lia.
Qed.

(** ** The runtime on small inputs *)

Example scan_lines_example :
  scan_lines ("a" +:+ nl +:+ "b" +:+ String CR nl +:+ nl +:+ "c") = ["a"; "b"; ""; "c"]
  ∧ scan_lines ("a" +:+ nl) = ["a"] ∧ scan_lines "" = [].
Proof. by vm_compute. Qed.

Example fmt_wd_example :
  fmt_wd 4 1 = "   1" ∧ fmt_wd 4 (-1) = "  -1" ∧ fmt_wd 4 12345 = "12345".
Proof. by vm_compute. Qed.

Example strings_Join_example :
  strings_Join ["paths"; "/test"; "get"] "." = "paths./test.get"
  ∧ strings_Join [] "." = "".
Proof. by vm_compute. Qed.

Example wrap_example : int_add MaxInt 1 = MinInt ∧ int_sub MinInt 1 = MaxInt.
Proof. by vm_compute. Qed.

(** ** Running the monad *)

Ltac io_unfold := unfold mbind, IO_bind, bind, mret, IO_ret, ret.

Lemma bind_Done {A B} (m : IO A) (k : A → IO B) w w' a :
  m w = Done w' a → (m ≫= k) w = k a w'.
Proof. intros Hm. io_unfold. by rewrite Hm. Qed.

Lemma with_stdout_nil w : with_stdout w (stdout w ++ []) = w.
Proof. destruct w. unfold with_stdout. simpl. by rewrite app_nil_r. Qed.

Lemma index_in_range (lines : list string) i w :
  0 ≤ i < len lines → index lines i w = Done w (default "" (lines !! Z.to_nat i)).
Proof.
  intros [Hlo Hhi]. unfold index.
  rewrite (proj2 (Z.leb_le 0 i) Hlo), (proj2 (Z.ltb_lt i _) Hhi). simpl.
  destruct (lines !! Z.to_nat i) as [x|] eqn:Hx; [done|].
  apply lookup_ge_None in Hx. unfold len in Hhi. lia.
Qed.

Lemma snippet_loop_rows fuel : ∀ (lines : list string) e i w,
  0 ≤ i → e ≤ len lines → is_int e → (Z.to_nat (e - i) ≤ fuel)%nat →
  snippet_loop fuel lines e i w
  = Done (with_stdout w (stdout w ++ (numbered_line lines <$> seqZ (i + 1) (e - i)))) tt.
Proof.
  induction fuel as [|fuel IH]; intros lines e i w Hi He Hint Hfuel.
  - assert (e ≤ i) by lia.
    simpl. rewrite (proj2 (Z.ltb_ge i e)) by lia. simpl.
    rewrite seqZ_nil by lia. io_unfold. by rewrite with_stdout_nil.
  - simpl. destruct (Z.ltb_spec i e) as [Hlt|Hge]; simpl.
    + rewrite (proj2 (Z.ltb_lt i (len lines))) by lia.
      io_unfold. rewrite index_in_range by lia.
      unfold fmt_Print. unfold int_add. rewrite wrap_id by (unfold is_int, MinInt, MaxInt in *; lia).
      assert (0 ≤ i + 1) as H1 by lia.
      assert ((Z.to_nat (e - (i + 1)) <= fuel)%nat) as H2 by lia.
      rewrite (IH lines e (i + 1) _ H1 He Hint H2).
      f_equal. unfold with_stdout; simpl. f_equal.
      rewrite <- app_assoc. f_equal.
      rewrite (seqZ_cons (i + 1) (e - i)) by lia. simpl.
      unfold numbered_line at 2. replace (i + 1 - 1) with i by lia.
      f_equal.
      replace (Z.succ (i + 1)) with (i + 1 + 1) by lia.
      replace (Z.pred (e - i)) with (e - (i + 1)) by lia. done.
    + rewrite seqZ_nil by lia; io_unfold; by rewrite with_stdout_nil.
Qed.

Lemma int_sub_1 z : is_int z → 0 < z → int_sub z 1 = z - 1.
Proof.
  intros Hz Hpos. unfold int_sub. apply wrap_id.
  unfold is_int, MinInt, MaxInt in *. lia.
Qed.

Lemma fmt_Println_run s w :
  fmt_Println s w = Done (with_stdout w (stdout w ++ [s +:+ nl])) tt.
Proof. done. Qed.

(** One result: its line, then its snippet block; the counter of its
    severity class goes up by one. *)
Lemma report_result_run lines r ec wc w :
  int_fields r →
  report_result lines r ec wc w
  = Done (with_stdout w (stdout w ++ finding_line r :: snippet_block lines r))
         (if decide (Severity r = 0) then int_add ec 1 else ec,
          if decide (Severity r = 1) then int_add wc 1 else wc).
Proof.
  intros (_ & Hs & _ & He & _). unfold report_result.
  assert (∀ (icon sev : string) (ec' wc' : Z),
    (fmt_Print (result_line icon sev (strings_Join (Path r) ".") r);;
     (if (0 <? len lines) && (0 <? Line (Start (Range r)))
         && (Line (End_ (Range r)) <=? len lines)
      then fmt_Println "    --- OAS snippet ---";;
           snippet_loop (length lines) lines (Line (End_ (Range r)))
                        (int_sub (Line (Start (Range r))) 1);;
           fmt_Println "    -------------------"
      else mret tt);;
     mret (ec', wc')) w
    = Done (with_stdout w (stdout w ++
              result_line icon sev (strings_Join (Path r) ".") r :: snippet_block lines r))
           (ec', wc')) as Hbody.
  { intros icon sev ec' wc'. io_unfold. unfold fmt_Print at 1.
    unfold snippet_block. destruct (decide (has_snippet lines r)) as [(Hne & Hpos & Hend)|Hno].
    - assert (0 < len lines) as Hlen.
      { unfold len. destruct lines; [done|simpl; lia]. }
      rewrite (proj2 (Z.ltb_lt 0 _) Hlen), (proj2 (Z.ltb_lt 0 _) Hpos),
        (proj2 (Z.leb_le _ _) Hend). simpl.
      rewrite int_sub_1 by done.
      rewrite snippet_loop_rows; [|lia|done|done|unfold len in *; lia].
      rewrite !fmt_Println_run. unfold with_stdout; simpl.
      replace (Line (Start (Range r)) - 1 + 1) with (Line (Start (Range r))) by lia.
      replace (Line (End_ (Range r)) - (Line (Start (Range r)) - 1))
        with (Line (End_ (Range r)) - Line (Start (Range r)) + 1) by lia.
      do 2 f_equal. rewrite <- !app_assoc. done.
    - assert ((0 <? len lines) && (0 <? Line (Start (Range r)))
              && (Line (End_ (Range r)) <=? len lines) = false) as ->.
      { apply not_true_is_false. intros Ht.
        apply andb_prop in Ht as [Ht H3]. apply andb_prop in Ht as [H1 H2].
        apply Hno. split_and!.
        - intros ->. by apply Z.ltb_lt in H1.
        - by apply Z.ltb_lt.
        - by apply Z.leb_le. }
      done. }
  unfold finding_line, level.
  destruct (decide (Severity r = 0)) as [H0|H0];
    [|destruct (decide (Severity r = 1)) as [H1|H1]].
  - rewrite (proj2 (Z.eqb_eq _ 0) H0).
    destruct (decide (Severity r = 1)); [lia|]. apply Hbody.
  - rewrite (proj2 (Z.eqb_neq _ _) H0), (proj2 (Z.eqb_eq _ 1) H1). apply Hbody.
  - rewrite (proj2 (Z.eqb_neq _ _) H0), (proj2 (Z.eqb_neq _ _) H1). apply Hbody.
Qed.

Lemma count_severity_cons s r rs :
  count_severity s (r :: rs)
  = (if decide (Severity r = s) then 1 else 0) + count_severity s rs.
Proof.
  unfold count_severity, len. rewrite filter_cons.
  destruct (decide (Severity r = s)); simpl; lia.
Qed.

Lemma count_severity_nonneg s rs : 0 ≤ count_severity s rs.
Proof. unfold count_severity, len. lia. Qed.

(** The loop over the results: the chunks of all findings in order, and the
    two counters advanced (modulo 2^64) by the number of findings of their
    class. *)
Lemma report_loop_run lines rs : ∀ ec wc w,
  Forall int_fields rs → is_int ec → is_int wc →
  report_loop lines rs ec wc w
  = Done (with_stdout w (stdout w ++
            flat_map (λ r, finding_line r :: snippet_block lines r) rs))
         (wrap (ec + errorCount rs), wrap (wc + warningCount rs)).
Proof.
  induction rs as [|r rs IH]; intros ec wc w Hrs Hec Hwc.
  - simpl. io_unfold. rewrite with_stdout_nil.
    unfold errorCount, warningCount, count_severity, len. simpl.
    by rewrite !Z.add_0_r, !wrap_id.
  - apply Forall_cons in Hrs as [Hr Hrs].
    simpl. io_unfold. rewrite report_result_run by done.
    rewrite IH; [|done|destruct (decide _); [apply wrap_is_int|done]..].
    f_equal.
    + unfold with_stdout; simpl. f_equal. by rewrite <- app_assoc.
    + unfold errorCount, warningCount. rewrite !count_severity_cons.
      f_equal.
      * destruct (decide (Severity r = 0)).
        -- unfold int_add. rewrite wrap_add_l. f_equal; lia.
        -- f_equal; lia.
      * destruct (decide (Severity r = 1)).
        -- unfold int_add. rewrite wrap_add_l. f_equal; lia.
        -- f_equal; lia.
Qed.

Lemma is_int_0 : is_int 0.
Proof. unfold is_int, MinInt, MaxInt. lia. Qed.

Lemma first_nonempty_2 a b : first_nonempty [a; b] = if decide (a = "") then b else a.
Proof. simpl. destruct (decide (a = "")); [|done]. by destruct (decide (b = "")). Qed.

Lemma first_nonempty_3 a b c :
  first_nonempty [a; b; c] = if decide (a = "") then if decide (b = "") then c else b else a.
Proof.
  simpl. destruct (decide (a = "")); [|done]. destruct (decide (b = "")); [|done].
  by destruct (decide (c = "")).
Qed.

Lemma os_Getenv_run key w : os_Getenv key w = Done w (env_value w key).
Proof. done. Qed.

Lemma if_empty_getenv_run x key w :
  if_empty_getenv x key w = Done w (if decide (x = "") then env_value w key else x).
Proof.
  unfold if_empty_getenv. destruct (decide (x = "")) as [Hx|Hx].
  - by rewrite bool_decide_true.
  - by rewrite bool_decide_false.
Qed.

Lemma load_oasLines_run w : load_oasLines w = Done (after_load w) (loaded_lines w).
Proof.
  unfold load_oasLines, after_load, loaded_lines, snippet_path.
  rewrite first_nonempty_2.
  erewrite bind_Done by apply os_Getenv_run.
  erewrite bind_Done by apply if_empty_getenv_run.
  set (p := if decide (env_value w "INPUT_API_PATH" = "") then _ else _).
  destruct (decide (p = "")) as [Hp|Hp].
  - by rewrite bool_decide_false by (by intros ?).
  - rewrite bool_decide_true by done. unfold os_Open, opened. io_unfold.
    by destruct (if open_refused w ReadOnly p then None else files w !! p).
Qed.

(** *** The output emitter *)

Lemma quiet_ret {A} (a : A) : quiet (mret a).
Proof. intros w. by exists w, a. Qed.

Lemma quiet_bind {A B} (m : IO A) (k : A → IO B) :
  quiet m → (∀ a, quiet (k a)) → quiet (m ≫= k).
Proof.
  intros Hm Hk w. destruct (Hm w) as (w1 & a & Hrun & Ho & Hl).
  destruct (Hk a w1) as (w2 & b & Hrun' & Ho' & Hl').
  exists w2, b. io_unfold. rewrite Hrun. split_and!; [done|congruence..].
Qed.

Lemma quiet_if {A} (c : bool) (m1 m2 : IO A) : quiet m1 → quiet m2 → quiet (if c then m1 else m2).
Proof. by destruct c. Qed.

Lemma quiet_Getenv key : quiet (os_Getenv key).
Proof. intros w. by eexists _, _. Qed.

Lemma quiet_Setenv key value : quiet (os_Setenv key value).
Proof. intros w. by eexists _, _. Qed.

Lemma quiet_OpenFile_append path : quiet (os_OpenFile_append path).
Proof.
  intros w. unfold os_OpenFile_append.
  destruct (open_refused w AppendCreate path); by eexists _, _.
Qed.

Lemma quiet_file_append path data : quiet (file_append path data).
Proof. intros w. by eexists _, _. Qed.

Lemma quiet_setGitHubOutput name value : quiet (setGitHubOutput name value).
Proof.
  unfold setGitHubOutput.
  apply quiet_bind; [apply quiet_Getenv|intros outputFile].
  apply quiet_if; [|apply quiet_ret].
  apply quiet_bind; [apply quiet_OpenFile_append|intros ok].
  apply quiet_if; [apply quiet_file_append|apply quiet_ret].
Qed.

Lemma quiet_setGitLabOutput name value : quiet (setGitLabOutput name value).
Proof.
  unfold setGitLabOutput.
  apply quiet_bind; [apply quiet_Getenv|intros outputFile].
  apply quiet_bind; [apply quiet_OpenFile_append|intros ok].
  apply quiet_bind; [|intros _; apply quiet_Setenv].
  apply quiet_if; [apply quiet_file_append|apply quiet_ret].
Qed.

(** The emitter always returns, and writes nothing to the report or the
    log. *)
Lemma quiet_emit_outputs ec wc total : quiet (emit_outputs ec wc total).
Proof.
  unfold emit_outputs.
  apply quiet_bind; [apply quiet_Getenv|intros github].
  apply quiet_bind.
  { apply quiet_if; [|apply quiet_ret].
    repeat (apply quiet_bind; [apply quiet_setGitHubOutput|intros _]).
    apply quiet_setGitHubOutput. }
  intros _. apply quiet_bind; [apply quiet_Getenv|intros gitlab].
  apply quiet_if; [|apply quiet_ret].
  repeat (apply quiet_bind; [apply quiet_setGitLabOutput|intros _]).
  apply quiet_setGitLabOutput.
Qed.

(** A non-empty sequence goes through the whole function: load, report,
    emission with the counters, and the verdict on the error counter. *)
Lemma processResults_run results w :
  results ≠ [] → Forall int_fields results →
  ∃ w', emit_outputs (wrap (errorCount results)) (wrap (warningCount results))
                     (len results) (printed w results) = Done w' tt
        ∧ processResults results w
          = Done w' (if 0 <? wrap (errorCount results)
                     then Some ("governance analysis failed with "
                                +:+ fmt_d (wrap (errorCount results)) +:+ " errors and "
                                +:+ fmt_d (wrap (warningCount results)) +:+ " warnings")
                     else None)
        ∧ stdout w' = stdout w ++ report (loaded_lines w) results.
Proof.
  intros Hne Hwf.
  destruct (quiet_emit_outputs (wrap (errorCount results)) (wrap (warningCount results))
              (len results) (printed w results)) as (w' & u & Hemit & Hout & _).
  destruct u.
  exists w'. split; [done|]. split; [|done].
  unfold processResults.
  assert ((len results =? 0) = false) as ->.
  { apply Z.eqb_neq. unfold len. destruct results; [done|simpl; lia]. }
  erewrite bind_Done by apply load_oasLines_run.
  erewrite bind_Done by apply fmt_Println_run.
  erewrite bind_Done by (apply report_loop_run; [done|apply is_int_0..]).
  cbv beta iota. rewrite !Z.add_0_l.
  erewrite bind_Done by apply fmt_Println_run.
  match goal with
  | |- (_ ≫= _) ?W = _ => replace W with (printed w results)
  end.
  - erewrite bind_Done by exact Hemit. by destruct (0 <? _).
  - unfold printed, report, with_stdout. simpl.
    assert (stdout (after_load w) = stdout w) as ->.
    { unfold after_load. by destruct (decide _). }
    f_equal. by rewrite <- !app_assoc.
Qed.

(** ** The mock result generator *)

(** C1. For every rule id, [generateMockResults] gives the empty sequence
    for "success"; for "warning" exactly two findings, both of severity 1,
    with codes mock-warning-001 and mock-warning-002 at (10,5)-(10,15) and
    (8,3)-(8,12); for "fail" exactly three findings in order,
    mock-error-001 (severity 0) at (10,5)-(10,15), mock-error-002
    (severity 0) at (12,7)-(12,10) and mock-warning-003 (severity 1) at
    (8,3)-(8,12); every finding carries the rule id as its rule name, and
    the rule id reaches the output through that field only. *)
Theorem generateMockResults_fixtures (ruleID : string) :
  generateMockResults "success" ruleID = []
  ∧ fixture <$> generateMockResults "warning" ruleID
    = [("mock-warning-001", 1, (10, 5, 10, 15), ruleID);
       ("mock-warning-002", 1, (8, 3, 8, 12), ruleID)]
  ∧ fixture <$> generateMockResults "fail" ruleID
    = [("mock-error-001", 0, (10, 5, 10, 15), ruleID);
       ("mock-error-002", 0, (12, 7, 12, 10), ruleID);
       ("mock-warning-003", 1, (8, 3, 8, 12), ruleID)]
  ∧ ∀ mockedType other,
      generateMockResults mockedType ruleID
      = with_rule_name ruleID <$> generateMockResults mockedType other.
Proof.
  split_and!; [done..|].
  intros mockedType other. unfold generateMockResults.
  repeat case_bool_decide; done.
Qed.

(** ** Configuration *)



Lemma two_fallbacks a b c :
  (if decide ((if decide (a = "") then b else a) = "") then c
   else if decide (a = "") then b else a)
  = first_nonempty [a; b; c].
Proof. rewrite first_nonempty_3. by repeat case_decide. Qed.

Lemma getConfiguration_run w : getConfiguration w = Done w (resolved w, None).
Proof.
  unfold getConfiguration, resolved.
  do 5 (erewrite bind_Done by apply os_Getenv_run).
  do 9 (erewrite bind_Done by apply if_empty_getenv_run).
  rewrite !two_fallbacks, first_nonempty_2. done.
Qed.

(** C4. Each field of the configuration is the first non-empty value over
    its own tiers: the INPUT_-prefixed variable, the plain variable and,
    for the service URL, the token, the rule id and the document path, the
    legacy alias; the mock flag has two tiers.  So a prefixed variable that
    is set wins (whatever the plain one holds), a legacy alias is used when
    both higher tiers are empty, and no other variable changes the mock
    flag. *)
Theorem getConfiguration_precedence (w : World) :
  ∃ c, getConfiguration w = Done w (c, None)
    ∧ c = resolved w
    ∧ (env_value w "INPUT_GOVERNANCE_SERVICE" ≠ ""
         → GovernanceService c = env_value w "INPUT_GOVERNANCE_SERVICE")
    ∧ (env_value w "INPUT_GOVERNANCE_AUTH" ≠ ""
         → GovernanceAuth c = env_value w "INPUT_GOVERNANCE_AUTH")
    ∧ (env_value w "INPUT_RULE_ID" ≠ "" → RuleID c = env_value w "INPUT_RULE_ID")
    ∧ (env_value w "INPUT_API_PATH" ≠ "" → APIPath c = env_value w "INPUT_API_PATH")
    ∧ (env_value w "INPUT_MOCKED" ≠ "" → Mocked c = env_value w "INPUT_MOCKED")
    ∧ (env_value w "INPUT_GOVERNANCE_SERVICE" = "" → env_value w "GOVERNANCE_SERVICE" = ""
         → GovernanceService c = env_value w "GOVERNANCE_API_URL")
    ∧ (env_value w "INPUT_GOVERNANCE_AUTH" = "" → env_value w "GOVERNANCE_AUTH" = ""
         → GovernanceAuth c = env_value w "GOVERNANCE_API_TOKEN")
    ∧ (env_value w "INPUT_RULE_ID" = "" → env_value w "RULE_ID" = ""
         → RuleID c = env_value w "GOVERNANCE_RULE_ID")
    ∧ (env_value w "INPUT_API_PATH" = "" → env_value w "API_PATH" = ""
         → APIPath c = env_value w "OAS_FILE_PATH")
    ∧ (∀ name value c',
         name ≠ "INPUT_MOCKED" → name ≠ "MOCKED"
         → getConfiguration (with_environ w (<[name := value]> (environ w)))
           = Done (with_environ w (<[name := value]> (environ w))) (c', None)
         → Mocked c' = Mocked c).
Proof.
  exists (resolved w). split; [apply getConfiguration_run|]. split; [done|].
  unfold resolved; simpl.
  split_and!; try (intros; repeat case_decide; congruence).
  intros name value c' Hn1 Hn2. rewrite getConfiguration_run.
  intros [= <-]. unfold resolved, env_value; simpl.
  by rewrite !lookup_insert_ne.
Qed.

Ltac validate_case :=
  split;
  [ intros Hfail; first [ by apply is_Some_None in Hfail | tauto ]
  | intros Hempty; first [ by eexists | tauto ] ].

(** C5. [Validate] rejects a mock scenario that is set but is not one of
    the three literals; with one of the literals it fails exactly when the
    rule id or the document path is empty; without a mock scenario it fails
    exactly when the service URL, the token, the rule id or the document
    path is empty.  It is a function of the configuration alone. *)
Theorem Validate_cases (c : Configuration) :
  (Mocked c ≠ "" → ¬ scenario (Mocked c)
     → Validate c = Some "mocked must be one of: success, fail, warning")
  ∧ (scenario (Mocked c) → (is_Some (Validate c) ↔ RuleID c = "" ∨ APIPath c = ""))
  ∧ (Mocked c = ""
       → (is_Some (Validate c)
          ↔ GovernanceService c = "" ∨ GovernanceAuth c = ""
            ∨ RuleID c = "" ∨ APIPath c = "")).
Proof.
  unfold Validate, scenario. split_and!.
  - intros Hset Hbad. rewrite bool_decide_true by done.
    rewrite !bool_decide_true by tauto. done.
  - intros Hs. assert (Mocked c ≠ "") as Hset by (by destruct Hs as [->|[->| ->]]).
    rewrite bool_decide_true by done.
    assert (bool_decide (Mocked c ≠ "success") && bool_decide (Mocked c ≠ "fail")
            && bool_decide (Mocked c ≠ "warning") = false) as ->.
    { destruct Hs as [->|[->| ->]]; done. }
    repeat case_bool_decide; validate_case.
  - intros Hm. rewrite bool_decide_false by tauto.
    repeat case_bool_decide; validate_case.
Qed.

(** ** The report stage on an empty sequence *)

(** C6. On the empty sequence [processResults] logs that there are no
    issues and returns success at once: all three counts are zero, and the
    file system is neither read nor written, whatever the environment
    names as the document. *)
Theorem processResults_empty (w : World) :
  ∃ w', processResults [] w = Done w' None
    ∧ w' = with_logs w (logs w ++ [(LInfo, "No governance issues found")])
    ∧ trace w' = trace w ∧ files w' = files w
    ∧ stdout w' = stdout w ∧ environ w' = environ w
    ∧ errorCount [] = 0 ∧ warningCount [] = 0 ∧ totalCount [] = 0.
Proof. eexists. split_and!; done. Qed.

(** ** The report stage on any sequence *)

Lemma counts_le_total rs : errorCount rs + warningCount rs ≤ totalCount rs.
Proof.
  unfold errorCount, warningCount, totalCount.
  induction rs as [|r rs IH]; [done|].
  rewrite !count_severity_cons. unfold len in *. simpl length.
  repeat case_decide; lia.
Qed.

Lemma counts_eq_total rs :
  errorCount rs + warningCount rs = totalCount rs
  ↔ Forall (λ r, Severity r = 0 ∨ Severity r = 1) rs.
Proof.
  unfold errorCount, warningCount, totalCount.
  induction rs as [|r rs IH]; [by split|].
  pose proof (counts_le_total rs) as Hle.
  unfold errorCount, warningCount, totalCount in Hle.
  rewrite Forall_cons, <- IH, !count_severity_cons.
  unfold len in *. simpl length.
  repeat case_decide; split; intros; try lia; split; first [lia | tauto | auto].
Qed.

Lemma counts_are_ints rs :
  go_slice rs → wrap (errorCount rs) = errorCount rs ∧ wrap (warningCount rs) = warningCount rs.
Proof.
  intros Hrs. unfold go_slice in Hrs.
  pose proof (counts_le_total rs) as Hle. unfold totalCount in Hle.
  pose proof (count_severity_nonneg 0 rs). pose proof (count_severity_nonneg 1 rs).
  unfold errorCount, warningCount in *.
  split; apply wrap_id; unfold is_int, MinInt, MaxInt in *; lia.
Qed.

(** C2. [processResults] returns an error exactly when at least one finding
    has severity 0; the error then reads "governance analysis failed with
    E errors and W warnings" with the two counts; with no finding of
    severity 0 it returns success, however many warnings there are. *)
Theorem processResults_fails_iff_errors (results : list LintResult) (w : World) :
  go_slice results → Forall int_fields results →
  ∃ w' err, processResults results w = Done w' err
    ∧ (is_Some err ↔ 0 < errorCount results)
    ∧ (0 < errorCount results → err = Some (failure_message results))
    ∧ (errorCount results = 0 → err = None).
Proof.
  intros Hslice Hwf. destruct results as [|r rs].
  - exists (with_logs w (logs w ++ [(LInfo, "No governance issues found")])), None.
    split_and!; [done| |done..].
    split; [by intros ?%is_Some_None|done].
  - destruct (processResults_run (r :: rs) w) as (w' & _ & Hrun & _); [done..|].
    destruct (counts_are_ints (r :: rs) Hslice) as [He Hw].
    rewrite He, Hw in Hrun. eexists _, _. split; [exact Hrun|].
    fold (failure_message (r :: rs)).
    destruct (Z.ltb_spec 0 (errorCount (r :: rs))) as [Hpos|Hzero].
    + split_and!; [by split; [|eexists]|done|lia].
    + split_and!; [split; [by intros ?%is_Some_None|lia]|lia|done].
Qed.

Lemma is_int_small z : -1000 ≤ z ≤ 1000 → is_int z.
Proof. unfold is_int, MinInt, MaxInt. lia. Qed.

(** What the mock generator returns are values of the Go types. *)
Lemma generateMockResults_well_typed mockedType ruleID :
  go_slice (generateMockResults mockedType ruleID)
  ∧ Forall int_fields (generateMockResults mockedType ruleID).
Proof.
  unfold generateMockResults, go_slice, len, MaxInt.
  repeat case_bool_decide; split; try (simpl; lia).
  all: repeat (apply Forall_cons; split); try done.
  all: unfold int_fields; simpl; split_and!; apply is_int_small; lia.
Qed.

Lemma processResults_fails_iff_errors_witness :
  go_slice (generateMockResults "fail" "rule-1")
  ∧ Forall int_fields (generateMockResults "fail" "rule-1")
  ∧ ∃ w' err,
      processResults (generateMockResults "fail" "rule-1") Samples.github_run = Done w' err
      ∧ (is_Some err ↔ 0 < errorCount (generateMockResults "fail" "rule-1"))
      ∧ (0 < errorCount (generateMockResults "fail" "rule-1")
           → err = Some (failure_message (generateMockResults "fail" "rule-1")))
      ∧ (errorCount (generateMockResults "fail" "rule-1") = 0 → err = None).
Proof.
  destruct (generateMockResults_well_typed "fail" "rule-1") as [Hslice Hwf].
  split_and!; [exact Hslice|exact Hwf|].
  exact (processResults_fails_iff_errors _ Samples.github_run Hslice Hwf).
Defined.

(** C3. The counters [processResults] keeps are the number of findings of
    severity 0 and the number of findings of severity 1, and the total it
    reports is the length of the sequence; a finding of any other severity
    is printed as INFO and moves neither counter.  So the two counters sum
    to at most the total, with equality exactly when every finding has
    severity 0 or 1. *)
Theorem processResults_summary (results : list LintResult) (w : World) :
  go_slice results → Forall int_fields results →
  (∀ lines w0, ∃ w1,
     report_loop lines results 0 0 w0 = Done w1 (errorCount results, warningCount results))
  ∧ (results ≠ [] →
     ∃ w' err,
       emit_outputs (errorCount results) (warningCount results) (totalCount results)
                    (printed w results) = Done w' tt
       ∧ processResults results w = Done w' err)
  ∧ (∀ r lines ec wc w0,
       int_fields r → Severity r ≠ 0 → Severity r ≠ 1 →
       ∃ w1, report_result lines r ec wc w0 = Done w1 (ec, wc)
             ∧ level (Severity r) = ("ℹ️", "INFO")
             ∧ stdout w1 = stdout w0 ++ finding_line r :: snippet_block lines r)
  ∧ errorCount results + warningCount results ≤ totalCount results
  ∧ (errorCount results + warningCount results = totalCount results
     ↔ Forall (λ r, Severity r = 0 ∨ Severity r = 1) results).
Proof.
  intros Hslice Hwf.
  destruct (counts_are_ints results Hslice) as [He Hw].
  split_and!.
  - intros lines w0. eexists.
    rewrite report_loop_run by (done || apply is_int_0).
    by rewrite !Z.add_0_l, He, Hw.
  - intros Hne. destruct (processResults_run results w Hne Hwf) as (w' & Hemit & Hrun & _).
    rewrite He, Hw in Hemit. by eexists _, _.
  - intros r lines ec wc w0 Hr H0 H1. eexists.
    rewrite report_result_run by done.
    rewrite !decide_False by done. split_and!; [done| |done].
    unfold level. by rewrite !decide_False.
  - apply counts_le_total.
  - apply counts_eq_total.
Qed.

Lemma processResults_summary_witness :
  go_slice (generateMockResults "fail" "rule-1")
  ∧ Forall int_fields (generateMockResults "fail" "rule-1")
  ∧ errorCount (generateMockResults "fail" "rule-1")
    + warningCount (generateMockResults "fail" "rule-1")
    ≤ totalCount (generateMockResults "fail" "rule-1").
Proof.
  destruct (generateMockResults_well_typed "fail" "rule-1") as [Hslice Hwf].
  split_and!; [exact Hslice|exact Hwf|].
  exact (proj1 (proj2 (proj2 (proj2
    (processResults_summary _ Samples.github_run Hslice Hwf))))).
Defined.

(** ** Snippets *)

(** C8. For a non-empty sequence the report is the header, then for every
    finding in order its line followed by its snippet block, then the
    footer.  The block is there exactly when some lines were loaded, the
    start line is positive and the end line is at most the number of loaded
    lines; it then holds, between its two delimiters, the lines numbered
    from the start line to the end line, each after the report's
    indentation with its number right-aligned to 4 columns, a bar and the
    line.  A finding on line 1 of a one-line document gets the single row
    "   1 | line" (after the indentation); a finding whose end line is
    beyond the loaded lines gets no block. *)
Theorem processResults_snippets (results : list LintResult) (w : World) :
  results ≠ [] → Forall int_fields results →
  ∃ w' err, processResults results w = Done w' err
    ∧ stdout w'
      = stdout w ++ [report_header]
        ++ flat_map (λ r, finding_line r :: snippet_block (loaded_lines w) r) results
        ++ [report_footer]
    ∧ (∀ r, snippet_block (loaded_lines w) r ≠ []
            ↔ loaded_lines w ≠ [] ∧ 0 < Line (Start (Range r))
              ∧ Line (End_ (Range r)) ≤ len (loaded_lines w))
    ∧ (∀ r, loaded_lines w ≠ [] → 0 < Line (Start (Range r))
            → Line (End_ (Range r)) ≤ len (loaded_lines w)
            → snippet_block (loaded_lines w) r
              = ["    --- OAS snippet ---" +:+ nl]
                ++ ((λ k, "    " +:+ fmt_wd 4 k +:+ " | "
                          +:+ default "" (loaded_lines w !! Z.to_nat (k - 1)) +:+ nl)
                      <$> seqZ (Line (Start (Range r)))
                               (Line (End_ (Range r)) - Line (Start (Range r)) + 1))
                ++ ["    -------------------" +:+ nl])
    ∧ (∀ r line, loaded_lines w = [line] → Line (Start (Range r)) = 1
            → Line (End_ (Range r)) = 1
            → snippet_block (loaded_lines w) r
              = ["    --- OAS snippet ---" +:+ nl;
                 "    " +:+ "   1 | " +:+ line +:+ nl;
                 "    -------------------" +:+ nl])
    ∧ (∀ r, len (loaded_lines w) < Line (End_ (Range r))
            → snippet_block (loaded_lines w) r = []).
Proof.
  intros Hne Hwf.
  destruct (processResults_run results w Hne Hwf) as (w' & _ & Hrun & Hout).
  eexists _, _. split; [exact Hrun|]. split_and!.
  - by rewrite Hout.
  - intros r. unfold snippet_block. case_decide as Hs.
    + split; [done|]. intros _. by destruct (_ ++ _) eqn:Heq.
    + split; [done|]. intros Hs'. by destruct Hs.
  - intros r H1 H2 H3. unfold snippet_block. by rewrite decide_True.
  - intros r line Hl Hs He. unfold snippet_block.
    rewrite decide_True by (unfold has_snippet, len; rewrite Hl, Hs, He; simpl; split_and!; [done|lia..]).
    rewrite Hl, Hs, He. done.
  - intros r Hbig. unfold snippet_block. rewrite decide_False; [done|].
    unfold has_snippet. lia.
Qed.

Lemma finding_at_well_typed a b :
  -1000 ≤ a ≤ 1000 → -1000 ≤ b ≤ 1000 → Forall int_fields [Samples.finding_at a b].
Proof.
  intros Ha Hb. apply Forall_cons. split; [|done].
  unfold int_fields. simpl. split_and!; apply is_int_small; lia.
Qed.

Lemma processResults_snippets_witness :
  [Samples.finding_at 1 1] ≠ []
  ∧ Forall int_fields [Samples.finding_at 1 1]
  ∧ ∃ w' err,
      processResults [Samples.finding_at 1 1] Samples.one_line_run = Done w' err
      ∧ stdout w'
        = [report_header;
           "ℹ️ [INFO] [info] r" +:+ nl +:+ "    message" +:+ nl
           +:+ "    Location: line 1, char 1 - line 1, char 2" +:+ nl;
           "    --- OAS snippet ---" +:+ nl;
           "       1 | openapi: 3.0.0" +:+ nl;
           "    -------------------" +:+ nl;
           report_footer].
Proof.
  assert ([Samples.finding_at 1 1] ≠ []) as Hne by discriminate.
  assert (Forall int_fields [Samples.finding_at 1 1]) as Hwf
    by (apply finding_at_well_typed; lia).
  split_and!; [exact Hne|exact Hwf|].
  destruct (processResults_snippets _ Samples.one_line_run Hne Hwf)
    as (w' & err & Hrun & Hout & _).
  exists w', err. split; [exact Hrun|]. rewrite Hout. vm_compute. reflexivity.
Defined.

(** C10. The report stage takes the document path from [INPUT_API_PATH]
    and then [API_PATH] only.  When both are empty, whatever
    [OAS_FILE_PATH] holds (and so whatever document path the configuration
    resolved to), no file is opened, no line is loaded and no snippet block
    is printed; the findings' lines, the counters given to the emitter and
    the verdict are those of the sequence alone. *)
Theorem snippets_ignore_legacy_alias (results : list LintResult) (w : World) :
  env_value w "INPUT_API_PATH" = "" → env_value w "API_PATH" = "" →
  results ≠ [] → Forall int_fields results →
  (∃ c, getConfiguration w = Done w (c, None) ∧ APIPath c = env_value w "OAS_FILE_PATH")
  ∧ load_oasLines w = Done w []
  ∧ ∃ w' err,
      processResults results w = Done w' err
      ∧ stdout w' = stdout w ++ [report_header] ++ (finding_line <$> results)
                    ++ [report_footer]
      ∧ emit_outputs (wrap (errorCount results)) (wrap (warningCount results))
                     (totalCount results)
                     (with_stdout w (stdout w ++ [report_header]
                                     ++ (finding_line <$> results) ++ [report_footer]))
        = Done w' tt
      ∧ err = (if 0 <? wrap (errorCount results)
               then Some ("governance analysis failed with "
                          +:+ fmt_d (wrap (errorCount results)) +:+ " errors and "
                          +:+ fmt_d (wrap (warningCount results)) +:+ " warnings")
               else None).
Proof.
  intros Hin Hplain Hne Hwf.
  assert (snippet_path w = "") as Hpath.
  { unfold snippet_path. rewrite Hin, Hplain. done. }
  assert (loaded_lines w = []) as Hlines.
  { unfold loaded_lines. by rewrite decide_True. }
  assert (after_load w = w) as Hload.
  { unfold after_load. by rewrite decide_True. }
  assert (report [] results = [report_header] ++ (finding_line <$> results) ++ [report_footer])
    as Hreport.
  { unfold report.
    assert (flat_map (λ r, finding_line r :: snippet_block [] r) results
            = finding_line <$> results) as ->; [|done].
    clear. induction results as [|r rs IH]; [done|].
    simpl. rewrite IH. unfold snippet_block.
    destruct (decide (has_snippet [] r)) as [[Hlines _]|_]; done. }
  split_and!.
  - exists (resolved w). split; [apply getConfiguration_run|].
    unfold resolved. simpl. rewrite Hin, Hplain. by repeat case_decide.
  - rewrite load_oasLines_run. by rewrite Hload, Hlines.
  - destruct (processResults_run results w Hne Hwf) as (w' & Hemit & Hrun & Hout).
    unfold printed in Hemit. rewrite Hload, Hlines, Hreport in Hemit.
    rewrite Hlines, Hreport in Hout.
    eexists _, _. split_and!; [exact Hrun|exact Hout|exact Hemit|done].
Qed.

Lemma snippets_ignore_legacy_alias_witness :
  env_value Samples.gitlab_run "INPUT_API_PATH" = ""
  ∧ env_value Samples.gitlab_run "API_PATH" = ""
  ∧ generateMockResults "warning" "rule-1" ≠ []
  ∧ Forall int_fields (generateMockResults "warning" "rule-1")
  ∧ (∃ c, getConfiguration Samples.gitlab_run = Done Samples.gitlab_run (c, None)
          ∧ APIPath c = "openapi.yaml")
  ∧ load_oasLines Samples.gitlab_run = Done Samples.gitlab_run [].
Proof.
  assert (env_value Samples.gitlab_run "INPUT_API_PATH" = "") as H1 by reflexivity.
  assert (env_value Samples.gitlab_run "API_PATH" = "") as H2 by reflexivity.
  assert (generateMockResults "warning" "rule-1" ≠ []) as H3 by discriminate.
  destruct (generateMockResults_well_typed "warning" "rule-1") as [_ H4].
  split_and!; [exact H1|exact H2|exact H3|exact H4|..].
  - destruct (snippets_ignore_legacy_alias _ Samples.gitlab_run H1 H2 H3 H4)
      as ((c & Hc & Hp) & _).
    exists c. split; [exact Hc|]. rewrite Hp. reflexivity.
  - exact (proj1 (proj2 (snippets_ignore_legacy_alias _ Samples.gitlab_run H1 H2 H3 H4))).
Defined.

(** ** The analysis client *)

(** What [makeAnalysisRequest] makes of the answer, for any decoder. *)
Lemma makeAnalysisRequest_answers
    (json_Marshal : GoValue → result string) (url_error : string → option error)
    (json_Unmarshal : string → result (list LintResult))
    (c : GovernanceClient) (request : GoValue) (requestBody : string) (w : World) :
  json_Marshal request = Ok requestBody →
  url_error (baseURL c +:+ "/rulesets/evaluate") = None →
  let req := {| req_method := "POST";
                req_url := baseURL c +:+ "/rulesets/evaluate";
                req_headers := [("Content-Type", "application/json");
                                ("X-API-Key", authToken c)];
                req_body := requestBody |} in
  let run := makeAnalysisRequest json_Marshal url_error json_Unmarshal c request w in
  let sent := with_logs w (logs w ++ [(LDebug, "Making request to governance service")]) in
  let refused :=
    with_logs w (logs w ++ [(LDebug, "Making request to governance service");
                            (LError, "Governance service returned error")]) in
  (∀ e, remote w req = TransportFailure e
        → run = Done sent (Err ("failed to make request: " +:+ e)))
  ∧ (∀ status body e, remote w req = Response status body (Some e)
        → run = Done sent (Err ("failed to read response body: " +:+ e)))
  ∧ (∀ status body, remote w req = Response status body None → status ≠ 200
        → run = Done refused (Err ("governance service returned status "
                                   +:+ fmt_d status +:+ ": " +:+ body)))
  ∧ (∀ body e, remote w req = Response 200 body None → json_Unmarshal body = Err e
        → run = Done sent (Err ("failed to unmarshal response: " +:+ e)))
  ∧ (∀ body results, remote w req = Response 200 body None
        → json_Unmarshal body = Ok results
        → run = Done sent (Ok results)).
Proof.
  intros Hmarshal Hurl req run sent refused.
  assert (run = match remote w req with
                | TransportFailure e => Done sent (Err ("failed to make request: " +:+ e))
                | Response _ _ (Some e) =>
                    Done sent (Err ("failed to read response body: " +:+ e))
                | Response status body None =>
                    if negb (status =? 200)
                    then Done refused (Err ("governance service returned status "
                                            +:+ fmt_d status +:+ ": " +:+ body))
                    else match json_Unmarshal body with
                         | Err e => Done sent (Err ("failed to unmarshal response: " +:+ e))
                         | Ok results => Done sent (Ok results)
                         end
                end) as Hrun.
  { unfold run, makeAnalysisRequest, http_NewRequest. rewrite Hmarshal, Hurl.
    erewrite bind_Done by reflexivity.
    erewrite bind_Done by reflexivity.
    change (Header_Set _ "X-API-Key" (authToken c)) with req.
    change (remote (with_logs w _) req) with (remote w req).
    destruct (remote w req) as [e|status body [e|]]; [done..|].
    destruct (negb (status =? 200)).
    - erewrite bind_Done by reflexivity. unfold refused, with_logs. simpl.
      by rewrite <- app_assoc.
    - by destruct (json_Unmarshal body). }
  rewrite Hrun. split_and!.
  - by intros e ->.
  - by intros status body e ->.
  - intros status body -> Hstatus. by rewrite (proj2 (Z.eqb_neq _ _) Hstatus).
  - by intros body e -> ->.
  - by intros body results -> ->.
Qed.

(** ** The decoder *)

(** *** Decimal numbers *)

Lemma pretty_N_char_digit (d : N) :
  (d < 10)%N →
  json.is_digit (pretty_N_char d) = true ∧ json.ord (pretty_N_char d) - 48 = Z.of_N d.
Proof.
  intros Hd. destruct d as [|p]; [done|].
  do 4 (try destruct p as [p|p|]); first [lia|by vm_compute].
Qed.

Lemma digits_from_pretty (x : N) (s : string) :
  json.digits_from 0 (pretty_N_go x s) = json.digits_from (Z.of_N x) s.
Proof.
  revert s. induction (N.lt_wf_0 x) as [x _ IH]. intros s.
  destruct (decide (x = 0)%N) as [->|Hx]; [by rewrite pretty_N_go_0|].
  rewrite pretty_N_go_step by lia.
  rewrite IH by (apply N.div_lt; lia).
  destruct (pretty_N_char_digit (x `mod` 10)) as [Hd Hc].
  { apply N.mod_lt. lia. }
  simpl. rewrite Hd, Hc. f_equal.
  rewrite (N.div_mod x 10) at 3 by lia. lia.
Qed.

Lemma pretty_N_go_head (x : N) (s : string) :
  (0 < x)%N → ∃ c rest, pretty_N_go x s = String c rest ∧ json.is_digit c = true.
Proof.
  revert s. induction (N.lt_wf_0 x) as [x _ IH]. intros s Hx.
  rewrite pretty_N_go_step by lia.
  destruct (decide (x `div` 10 = 0)%N) as [->|Hq].
  - rewrite pretty_N_go_0. eexists _, _. split; [done|].
    apply pretty_N_char_digit, N.mod_lt. lia.
  - apply IH; [apply N.div_lt; lia|by apply N.neq_0_lt_0].
Qed.

Lemma is_digit_not_sign (c : ascii) :
  json.is_digit c = true → Ascii.eqb c "+" = false ∧ Ascii.eqb c "-" = false.
Proof.
  intros Hd. split; apply Ascii.eqb_neq; intros ->; by vm_compute in Hd.
Qed.

Lemma ParseUint_pretty (p : positive) :
  Z.pos p < 2 ^ 64 → json.strconv_ParseUint (pretty_N_go (N.pos p) "") = Some (Z.pos p).
Proof.
  intros Hp. unfold json.strconv_ParseUint.
  destruct (pretty_N_go_head (N.pos p) "") as (c & rest & Heq & _); [lia|].
  rewrite digits_from_pretty. rewrite Heq. simpl.
  by rewrite (proj2 (Z.ltb_lt _ _) Hp).
Qed.

(** [strconv.ParseInt] reads back what [%d] prints. *)
Lemma ParseInt_fmt_d (z : Z) : is_int z → json.strconv_ParseInt (fmt_d z) = Some z.
Proof.
  unfold is_int, MinInt, MaxInt. intros Hz.
  destruct z as [|p|p]; [done|..].
  - change (fmt_d (Z.pos p)) with (pretty_N_go (N.pos p) "").
    destruct (pretty_N_go_head (N.pos p) "") as (c & rest & Heq & Hd); [lia|].
    apply is_digit_not_sign in Hd as [Hplus Hminus].
    unfold json.strconv_ParseInt. rewrite Heq. cbv beta iota.
    rewrite Hplus, Hminus. cbn [orb].
    rewrite <- Heq, ParseUint_pretty by lia. simpl.
    by rewrite (proj2 (Z.ltb_lt (Z.pos p) (2 ^ 63))) by lia.
  - change (fmt_d (Z.neg p)) with (String "-" (pretty_N_go (N.pos p) "")).
    unfold json.strconv_ParseInt. cbv beta iota zeta.
    change (Ascii.eqb "-" "-") with true. cbn [orb].
    rewrite orb_true_r, ParseUint_pretty by lia. simpl.
    by rewrite (proj2 (Z.leb_le (Z.pos p) (2 ^ 63))) by lia.
Qed.

(** What [strconv.ParseInt] returns is an [int]. *)
Lemma ParseInt_is_int (s : string) (z : Z) : json.strconv_ParseInt s = Some z → is_int z.
Proof.
  unfold json.strconv_ParseInt, is_int, MinInt, MaxInt.
  destruct s as [|c rest]; [done|].
  destruct (json.strconv_ParseUint _) as [un|] eqn:Hun; [|done]. simpl.
  assert (0 ≤ un) as Hpos.
  { unfold json.strconv_ParseUint in Hun.
    assert (∀ t acc n, 0 ≤ acc → json.digits_from acc t = Some n → 0 ≤ n) as Hnn.
    { induction t as [|d t IH]; intros acc n Hacc; simpl; [naive_solver|].
      destruct (json.is_digit d) eqn:Hd; [|done].
      apply IH. unfold json.is_digit, json.between in Hd. lia. }
    destruct (if _ || _ then rest else _); [done|].
    destruct (json.digits_from 0 _) as [n|] eqn:Hn; [|done]. simpl in Hun.
    destruct (n <? 2 ^ 64); [|done]. injection Hun as <-. by eapply Hnn. }
  destruct (Ascii.eqb c "-").
  - destruct (un <=? 2 ^ 63) eqn:Hle; [|done]. intros [= <-]. lia.
  - destruct (un <? 2 ^ 63) eqn:Hlt; [|done]. intros [= <-]. lia.
Qed.

(** *** Objects: the order of the members *)

Section members.

Context {S F : Type} (fields : list (string * F)) (store : F → json.Value → S → option S).

Hypothesis store_commutes : ∀ f g x y s,
  f ≠ g → store f x s ≫= store g y = store g y s ≫= store f x.

Lemma members_into_Permutation (ms ms' : list (string * json.Value)) (s : S) :
  ms ≡ₚ ms' → NoDup (json.selected fields ms) →
  json.members_into fields store ms s = json.members_into fields store ms' s.
Proof.
  intros Hperm. revert s.
  induction Hperm as [|[k x] l l' Hperm IH|[k x] [k' x'] l|l l' l'' Hperm IH Hperm' IH'];
    intros s Hdup.
  - done.
  - simpl. destruct (json.field fields k) as [f|] eqn:Hf.
    + destruct (store f x s) as [s'|]; [|done]. simpl. apply IH.
      unfold json.selected in Hdup. simpl in Hdup. rewrite Hf in Hdup.
      by apply NoDup_cons in Hdup as [_ ?].
    + simpl. apply IH. unfold json.selected in Hdup. simpl in Hdup. by rewrite Hf in Hdup.
  - simpl. unfold json.selected in Hdup. simpl in Hdup.
    destruct (json.field fields k) as [f|] eqn:Hf;
      destruct (json.field fields k') as [f'|] eqn:Hf'; simpl; try done.
    assert (f' ≠ f) as Hne.
    { apply NoDup_cons in Hdup as [Hnotin _]. intros ->. apply Hnotin. left. }
    pose proof (store_commutes f' f x' x s Hne) as Hc.
    destruct (store f' x' s) as [s1|], (store f x s) as [s2|]; simpl in *.
    + destruct (store f x s1), (store f' x' s2); simpl in *; congruence.
    + destruct (store f x s1); simpl in *; congruence.
    + destruct (store f' x' s2); simpl in *; congruence.
    + done.
  - rewrite IH by done. apply IH'.
    unfold json.selected in *. by rewrite <- Hperm.
Qed.

(** Whether a member is stored does not depend on what the struct holds. *)
Variable takes : F → json.Value → bool.
Hypothesis store_takes : ∀ f x s, is_Some (store f x s) ↔ takes f x = true.

Lemma members_into_is_Some (ms : list (string * json.Value)) (s : S) :
  is_Some (json.members_into fields store ms s)
  ↔ takes_struct fields takes (json.JObject ms) = true.
Proof.
  revert s. induction ms as [|[k x] ms IH]; intros s; [done|].
  simpl. rewrite andb_true_iff.
  destruct (json.field fields k) as [f|]; simpl.
  - rewrite <- (store_takes f x s). destruct (store f x s) as [s'|]; simpl.
    + rewrite IH. split; [by intros; split|by intros [_ ?]].
    + split; [by intros [? [=]]|]. by intros [[? [=]] _].
  - rewrite IH. split; [by intros; split|by intros [_ ?]].
Qed.

Lemma store_struct_is_Some (x : json.Value) (s : S) :
  is_Some (json.store_struct fields store x s) ↔ takes_struct fields takes x = true.
Proof.
  destruct x; simpl; [by split|..|apply members_into_is_Some];
    (split; [by intros [? [=]]|done]).
Qed.

End members.

(** *** The structs of package [integrations] *)

Ltac rewrite_known :=
  repeat match goal with
         | H : ?m = _ |- context [?m] => rewrite H
         end.

Ltac store_cases :=
  repeat (simpl; rewrite_known;
          match goal with
          | |- context [json.store_string ?x ?s] => destruct (json.store_string x s) eqn:?
          | |- context [json.store_int ?x ?s] => destruct (json.store_int x s) eqn:?
          | |- context [json.store_strings ?x ?s] =>
              destruct (json.store_strings x s) as [[? ?]|] eqn:?
          | |- context [json.store_LintLocation ?x ?s] =>
              destruct (json.store_LintLocation x s) eqn:?
          | |- context [json.store_LintRange ?x ?s] =>
              destruct (json.store_LintRange x s) eqn:?
          | |- context [json.store_APIReference ?x ?s] =>
              destruct (json.store_APIReference x s) eqn:?
          | |- context [json.store_RuleReference ?x ?s] =>
              destruct (json.store_RuleReference x s) eqn:?
          end);
  simpl; rewrite_known; try done.

Lemma LintLocation_store_commutes f g x y (s : LintLocation) :
  f ≠ g →
  json.LintLocation_store f x s ≫= json.LintLocation_store g y
  = json.LintLocation_store g y s ≫= json.LintLocation_store f x.
Proof. intros Hne. destruct f, g; try done; simpl; store_cases. Qed.

Lemma LintRange_store_commutes f g x y (s : LintRange) :
  f ≠ g →
  json.LintRange_store f x s ≫= json.LintRange_store g y
  = json.LintRange_store g y s ≫= json.LintRange_store f x.
Proof. intros Hne. destruct f, g; try done; simpl; store_cases. Qed.

Lemma APIReference_store_commutes f g x y (s : APIReference) :
  f ≠ g →
  json.APIReference_store f x s ≫= json.APIReference_store g y
  = json.APIReference_store g y s ≫= json.APIReference_store f x.
Proof. intros Hne. destruct f, g; try done; simpl; store_cases. Qed.

Lemma RuleReference_store_commutes f g x y (s : RuleReference) :
  f ≠ g →
  json.RuleReference_store f x s ≫= json.RuleReference_store g y
  = json.RuleReference_store g y s ≫= json.RuleReference_store f x.
Proof. intros Hne. by destruct f, g. Qed.

Lemma LintResult_store_commutes f g x y (s : LintResult * list string) :
  f ≠ g →
  json.LintResult_store f x s ≫= json.LintResult_store g y
  = json.LintResult_store g y s ≫= json.LintResult_store f x.
Proof. intros Hne. destruct s as [r spare]. destruct f, g; try done; simpl; store_cases. Qed.

(** *** What the decoder takes *)

Lemma bind_Some_is_Some {A B} (m : option A) (g : A → B) :
  is_Some (m ≫= λ a, Some (g a)) ↔ is_Some m.
Proof. destruct m; simpl; split; intros [? ?]; by eauto. Qed.

Lemma store_string_is_Some x s : is_Some (json.store_string x s) ↔ takes_string x = true.
Proof. destruct x; simpl; split; first [done|by intros [? [=]]|by eauto]. Qed.

Lemma store_int_is_Some x n : is_Some (json.store_int x n) ↔ takes_int x = true.
Proof.
  destruct x; simpl; try (split; first [done|by intros [? [=]]|by eauto]).
  by rewrite bool_decide_eq_true.
Qed.

Lemma store_elements_is_Some items backing :
  is_Some (json.store_elements items backing) ↔ forallb takes_string items = true.
Proof.
  revert backing. induction items as [|x items IH]; intros backing; simpl; [by eauto|].
  rewrite andb_true_iff, <- (store_string_is_Some x (hd "" backing)), <- (IH (tl backing)).
  destruct (json.store_string x _); simpl.
  - rewrite fmap_is_Some. split; [by eauto|by intros [_ ?]].
  - split; [by intros [? [=]]|by intros [[? [=]] _]].
Qed.

Lemma store_strings_is_Some x s : is_Some (json.store_strings x s) ↔ takes_strings x = true.
Proof.
  destruct x as [| | | |items|]; simpl; try (split; first [done|by intros [? [=]]|by eauto]).
  destruct items as [|x items]; [by eauto|].
  rewrite <- (store_elements_is_Some (x :: items) (s.1 ++ s.2)).
  by destruct (json.store_elements _ _); simpl; split; intros [? ?]; eauto.
Qed.

Lemma store_LintLocation_is_Some x s :
  is_Some (json.store_LintLocation x s) ↔ takes_LintLocation x = true.
Proof.
  apply store_struct_is_Some. intros [] y l; simpl;
    by rewrite bind_Some_is_Some, store_int_is_Some.
Qed.

Lemma store_LintRange_is_Some x s :
  is_Some (json.store_LintRange x s) ↔ takes_LintRange x = true.
Proof.
  apply store_struct_is_Some. intros [] y l; simpl;
    by rewrite bind_Some_is_Some, store_LintLocation_is_Some.
Qed.

Lemma store_APIReference_is_Some x s :
  is_Some (json.store_APIReference x s) ↔ takes_APIReference x = true.
Proof.
  apply store_struct_is_Some. intros [] y l; simpl;
    by rewrite bind_Some_is_Some, store_string_is_Some.
Qed.

Lemma store_RuleReference_is_Some x s :
  is_Some (json.store_RuleReference x s) ↔ takes_RuleReference x = true.
Proof.
  apply store_struct_is_Some. intros [] y l; simpl;
    by rewrite bind_Some_is_Some, store_string_is_Some.
Qed.

Lemma store_LintResult_is_Some x :
  is_Some (json.store_LintResult x) ↔ takes_LintResult x = true.
Proof.
  unfold json.store_LintResult. rewrite fmap_is_Some.
  apply store_struct_is_Some. intros f y [r spare].
  destruct f; simpl; rewrite ?bind_Some_is_Some;
    first [apply store_string_is_Some | apply store_int_is_Some
          | apply store_LintRange_is_Some | apply store_APIReference_is_Some
          | apply store_RuleReference_is_Some | idtac].
  rewrite <- (store_strings_is_Some y (Path r, spare)).
  by destruct (json.store_strings _ _) as [[? ?]|]; simpl; split; intros [? ?]; eauto.
Qed.

(** The decoder returns without an error exactly on the values of the
    shape [decodable]. *)
Lemma store_results_is_Some x :
  is_Some (json.store_results x) ↔ decodable x = true.
Proof.
  destruct x as [| | | |items|]; simpl; try (split; first [done|by intros [? [=]]|by eauto]).
  rewrite mapM_is_Some. induction items as [|y items IH]; simpl.
  - split; [done|by constructor].
  - rewrite Forall_cons, andb_true_iff, IH. simpl.
    by rewrite store_LintResult_is_Some.
Qed.

(** *** Finding objects *)

Lemma store_elements_strings (p backing : list string) :
  json.store_elements (json.JString <$> p) backing = Some p.
Proof.
  revert backing. induction p as [|s p IH]; intros backing; simpl; [done|].
  by rewrite IH.
Qed.

Lemma store_strings_strings (p : list string) old :
  ∃ spare, json.store_strings (json.JArray (json.JString <$> p)) old = Some (p, spare).
Proof.
  destruct p as [|s p]; [by eexists|].
  unfold json.store_strings. change (json.JString <$> s :: p) with (json.JString s :: (json.JString <$> p)).
  cbv beta iota zeta.
  change (json.JString s :: (json.JString <$> p)) with (json.JString <$> s :: p).
  rewrite store_elements_strings. by eexists.
Qed.

Ltac distinct_fields :=
  unfold json.selected; simpl fmap; vm_compute omap;
  repeat (apply NoDup_cons; split;
          [rewrite ?not_elem_of_cons; split_and?;
           first [discriminate|apply not_elem_of_nil]|]);
  apply NoDup_nil_2.

Lemma store_LintLocation_object v l old :
  location_object v l → is_int (Line l) → is_int (Character l) →
  json.store_LintLocation v old = Some l.
Proof.
  intros (ms & -> & Hperm) Hline Hchar.
  unfold json.store_LintLocation, json.store_struct.
  rewrite (members_into_Permutation _ _ LintLocation_store_commutes _ _ _ Hperm)
    by (unfold json.selected; rewrite Hperm; distinct_fields).
  unfold json.members_into.
  change (json.field _ "line") with (Some json.F_line).
  change (json.field _ "character") with (Some json.F_character).
  unfold json.LintLocation_store, json.store_int, json_int.
  rewrite ParseInt_fmt_d by done. simpl.
  rewrite ParseInt_fmt_d by done. simpl. by destruct l.
Qed.

Lemma store_LintRange_object v g old :
  range_object v g →
  is_int (Line (Start g)) → is_int (Character (Start g)) →
  is_int (Line (End_ g)) → is_int (Character (End_ g)) →
  json.store_LintRange v old = Some g.
Proof.
  intros (s & e & (ms & -> & Hperm) & Hs & He) ? ? ? ?.
  unfold json.store_LintRange, json.store_struct.
  rewrite (members_into_Permutation _ _ LintRange_store_commutes _ _ _ Hperm)
    by (unfold json.selected; rewrite Hperm; distinct_fields).
  unfold json.members_into.
  change (json.field _ "start") with (Some json.F_start).
  change (json.field _ "end") with (Some json.F_end).
  unfold json.LintRange_store.
  rewrite (store_LintLocation_object s (Start g)) by done. simpl.
  rewrite (store_LintLocation_object e (End_ g)) by done. simpl. by destruct g.
Qed.

Lemma store_APIReference_object v a old :
  api_object v a → json.store_APIReference v old = Some a.
Proof.
  intros (ms & -> & Hperm).
  unfold json.store_APIReference, json.store_struct.
  rewrite (members_into_Permutation _ _ APIReference_store_commutes _ _ _ Hperm)
    by (unfold json.selected; rewrite Hperm; distinct_fields).
  unfold json.members_into.
  change (json.field _ "id") with (Some json.F_id).
  change (json.field _ "name") with (Some json.F_api_name).
  simpl. by destruct a.
Qed.

Lemma store_RuleReference_object v u old :
  rule_object v u → json.store_RuleReference v old = Some u.
Proof.
  intros (ms & -> & Hperm).
  unfold json.store_RuleReference, json.store_struct.
  rewrite (members_into_Permutation _ _ RuleReference_store_commutes _ _ _ Hperm)
    by (unfold json.selected; rewrite Hperm; distinct_fields).
  unfold json.members_into.
  change (json.field _ "name") with (Some json.F_rule_name).
  simpl. by destruct u.
Qed.

(** A Finding object is stored as the finding it describes, whatever the
    order of its members. *)
Lemma store_LintResult_object v r :
  finding_object v r → int_fields r → json.store_LintResult v = Some r.
Proof.
  intros (g & a & u & (ms & -> & Hperm) & Hg & Ha & Hu) (Hsev & ? & ? & ? & ?).
  pose proof (store_strings_strings (Path r)) as Hpath.
  assert (∀ old, json.store_int (json_int (Severity r)) old = Some (Severity r))
    as Hseverity by (intros; by apply ParseInt_fmt_d).
  assert (∀ old, json.store_LintRange g old = Some (Range r))
    as Hrange by (intros; by apply store_LintRange_object).
  assert (∀ old, json.store_APIReference a old = Some (API r))
    as Hapi by (intros; by apply store_APIReference_object).
  assert (∀ old, json.store_RuleReference u old = Some (Rule r))
    as Hrule by (intros; by apply store_RuleReference_object).
  clear Hg Ha Hu.
  remember (json.JArray (json.JString <$> Path r)) as p eqn:Hp. clear Hp.
  remember (json_int (Severity r)) as n eqn:Hn. clear Hn.
  unfold json.store_LintResult, json.store_struct.
  rewrite (members_into_Permutation _ _ LintResult_store_commutes _ _ _ Hperm)
    by (unfold json.selected; rewrite Hperm; distinct_fields).
  unfold json.members_into.
  change (json.field _ "code") with (Some json.F_code).
  change (json.field _ "path") with (Some json.F_path).
  change (json.field _ "message") with (Some json.F_message).
  change (json.field _ "severity") with (Some json.F_severity).
  change (json.field _ "range") with (Some json.F_range).
  change (json.field _ "source") with (Some json.F_source).
  change (json.field _ "api") with (Some json.F_api).
  change (json.field _ "rule") with (Some json.F_rule).
  simpl. destruct (Hpath ([], [])) as [spare ->]. simpl.
  rewrite Hseverity. simpl. rewrite Hrange. simpl.
  rewrite Hapi. simpl. rewrite Hrule. simpl.
  by destruct r.
Qed.

Lemma store_results_objects items rs :
  Forall2 finding_object items rs → Forall int_fields rs →
  json.store_results (json.JArray items) = Some rs.
Proof.
  intros Hitems Hrs. simpl. apply mapM_Some.
  induction Hitems as [|v r items rs Hv _ IH]; [constructor|].
  apply Forall_cons in Hrs as [Hr Hrs].
  constructor; [by apply store_LintResult_object|by apply IH].
Qed.

(** *** The outcomes of the request *)

(** C7. Once the request is sent, [makeAnalysisRequest] maps what comes
    back as follows.  A transport failure is an error; a body that cannot
    be read is an error; a status other than 200 is an error that carries
    the status code and the raw body.  A 200 is an error when its body is
    not valid JSON (the empty body, for one), and when it is valid JSON of
    a shape the decoder does not take (an object in place of the array,
    for one); on every other body it is success.  A 200 whose body is a
    JSON array of Finding objects returns the findings they describe, the
    empty array none; and the body [null] is success with no findings as
    well. *)
Theorem makeAnalysisRequest_outcomes
    (json_Marshal : GoValue → result string) (url_error : string → option error)
    (error_text : string → error)
    (c : GovernanceClient) (request : GoValue) (requestBody : string) (w : World) :
  json_Marshal request = Ok requestBody →
  url_error (baseURL c +:+ "/rulesets/evaluate") = None →
  let req := {| req_method := "POST";
                req_url := baseURL c +:+ "/rulesets/evaluate";
                req_headers := [("Content-Type", "application/json");
                                ("X-API-Key", authToken c)];
                req_body := requestBody |} in
  let run :=
    makeAnalysisRequest json_Marshal url_error (json.Unmarshal error_text) c request w in
  let sent := with_logs w (logs w ++ [(LDebug, "Making request to governance service")]) in
  let refused :=
    with_logs w (logs w ++ [(LDebug, "Making request to governance service");
                            (LError, "Governance service returned error")]) in
  let rejected body :=
    Done sent (Err ("failed to unmarshal response: " +:+ error_text body)) in
  (∀ e, remote w req = TransportFailure e
        → run = Done sent (Err ("failed to make request: " +:+ e)))
  ∧ (∀ status body e, remote w req = Response status body (Some e)
        → run = Done sent (Err ("failed to read response body: " +:+ e)))
  ∧ (∀ status body, remote w req = Response status body None → status ≠ 200
        → run = Done refused (Err ("governance service returned status "
                                   +:+ fmt_d status +:+ ": " +:+ body)))
  ∧ (∀ body, remote w req = Response 200 body None → json.parse body = None
        → run = rejected body)
  ∧ (∀ body v, remote w req = Response 200 body None → json.parse body = Some v
        → decodable v = false → run = rejected body)
  ∧ (∀ body v, remote w req = Response 200 body None → json.parse body = Some v
        → decodable v = true
        → ∃ results, json.store_results v = Some results ∧ run = Done sent (Ok results))
  ∧ (∀ body results, remote w req = Response 200 body None
        → finding_array body results → Forall int_fields results
        → run = Done sent (Ok results))
  ∧ (remote w req = Response 200 "[]" None → run = Done sent (Ok []))
  ∧ (∀ body, remote w req = Response 200 body None
        → json.parse body = Some json.JNull → run = Done sent (Ok []))
  ∧ (remote w req = Response 200 "" None → run = rejected "")
  ∧ (remote w req = Response 200 "{}" None → run = rejected "{}").
Proof.
  intros Hmarshal Hurl req run sent refused rejected.
  destruct (makeAnalysisRequest_answers json_Marshal url_error (json.Unmarshal error_text)
              c request requestBody w Hmarshal Hurl)
    as (Htransport & Hread & Hstatus & Herr & Hok).
  assert (∀ body results, remote w req = Response 200 body None
            → json.parse body ≫= json.store_results = Some results
            → run = Done sent (Ok results)) as Hstored.
  { intros body results Hbody Hres. apply (Hok body results Hbody).
    unfold json.Unmarshal. by rewrite Hres. }
  assert (∀ body, remote w req = Response 200 body None
            → json.parse body ≫= json.store_results = None
            → run = rejected body) as Hrejected.
  { intros body Hbody Hres. apply (Herr body _ Hbody).
    unfold json.Unmarshal. by rewrite Hres. }
  split_and!; [exact Htransport|exact Hread|exact Hstatus|..].
  - intros body Hbody Hparse. apply Hrejected; [done|]. by rewrite Hparse.
  - intros body v Hbody Hparse Hshape. apply Hrejected; [done|].
    rewrite Hparse. simpl. apply eq_None_not_Some.
    rewrite store_results_is_Some. by rewrite Hshape.
  - intros body v Hbody Hparse Hshape.
    apply store_results_is_Some in Hshape as [results Hres].
    exists results. split; [done|]. apply (Hstored body); [done|]. by rewrite Hparse.
  - intros body results Hbody (items & Hparse & Hitems) Hints.
    apply (Hstored body); [done|]. rewrite Hparse. simpl.
    by apply (store_results_objects items results).
  - intros Hbody. by apply (Hstored "[]").
  - intros body Hbody Hparse. apply (Hstored body); [done|]. by rewrite Hparse.
  - intros Hbody. by apply (Hrejected "").
  - intros Hbody. by apply (Hrejected "{}").
Qed.

Lemma makeAnalysisRequest_outcomes_witness :
  Samples.marshal (VString "request") = Ok "{}"
  ∧ ∃ w',
      makeAnalysisRequest Samples.marshal (λ _, None) (json.Unmarshal Samples.decode_error)
        (NewGovernanceClient "http://localhost:8080/api" "token") (VString "request")
        (Samples.answering Samples.finding_body)
      = Done w' (Ok [Samples.finding_at 3 4]).
Proof.
  assert (Samples.marshal (VString "request") = Ok "{}") as Hmarshal by reflexivity.
  split; [exact Hmarshal|]. eexists.
  apply (proj1 (proj2 (proj2 (proj2 (proj2 (proj2 (proj2
    (makeAnalysisRequest_outcomes Samples.marshal (λ _, None) Samples.decode_error
       (NewGovernanceClient "http://localhost:8080/api" "token") (VString "request")
       "{}" (Samples.answering Samples.finding_body) Hmarshal eq_refl)))))))
    Samples.finding_body [Samples.finding_at 3 4] eq_refl).
  - eexists. split; [vm_compute; reflexivity|].
    apply Forall2_cons; split; [|apply Forall2_nil_2].
    eexists _, _, _. split_and!.
    + eexists. split; [reflexivity|].
      etransitivity; [apply Permutation_cons_append|]. cbn [app]. reflexivity.
    + eexists _, _. split_and!.
      * eexists. split; [reflexivity|]. apply perm_swap.
      * eexists. split; [reflexivity|]. apply perm_swap.
      * eexists. split; [reflexivity|]. reflexivity.
    + eexists. split; [reflexivity|]. reflexivity.
    + eexists. split; [reflexivity|]. reflexivity.
  - apply Forall_cons; split; [|done].
    unfold int_fields, is_int, MinInt, MaxInt. simpl. lia.
Defined.

(** C7, the counterexample: the bodies [null], [[null]] and [[{}]] are no
    JSON arrays of Finding objects, and all three are success: with no
    finding, and with one finding that holds zero values. *)
Lemma makeAnalysisRequest_takes_null :
  (¬ ∃ findings, finding_array "null" findings)
  ∧ (∃ w',
       makeAnalysisRequest Samples.marshal (λ _, None) (json.Unmarshal Samples.decode_error)
         (NewGovernanceClient "http://localhost:8080/api" "token") (VString "request")
         (Samples.answering "null")
       = Done w' (Ok []))
  ∧ (¬ ∃ findings, finding_array "[null]" findings)
  ∧ (∃ w',
       makeAnalysisRequest Samples.marshal (λ _, None) (json.Unmarshal Samples.decode_error)
         (NewGovernanceClient "http://localhost:8080/api" "token") (VString "request")
         (Samples.answering "[null]")
       = Done w' (Ok [json.zero]))
  ∧ (¬ ∃ findings, finding_array "[{}]" findings)
  ∧ (∃ w',
       makeAnalysisRequest Samples.marshal (λ _, None) (json.Unmarshal Samples.decode_error)
         (NewGovernanceClient "http://localhost:8080/api" "token") (VString "request")
         (Samples.answering "[{}]")
       = Done w' (Ok [json.zero])).
Proof.
  split_and!.
  - intros (findings & items & Hparse & _). by vm_compute in Hparse.
  - eexists. vm_compute. reflexivity.
  - intros (findings & items & Hparse & Hitems).
    vm_compute in Hparse. injection Hparse as <-.
    apply Forall2_cons_inv_l in Hitems as (r & rs & Hobject & _ & _).
    by destruct Hobject as (g & a & u & (ms & [=] & _) & _).
  - eexists. vm_compute. reflexivity.
  - intros (findings & items & Hparse & Hitems).
    vm_compute in Hparse. injection Hparse as <-.
    apply Forall2_cons_inv_l in Hitems as (r & rs & Hobject & _ & _).
    destruct Hobject as (g & a & u & (ms & [= <-] & Hperm) & _).
    by apply Permutation_nil_l in Hperm.
  - eexists. vm_compute. reflexivity.
Qed.

(** ** The output emitter and the verdict *)

Lemma append_assoc (s1 s2 s3 : string) : (s1 +:+ s2) +:+ s3 = s1 +:+ s2 +:+ s3.
Proof.
  induction s1 as [|c s1 IH]; [done|].
  change (String c ((s1 +:+ s2) +:+ s3) = String c (s1 +:+ s2 +:+ s3)).
  by rewrite IH.
Qed.

(** What the GitHub channel appends to the output file. *)
Lemma setGitHubOutput_appends name value path w :
  env_value w "GITHUB_OUTPUT" = path → path ≠ "" →
  open_refused w AppendCreate path = false →
  ∃ w', setGitHubOutput name value w = Done w' tt
    ∧ files w' !! path
      = Some (default "" (files w !! path) +:+ name +:+ "=" +:+ value +:+ nl)
    ∧ environ w' = environ w ∧ open_refused w' = open_refused w
    ∧ stdout w' = stdout w.
Proof.
  intros Hpath Hne Hopen. unfold setGitHubOutput.
  erewrite bind_Done by apply os_Getenv_run. rewrite Hpath.
  rewrite bool_decide_true by done.
  unfold os_OpenFile_append, file_append. io_unfold. rewrite Hopen.
  eexists. split; [done|]. simpl.
  rewrite !lookup_insert_eq. simpl. done.
Qed.

(** On GitHub Actions, with an output file that can be opened, the emitter
    appends the three counts. *)
Lemma emit_outputs_github ec wc total path w :
  env_value w "GITHUB_ACTIONS" = "true" → env_value w "GITLAB_CI" ≠ "true" →
  env_value w "GITHUB_OUTPUT" = path → path ≠ "" →
  open_refused w AppendCreate path = false →
  ∃ w', emit_outputs ec wc total w = Done w' tt
    ∧ files w' !! path
      = Some (default "" (files w !! path)
              +:+ "error_count=" +:+ fmt_d ec +:+ nl
              +:+ "warning_count=" +:+ fmt_d wc +:+ nl
              +:+ "total_issues=" +:+ fmt_d total +:+ nl)
    ∧ stdout w' = stdout w.
Proof.
  intros Hgh Hgl Hpath Hne Hopen. unfold emit_outputs.
  erewrite bind_Done by apply os_Getenv_run. rewrite Hgh.
  rewrite bool_decide_true by done.
  destruct (setGitHubOutput_appends "error_count" (fmt_d ec) path w)
    as (w1 & Hrun1 & Hf1 & He1 & Ho1 & Hs1); [done..|].
  destruct (setGitHubOutput_appends "warning_count" (fmt_d wc) path w1)
    as (w2 & Hrun2 & Hf2 & He2 & Ho2 & Hs2);
    [by unfold env_value; rewrite He1|done|by rewrite Ho1|].
  destruct (setGitHubOutput_appends "total_issues" (fmt_d total) path w2)
    as (w3 & Hrun3 & Hf3 & He3 & Ho3 & Hs3);
    [by unfold env_value; rewrite He2, He1|done|by rewrite Ho2, Ho1|].
  erewrite bind_Done.
  2:{ erewrite bind_Done by exact Hrun1. erewrite bind_Done by exact Hrun2. exact Hrun3. }
  erewrite bind_Done by apply os_Getenv_run.
  assert (env_value w3 "GITLAB_CI" = env_value w "GITLAB_CI") as ->
    by (by unfold env_value; rewrite He3, He2, He1).
  rewrite bool_decide_false by done.
  exists w3. split; [done|]. split; [|congruence].
  rewrite Hf3, Hf2, Hf1. simpl. f_equal.
  by rewrite !append_assoc.
Qed.

(** On a sequence that is not empty the outputs are written before the
    verdict: a failing run on GitHub Actions still leaves the three counts
    in the output file. *)
Lemma processResults_emits_before_failing results path w :
  go_slice results → Forall int_fields results → 0 < errorCount results →
  env_value w "GITHUB_ACTIONS" = "true" → env_value w "GITLAB_CI" ≠ "true" →
  env_value w "GITHUB_OUTPUT" = path → path ≠ "" →
  open_refused w AppendCreate path = false →
  ∃ w', processResults results w = Done w' (Some (failure_message results))
    ∧ files w' !! path = Some (default "" (files w !! path) +:+ github_lines results).
Proof.
  intros Hslice Hwf Herr Hgh Hgl Hpath Hne Hopen.
  assert (results ≠ []) as Hnil by (by intros ->).
  destruct (processResults_run results w Hnil Hwf) as (w' & Hemit & Hrun & _).
  destruct (counts_are_ints results Hslice) as [He Hw].
  rewrite He, Hw in Hemit, Hrun.
  rewrite (proj2 (Z.ltb_lt _ _) Herr) in Hrun.
  assert (environ (printed w results) = environ w
          ∧ files (printed w results) = files w
          ∧ open_refused (printed w results) = open_refused w) as (Henv & Hfiles & Hperm).
  { unfold printed, after_load. by case_decide. }
  destruct (emit_outputs_github (errorCount results) (warningCount results)
              (len results) path (printed w results))
    as (w2 & Hemit' & Hfile & _);
    [by unfold env_value; rewrite Henv..|done|by rewrite Hperm|].
  rewrite Hemit in Hemit'. injection Hemit' as <-.
  exists w'. split; [exact Hrun|]. rewrite Hfile, Hfiles. done.
Qed.

(** C9, at the empty sequence.  On GitHub Actions with an output file, the
    sequence of the "success" scenario returns before the emitter runs:
    the output file is never created, while the emitter, had it been
    called with the zero counts, would have written them. *)
Theorem processResults_empty_skips_emission :
  generateMockResults "success" "rule-1" = []
  ∧ (∃ w', processResults (generateMockResults "success" "rule-1") Samples.github_run
           = Done w' None
           ∧ files w' !! "github_output" = None
           ∧ trace w' = [])
  ∧ (∃ w', emit_outputs 0 0 0 Samples.github_run = Done w' tt
           ∧ files w' !! "github_output"
             = Some ("error_count=0" +:+ nl +:+ "warning_count=0" +:+ nl
                     +:+ "total_issues=0" +:+ nl)).
Proof.
  split_and!.
  - reflexivity.
  - eexists. split_and!; reflexivity.
  - eexists. split; vm_compute; reflexivity.
Qed.

(** * Further properties of the program *)

(** ** Logging, platform detection and context *)

Lemma logger_run lvl msg w : logger lvl msg w = Done (log_more w [(lvl, msg)]) tt.
Proof. done. Qed.

Lemma log_more_more w l1 l2 : log_more (log_more w l1) l2 = log_more w (l1 ++ l2).
Proof. unfold log_more, with_logs. simpl. by rewrite app_assoc. Qed.

Lemma DetectCI_run w : DetectCI w = Done w (platform w).
Proof.
  unfold DetectCI, platform.
  erewrite bind_Done by apply os_Getenv_run.
  destruct (decide (env_value w "GITHUB_ACTIONS" = "true")) as [Hgh|Hgh].
  - by rewrite bool_decide_true.
  - rewrite bool_decide_false by done.
    erewrite bind_Done by apply os_Getenv_run.
    destruct (decide (env_value w "GITLAB_CI" = "true")) as [Hgl|Hgl].
    + by rewrite bool_decide_true.
    + by rewrite bool_decide_false.
Qed.

Lemma GetContext_returns ci w : ∃ ctx, GetContext ci w = Done w ctx.
Proof. unfold GetContext. repeat case_bool_decide; by eexists. Qed.

(** ** The whole run, the client and the emitter *)

Lemma resolved_log_more w l : resolved (log_more w l) = resolved w.
Proof. done. Qed.

Lemma RunAction_run Abs rerr analyze w :
  RunAction Abs rerr analyze w
  = match Validate (resolved w) with
    | Some e => Done (log_more w (started ++ [(LError, "Invalid configuration")]))
                     (Some ("invalid configuration: " +:+ e))
    | None =>
        match obtain_results Abs rerr analyze (resolved w) (log_more w started) with
        | Done w1 (Err e) => Done w1 (Some e)
        | Done w1 (Ok results) =>
            match processResults results w1 with
            | Done w2 (Some e) =>
                Done (log_more w2 [(LError, "Failed to process results")])
                     (Some ("failed to process results: " +:+ e))
            | Done w2 None =>
                Done (log_more w2 [(LInfo, "Governance action completed successfully")]) None
            | Panic w2 msg => Panic w2 msg
            | OutOfFuel => OutOfFuel
            end
        | Panic w1 msg => Panic w1 msg
        | OutOfFuel => OutOfFuel
        end
    end.
Proof.
  unfold RunAction.
  erewrite bind_Done by apply logger_run.
  erewrite bind_Done by apply DetectCI_run.
  erewrite bind_Done by apply logger_run.
  destruct (GetContext_returns (platform (log_more w [(LInfo, "Starting governance action")]))
              (log_more (log_more w [(LInfo, "Starting governance action")])
                        [(LInfo, "Detected CI platform")])) as [ctx Hctx].
  erewrite bind_Done by exact Hctx.
  erewrite bind_Done by apply logger_run.
  erewrite bind_Done by apply getConfiguration_run.
  rewrite !log_more_more. simpl app. fold started.
  rewrite resolved_log_more. cbv beta iota.
  destruct (Validate (resolved w)) as [e|].
  - erewrite bind_Done by apply logger_run. by rewrite log_more_more.
  - io_unfold.
    destruct (obtain_results Abs rerr analyze (resolved w) (log_more w started))
      as [w1 [results|e]| |]; [|done..].
    destruct (processResults results w1) as [w2 [e|]| |]; done.
Qed.

Ltac not_count_name :=
  let H := fresh in
  intros H; unfold count_names in H;
  repeat (apply elem_of_cons in H as [H|H]; [discriminate H|]);
  by apply elem_of_nil in H.

Lemma emits_only_refl w : emits_only w w.
Proof. by repeat split. Qed.

Lemma emits_only_paths w w' :
  emits_only w w' →
  env_value w' "GITHUB_OUTPUT" = env_value w "GITHUB_OUTPUT"
  ∧ gitlab_output_file w' = gitlab_output_file w
  ∧ env_value w' "GITHUB_ACTIONS" = env_value w "GITHUB_ACTIONS"
  ∧ env_value w' "GITLAB_CI" = env_value w "GITLAB_CI".
Proof.
  intros (_ & _ & _ & _ & Henv & _).
  unfold gitlab_output_file, env_value.
  rewrite !Henv by not_count_name. done.
Qed.

Lemma emits_only_trans w1 w2 w3 : emits_only w1 w2 → emits_only w2 w3 → emits_only w1 w3.
Proof.
  intros H12 H23. destruct (emits_only_paths _ _ H12) as (Hgh & Hgl & _).
  destruct H12 as (Ho & Hl & Hr & Hm & He & Hf).
  destruct H23 as (Ho' & Hl' & Hr' & Hm' & He' & Hf').
  split_and!; try congruence.
  - intros name Hn. rewrite He', He by done. done.
  - intros path Hp1 Hp2. rewrite Hf' by congruence. by apply Hf.
Qed.

Lemma emitter_seq (m k : IO unit) : emitter m → emitter k → emitter (m ;; k).
Proof.
  intros Hm Hk w. destruct (Hm w) as (w1 & Hrun1 & H1).
  destruct (Hk w1) as (w2 & Hrun2 & H2).
  exists w2. split; [|by eapply emits_only_trans].
  by erewrite bind_Done by exact Hrun1.
Qed.

Lemma emitter_skip : emitter (mret tt).
Proof. intros w. exists w. split; [done|apply emits_only_refl]. Qed.

Lemma emitter_setGitHubOutput name value : emitter (setGitHubOutput name value).
Proof.
  intros w. unfold setGitHubOutput.
  erewrite bind_Done by apply os_Getenv_run.
  case_bool_decide as Hpath; [|exists w; split; [done|apply emits_only_refl]].
  unfold os_OpenFile_append, file_append. io_unfold.
  destruct (open_refused w AppendCreate _) eqn:Hopen.
  - eexists. split; [done|]. by repeat split.
  - eexists. split; [done|]. split_and!; try done.
    intros path Hp _. simpl. by rewrite !lookup_insert_ne.
Qed.

Lemma emitter_setGitLabOutput name value :
  name ∈ count_names → emitter (setGitLabOutput name value).
Proof.
  intros Hname w. unfold setGitLabOutput.
  erewrite bind_Done by apply os_Getenv_run.
  assert ((if bool_decide (env_value w "GITLAB_OUTPUT_FILE" = "")
           then "governance_output.env" else env_value w "GITLAB_OUTPUT_FILE")
          = gitlab_output_file w) as ->.
  { unfold gitlab_output_file. by case_bool_decide; case_decide. }
  unfold os_OpenFile_append, file_append, os_Setenv. io_unfold.
  destruct (open_refused w AppendCreate _) eqn:Hopen.
  - eexists. split; [done|]. split_and!; try done.
    intros n Hn. simpl. rewrite lookup_insert_ne; [done|]. by intros ->.
  - eexists. split; [done|]. split_and!; try done.
    + intros n Hn. simpl. rewrite lookup_insert_ne; [done|]. by intros ->.
    + intros path _ Hp. simpl. by rewrite !lookup_insert_ne.
Qed.

Lemma emitter_emit_outputs ec wc total : emitter (emit_outputs ec wc total).
Proof.
  intros w. unfold emit_outputs.
  erewrite bind_Done by apply os_Getenv_run.
  assert (emitter (if bool_decide (env_value w "GITHUB_ACTIONS" = "true")
                   then setGitHubOutput "error_count" (fmt_d ec);;
                        setGitHubOutput "warning_count" (fmt_d wc);;
                        setGitHubOutput "total_issues" (fmt_d total)
                   else mret tt)) as Hgh.
  { destruct (bool_decide (env_value w "GITHUB_ACTIONS" = "true")); [|apply emitter_skip].
    repeat apply emitter_seq; apply emitter_setGitHubOutput. }
  destruct (Hgh w) as (w1 & Hrun1 & H1).
  erewrite bind_Done by exact Hrun1.
  erewrite bind_Done by apply os_Getenv_run.
  assert (emitter (if bool_decide (env_value w1 "GITLAB_CI" = "true")
                   then setGitLabOutput "error_count" (fmt_d ec);;
                        setGitLabOutput "warning_count" (fmt_d wc);;
                        setGitLabOutput "total_issues" (fmt_d total)
                   else mret tt)) as Hgl.
  { destruct (bool_decide (env_value w1 "GITLAB_CI" = "true")); [|apply emitter_skip].
    repeat apply emitter_seq; apply emitter_setGitLabOutput;
      unfold count_names; set_solver. }
  destruct (Hgl w1) as (w2 & Hrun2 & H2).
  exists w2. split; [done|]. by eapply emits_only_trans.
Qed.

Lemma platform_cases w :
  (platform w = "github" ↔ env_value w "GITHUB_ACTIONS" = "true")
  ∧ (platform w = "gitlab"
     ↔ env_value w "GITHUB_ACTIONS" ≠ "true" ∧ env_value w "GITLAB_CI" = "true")
  ∧ (platform w = "local"
     ↔ env_value w "GITHUB_ACTIONS" ≠ "true" ∧ env_value w "GITLAB_CI" ≠ "true").
Proof.
  unfold platform.
  repeat case_decide; split_and!; split; intros; destruct_and?; done.
Qed.

Lemma DetectCI_inv w ci : DetectCI w = Done w ci → platform w = ci.
Proof. rewrite DetectCI_run. by intros [= <-]. Qed.

Lemma emit_outputs_unflagged ec wc total w :
  env_value w "GITHUB_ACTIONS" ≠ "true" → env_value w "GITLAB_CI" ≠ "true" →
  emit_outputs ec wc total w = Done w tt.
Proof.
  intros Hgh Hgl. unfold emit_outputs.
  erewrite bind_Done by apply os_Getenv_run. rewrite bool_decide_false by done.
  erewrite bind_Done by reflexivity.
  erewrite bind_Done by apply os_Getenv_run. by rewrite bool_decide_false.
Qed.

(** X16. When [DetectCI] reports a local run (neither platform flag is
    "true"), the emitter leaves the world exactly as it was: no file is
    opened, no variable is set. *)
Theorem emit_outputs_local ec wc total w :
  DetectCI w = Done w "local" → emit_outputs ec wc total w = Done w tt.
Proof.
  intros Hci%DetectCI_inv. apply platform_cases in Hci as [Hgh Hgl].
  by apply emit_outputs_unflagged.
Qed.

Lemma setGitLabOutput_run name value w :
  setGitLabOutput name value w
  = Done (with_environ
            (if open_refused w AppendCreate (gitlab_output_file w)
             then with_trace w (trace w ++ [EvOpen AppendCreate (gitlab_output_file w) false])
             else with_trace
                    (with_files w
                       (<[gitlab_output_file w :=
                            default "" (files w !! gitlab_output_file w)
                            +:+ "export " +:+ name +:+ "=" +:+ value +:+ nl]> (files w)))
                    (trace w ++ [EvOpen AppendCreate (gitlab_output_file w) true;
                                 EvWrite (gitlab_output_file w)
                                   ("export " +:+ name +:+ "=" +:+ value +:+ nl)]))
            (<[name := value]> (environ w))) tt.
Proof.
  unfold setGitLabOutput.
  erewrite bind_Done by apply os_Getenv_run.
  assert ((if bool_decide (env_value w "GITLAB_OUTPUT_FILE" = "")
           then "governance_output.env" else env_value w "GITLAB_OUTPUT_FILE")
          = gitlab_output_file w) as ->.
  { unfold gitlab_output_file. by case_bool_decide; case_decide. }
  unfold os_OpenFile_append, file_append, os_Setenv. io_unfold.
  destruct (open_refused w AppendCreate _) eqn:Hopen; [done|].
  f_equal. unfold with_environ, with_trace, with_files. simpl.
  rewrite lookup_insert_eq, insert_insert_eq. simpl. by rewrite <- app_assoc.
Qed.

Lemma setGitLabOutput_fields name value w :
  name ≠ "GITLAB_OUTPUT_FILE" →
  ∃ w', setGitLabOutput name value w = Done w' tt
    ∧ environ w' = <[name := value]> (environ w)
    ∧ files w'
      = (if open_refused w AppendCreate (gitlab_output_file w) then files w
         else <[gitlab_output_file w :=
                  default "" (files w !! gitlab_output_file w)
                  +:+ "export " +:+ name +:+ "=" +:+ value +:+ nl]> (files w))
    ∧ open_refused w' = open_refused w
    ∧ gitlab_output_file w' = gitlab_output_file w
    ∧ stdout w' = stdout w.
Proof.
  intros Hname. eexists. split; [apply setGitLabOutput_run|].
  split_and!; try done.
  all: destruct (open_refused w AppendCreate (gitlab_output_file w)); try done.
  all: unfold gitlab_output_file, env_value; simpl; by rewrite lookup_insert_ne.
Qed.

(** X17. When [DetectCI] reports GitLab, the emitter sets the three count
    variables in the environment whether or not the output file can be
    opened; when it can, three export lines are appended to the file named
    by GITLAB_OUTPUT_FILE (governance_output.env by default), after what
    the file held; when it cannot, no file changes. *)
Theorem emit_outputs_gitlab ec wc total w :
  DetectCI w = Done w "gitlab" →
  ∃ w', emit_outputs ec wc total w = Done w' tt
    ∧ environ w'
      = <["total_issues" := fmt_d total]>
          (<["warning_count" := fmt_d wc]>
             (<["error_count" := fmt_d ec]> (environ w)))
    ∧ files w'
      = (if open_refused w AppendCreate (gitlab_output_file w) then files w
         else <[gitlab_output_file w :=
                  default "" (files w !! gitlab_output_file w)
                  +:+ "export error_count=" +:+ fmt_d ec +:+ nl
                  +:+ "export warning_count=" +:+ fmt_d wc +:+ nl
                  +:+ "export total_issues=" +:+ fmt_d total +:+ nl]> (files w))
    ∧ stdout w' = stdout w.
Proof.
  intros Hci%DetectCI_inv. apply platform_cases in Hci as [Hgh Hgl].
  unfold emit_outputs.
  erewrite bind_Done by apply os_Getenv_run. rewrite bool_decide_false by done.
  erewrite bind_Done by reflexivity.
  erewrite bind_Done by apply os_Getenv_run. rewrite bool_decide_true by done.
  destruct (setGitLabOutput_fields "error_count" (fmt_d ec) w)
    as (w1 & Hrun1 & He1 & Hf1 & Ho1 & Hg1 & Hs1); [done|].
  destruct (setGitLabOutput_fields "warning_count" (fmt_d wc) w1)
    as (w2 & Hrun2 & He2 & Hf2 & Ho2 & Hg2 & Hs2); [done|].
  destruct (setGitLabOutput_fields "total_issues" (fmt_d total) w2)
    as (w3 & Hrun3 & He3 & Hf3 & Ho3 & Hg3 & Hs3); [done|].
  exists w3. split.
  { erewrite bind_Done by exact Hrun1. by erewrite bind_Done by exact Hrun2. }
  split_and!; [congruence| |congruence].
  rewrite Hf3, Hg2, Hg1, Ho2, Ho1, Hf2, Hg1, Ho1, Hf1.
  destruct (open_refused w AppendCreate (gitlab_output_file w)); [done|].
  rewrite !lookup_insert_eq, !insert_insert_eq. simpl.
  f_equal. by rewrite !append_assoc.
Qed.

Lemma setGitHubOutput_dropped name value w :
  env_value w "GITHUB_OUTPUT" = ""
  ∨ open_refused w AppendCreate (env_value w "GITHUB_OUTPUT") = true →
  ∃ w', setGitHubOutput name value w = Done w' tt
    ∧ files w' = files w ∧ environ w' = environ w
    ∧ open_refused w' = open_refused w ∧ stdout w' = stdout w.
Proof.
  intros Hwhy. unfold setGitHubOutput.
  erewrite bind_Done by apply os_Getenv_run.
  case_bool_decide as Hpath; [|by eexists].
  destruct Hwhy as [Hempty|Hrefused]; [done|].
  unfold os_OpenFile_append. io_unfold. rewrite Hrefused. by eexists.
Qed.

(** X18. On GitHub Actions (GitLab flag unset), when GITHUB_OUTPUT is
    empty or the file cannot be opened, the emitter still returns normally
    and writes nothing: files and environment are unchanged. *)
Theorem emit_outputs_github_dropped ec wc total w :
  DetectCI w = Done w "github" → env_value w "GITLAB_CI" ≠ "true" →
  env_value w "GITHUB_OUTPUT" = ""
  ∨ open_refused w AppendCreate (env_value w "GITHUB_OUTPUT") = true →
  ∃ w', emit_outputs ec wc total w = Done w' tt
    ∧ files w' = files w ∧ environ w' = environ w ∧ stdout w' = stdout w.
Proof.
  intros Hci%DetectCI_inv Hgl Hwhy. apply platform_cases in Hci.
  unfold emit_outputs.
  erewrite bind_Done by apply os_Getenv_run. rewrite bool_decide_true by done.
  destruct (setGitHubOutput_dropped "error_count" (fmt_d ec) w Hwhy)
    as (w1 & Hrun1 & Hf1 & He1 & Ho1 & Hs1).
  destruct (setGitHubOutput_dropped "warning_count" (fmt_d wc) w1)
    as (w2 & Hrun2 & Hf2 & He2 & Ho2 & Hs2).
  { unfold env_value. by rewrite He1, Ho1. }
  destruct (setGitHubOutput_dropped "total_issues" (fmt_d total) w2)
    as (w3 & Hrun3 & Hf3 & He3 & Ho3 & Hs3).
  { unfold env_value. by rewrite He2, He1, Ho2, Ho1. }
  erewrite bind_Done.
  2:{ erewrite bind_Done by exact Hrun1. erewrite bind_Done by exact Hrun2. exact Hrun3. }
  erewrite bind_Done by apply os_Getenv_run.
  assert (env_value w3 "GITLAB_CI" = env_value w "GITLAB_CI") as ->
    by (by unfold env_value; rewrite He3, He2, He1).
  rewrite bool_decide_false by done.
  exists w3. split_and!; [done|congruence..].
Qed.

(** X15. In every world the emitter returns, and it changes at most the
    two output files and the three count variables: standard output, log,
    every other file and every other variable are as before, so the
    configuration and the platform read from the environment afterwards
    are the same. *)
Theorem emit_outputs_frame ec wc total w :
  ∃ w', emit_outputs ec wc total w = Done w' tt
    ∧ emits_only w w'
    ∧ resolved w' = resolved w
    ∧ platform w' = platform w.
Proof.
  destruct (emitter_emit_outputs ec wc total w) as (w' & Hrun & Honly).
  exists w'. split_and!; [done..| |].
  - destruct Honly as (_ & _ & _ & _ & Henv & _).
    unfold resolved, env_value. rewrite !Henv by not_count_name. done.
  - destruct (emits_only_paths _ _ Honly) as (_ & _ & Hgh & Hgl).
    unfold platform. by rewrite Hgh, Hgl.
Qed.

Lemma verdict_run results :
  go_slice results →
  (if 0 <? wrap (errorCount results)
   then Some ("governance analysis failed with "
              +:+ fmt_d (wrap (errorCount results)) +:+ " errors and "
              +:+ fmt_d (wrap (warningCount results)) +:+ " warnings")
   else None) = verdict results.
Proof.
  intros Hslice. destruct (counts_are_ints results Hslice) as [-> ->].
  unfold verdict, failure_message.
  destruct (Z.ltb_spec 0 (errorCount results)); case_decide; done || lia.
Qed.

(** The report stage on values of the Go types: it returns the verdict of
    the sequence and prints its report. *)
Lemma processResults_returns results w :
  go_slice results → Forall int_fields results →
  ∃ w', processResults results w = Done w' (verdict results)
    ∧ (results = [] → w' = log_more w [(LInfo, "No governance issues found")])
    ∧ (results ≠ [] →
       emit_outputs (errorCount results) (warningCount results) (len results)
                    (printed w results) = Done w' tt).
Proof.
  intros Hslice Hwf. destruct results as [|r rs].
  - eexists. split_and!; done.
  - destruct (processResults_run (r :: rs) w) as (w' & Hemit & Hrun & _); [done..|].
    rewrite verdict_run in Hrun by done.
    destruct (counts_are_ints (r :: rs) Hslice) as [He Hw].
    rewrite He, Hw in Hemit. exists w'. split_and!; done.
Qed.

(** X10. The error [processResults] returns depends on the findings
    alone: in any two worlds (environment, files, permissions) it returns
    the same verdict, an error exactly when a finding has severity 0. *)
Theorem processResults_verdict_any_world results w1 w2 :
  go_slice results → Forall int_fields results →
  ∃ w1' w2' err,
    processResults results w1 = Done w1' err
    ∧ processResults results w2 = Done w2' err
    ∧ err = verdict results.
Proof.
  intros Hslice Hwf.
  destruct (processResults_returns results w1 Hslice Hwf) as (w1' & Hrun1 & _).
  destruct (processResults_returns results w2 Hslice Hwf) as (w2' & Hrun2 & _).
  by exists w1', w2', (verdict results).
Qed.

Lemma printed_fields w results :
  environ (printed w results) = environ w ∧ files (printed w results) = files w
  ∧ open_refused (printed w results) = open_refused w
  ∧ remote (printed w results) = remote w ∧ logs (printed w results) = logs w.
Proof. unfold printed, after_load. by case_decide. Qed.

(** X11. On a local run a non-empty sequence only prints: the files, the
    environment and the log are unchanged, and the only file-system event
    is the read-only open of the document, when a path is configured. *)
Theorem processResults_local_only_prints results w :
  DetectCI w = Done w "local" → go_slice results → Forall int_fields results →
  results ≠ [] →
  processResults results w = Done (printed w results) (verdict results)
  ∧ files (printed w results) = files w
  ∧ environ (printed w results) = environ w
  ∧ logs (printed w results) = logs w
  ∧ trace (printed w results)
    = trace w ++ (if decide (snippet_path w = "") then []
                  else [EvOpen ReadOnly (snippet_path w)
                               (bool_decide (is_Some (opened w (snippet_path w))))]).
Proof.
  intros Hci Hslice Hwf Hne.
  destruct (processResults_returns results w Hslice Hwf) as (w' & Hrun & _ & Hemit).
  specialize (Hemit Hne).
  destruct (printed_fields w results) as (Henv & Hfiles & _ & _ & Hlogs).
  apply DetectCI_inv, platform_cases in Hci as [Hgh Hgl].
  rewrite emit_outputs_unflagged in Hemit by (by unfold env_value; rewrite Henv).
  injection Hemit as <-. split_and!; try done.
  unfold printed, after_load. case_decide; simpl; [by rewrite app_nil_r|done].
Qed.

(** X14. A finding whose range passes the snippet test but ends before
    it starts gets the two delimiters with no line between them. *)
Theorem report_result_reversed_range lines r ec wc w :
  int_fields r → lines ≠ [] → 0 < Line (Start (Range r)) →
  Line (End_ (Range r)) ≤ len lines →
  Line (End_ (Range r)) < Line (Start (Range r)) →
  ∃ w' counters,
    report_result lines r ec wc w = Done w' counters
    ∧ stdout w' = stdout w ++ [finding_line r;
                               "    --- OAS snippet ---" +:+ nl;
                               "    -------------------" +:+ nl].
Proof.
  intros Hr Hlines Hpos Hend Hrev. eexists _, _.
  rewrite report_result_run by done. split; [done|]. simpl.
  unfold snippet_block. rewrite decide_True by done.
  by rewrite seqZ_nil by lia.
Qed.

Lemma os_ReadFile_run rerr path w :
  os_ReadFile rerr path w
  = Done (after_open w path)
         (match opened w path with
          | Some content => Ok content
          | None => Err (rerr path)
          end).
Proof.
  unfold os_ReadFile. erewrite bind_Done by reflexivity.
  unfold after_open, opened.
  by destruct (if open_refused w ReadOnly path then None else files w !! path).
Qed.

Lemma readOASFile_run Abs rerr path w :
  readOASFile Abs rerr path w
  = match (if negb (filepath_IsAbs path) then Abs path else Ok path) with
    | Err e => Done w (Err ("failed to resolve absolute path: " +:+ e))
    | Ok p =>
        Done (after_open w p)
             (match opened w p with
              | Some content => Ok content
              | None => Err ("failed to read file " +:+ p +:+ ": " +:+ rerr p)
              end)
    end.
Proof.
  unfold readOASFile.
  destruct (if negb (filepath_IsAbs path) then Abs path else Ok path) as [p|e]; [|done].
  erewrite bind_Done by apply os_ReadFile_run.
  by destruct (opened w p).
Qed.

(** X8. [readOASFile] does not consult [filepath.Abs] for an absolute
    path; when the resolution of a relative path fails it reports
    "failed to resolve absolute path" without touching the file system;
    otherwise it opens the resolved path once and returns its content, or
    an error that names the resolved path. *)
Theorem readOASFile_outcomes Abs rerr path w :
  (filepath_IsAbs path = true →
     ∀ Abs', readOASFile Abs' rerr path w = readOASFile Abs rerr path w)
  ∧ (∀ e, filepath_IsAbs path = false → Abs path = Err e →
       readOASFile Abs rerr path w
       = Done w (Err ("failed to resolve absolute path: " +:+ e)))
  ∧ (∀ p, (if filepath_IsAbs path then Ok path else Abs path) = Ok p →
       ∃ r, readOASFile Abs rerr path w = Done (after_open w p) r
            ∧ (∀ content, opened w p = Some content → r = Ok content)
            ∧ (opened w p = None
               → r = Err ("failed to read file " +:+ p +:+ ": " +:+ rerr p))).
Proof.
  split_and!.
  - intros Habs Abs'. rewrite !readOASFile_run. by rewrite Habs.
  - intros e Hrel HAbs. rewrite readOASFile_run. by rewrite Hrel, HAbs.
  - intros p Hp. rewrite readOASFile_run.
    assert ((if negb (filepath_IsAbs path) then Abs path else Ok path) = Ok p) as ->
      by (by destruct (filepath_IsAbs path)).
    eexists. split; [done|]. split; [by intros content ->|by intros ->].
Qed.

Lemma obtain_results_mock Abs rerr analyze c w :
  Mocked c ≠ "" →
  obtain_results Abs rerr analyze c w
  = Done (log_more w mock_logs) (Ok (generateMockResults (Mocked c) (RuleID c))).
Proof.
  intros Hm. unfold obtain_results. rewrite bool_decide_true by done.
  erewrite bind_Done by apply logger_run.
  erewrite bind_Done by apply logger_run.
  by rewrite log_more_more.
Qed.

(** X1. When the resolved configuration does not validate, [RunAction]
    returns "invalid configuration: " followed by the validation error,
    and only the log has changed: nothing is printed, no file is opened,
    the client is not called. *)
Theorem RunAction_invalid_configuration Abs rerr analyze w e :
  Validate (resolved w) = Some e →
  RunAction Abs rerr analyze w
  = Done (log_more w (started ++ [(LError, "Invalid configuration")]))
         (Some ("invalid configuration: " +:+ e)).
Proof. intros Hv. rewrite RunAction_run. by rewrite Hv. Qed.

Lemma RunAction_mock_run Abs rerr analyze w :
  Validate (resolved w) = None → Mocked (resolved w) ≠ "" →
  RunAction Abs rerr analyze w
  = match processResults (generateMockResults (Mocked (resolved w)) (RuleID (resolved w)))
                         (log_more w (started ++ mock_logs)) with
    | Done w2 (Some e) =>
        Done (log_more w2 [(LError, "Failed to process results")])
             (Some ("failed to process results: " +:+ e))
    | Done w2 None =>
        Done (log_more w2 [(LInfo, "Governance action completed successfully")]) None
    | Panic w2 msg => Panic w2 msg
    | OutOfFuel => OutOfFuel
    end.
Proof.
  intros Hv Hm. rewrite RunAction_run, Hv.
  rewrite obtain_results_mock by done. by rewrite log_more_more.
Qed.

(** X2. In mock mode the outcome of [RunAction] is the same whatever the
    path resolver, the file reader's error and the client are: the
    document is not read for analysis and the service is not called. *)
Theorem RunAction_mock_ignores_service Abs rerr analyze Abs' rerr' analyze' w :
  Mocked (resolved w) ≠ "" →
  RunAction Abs rerr analyze w = RunAction Abs' rerr' analyze' w.
Proof.
  intros Hm. destruct (Validate (resolved w)) as [e|] eqn:Hv.
  - rewrite !RunAction_run. by rewrite Hv.
  - by rewrite !RunAction_mock_run.
Qed.

Lemma verdict_mock ruleID :
  verdict (generateMockResults "success" ruleID) = None
  ∧ verdict (generateMockResults "warning" ruleID) = None
  ∧ verdict (generateMockResults "fail" ruleID)
    = Some "governance analysis failed with 2 errors and 1 warnings".
Proof. by vm_compute. Qed.

Lemma processResults_nil w :
  processResults [] w = Done (log_more w [(LInfo, "No governance issues found")]) None.
Proof. done. Qed.

(** X3. With a valid configuration, the "success" scenario returns nil
    and only logs; "warning" returns nil after printing the report of the
    two warnings; "fail" prints the report of its three findings and
    returns "failed to process results: governance analysis failed with 2
    errors and 1 warnings". *)
Theorem RunAction_mock_scenarios Abs rerr analyze w :
  Validate (resolved w) = None →
  (Mocked (resolved w) = "success" →
     RunAction Abs rerr analyze w
     = Done (log_more w (started ++ mock_logs
                         ++ [(LInfo, "No governance issues found");
                             (LInfo, "Governance action completed successfully")]))
            None)
  ∧ (Mocked (resolved w) = "warning" →
     ∃ w', RunAction Abs rerr analyze w = Done w' None
           ∧ stdout w' = stdout w
               ++ report (loaded_lines w)
                         (generateMockResults "warning" (RuleID (resolved w))))
  ∧ (Mocked (resolved w) = "fail" →
     ∃ w', RunAction Abs rerr analyze w
           = Done w' (Some ("failed to process results: "
                            +:+ "governance analysis failed with 2 errors and 1 warnings"))
           ∧ stdout w' = stdout w
               ++ report (loaded_lines w)
                         (generateMockResults "fail" (RuleID (resolved w)))).
Proof.
  intros Hv. split_and!; intros Hm.
  - rewrite RunAction_mock_run by (done || by rewrite Hm). rewrite Hm.
    change (generateMockResults "success" (RuleID (resolved w))) with (@nil LintResult).
    rewrite processResults_nil. by rewrite !log_more_more, <- !app_assoc.
  - rewrite RunAction_mock_run by (done || by rewrite Hm). rewrite Hm.
    destruct (generateMockResults_well_typed "warning" (RuleID (resolved w))) as [Hs Hwf].
    destruct (processResults_run (generateMockResults "warning" (RuleID (resolved w)))
                (log_more w (started ++ mock_logs))) as (w' & _ & Hrun & Hout); [done..|].
    rewrite verdict_run in Hrun by done.
    rewrite (proj1 (proj2 (verdict_mock _))) in Hrun. rewrite Hrun.
    eexists. split; [done|]. simpl. by rewrite Hout.
  - rewrite RunAction_mock_run by (done || by rewrite Hm). rewrite Hm.
    destruct (generateMockResults_well_typed "fail" (RuleID (resolved w))) as [Hs Hwf].
    destruct (processResults_run (generateMockResults "fail" (RuleID (resolved w)))
                (log_more w (started ++ mock_logs))) as (w' & _ & Hrun & Hout); [done..|].
    rewrite verdict_run in Hrun by done.
    rewrite (proj2 (proj2 (verdict_mock _))) in Hrun. rewrite Hrun.
    eexists. split; [done|]. simpl. by rewrite Hout.
Qed.

(** The report stage on GitHub Actions: whatever the verdict, the counts
    are in the output file when it can be opened. *)
Lemma processResults_github_file results path w :
  go_slice results → Forall int_fields results → results ≠ [] →
  env_value w "GITHUB_ACTIONS" = "true" → env_value w "GITLAB_CI" ≠ "true" →
  env_value w "GITHUB_OUTPUT" = path → path ≠ "" →
  open_refused w AppendCreate path = false →
  ∃ w', processResults results w = Done w' (verdict results)
    ∧ files w' !! path = Some (default "" (files w !! path) +:+ github_lines results)
    ∧ stdout w' = stdout w ++ report (loaded_lines w) results.
Proof.
  intros Hslice Hwf Hne Hgh Hgl Hpath Hp Hopen.
  destruct (processResults_run results w Hne Hwf) as (w' & Hemit & Hrun & Hout).
  rewrite verdict_run in Hrun by done.
  destruct (counts_are_ints results Hslice) as [He Hw]. rewrite He, Hw in Hemit.
  destruct (printed_fields w results) as (Henv & Hfiles & Hperm & _ & _).
  destruct (emit_outputs_github (errorCount results) (warningCount results)
              (len results) path (printed w results))
    as (w2 & Hemit' & Hfile & _);
    [by unfold env_value; rewrite Henv..|done|by rewrite Hperm|].
  rewrite Hemit in Hemit'. injection Hemit' as <-.
  exists w'. split_and!; [done| |done]. by rewrite Hfile, Hfiles.
Qed.

(** X13. On GitHub Actions a non-empty sequence leaves its three counts
    in the output file, after what the file held, whatever the verdict:
    also when the run fails. *)
Theorem processResults_writes_github_outputs results path w :
  go_slice results → Forall int_fields results → results ≠ [] →
  env_value w "GITHUB_ACTIONS" = "true" → env_value w "GITLAB_CI" ≠ "true" →
  env_value w "GITHUB_OUTPUT" = path → path ≠ "" →
  open_refused w AppendCreate path = false →
  ∃ w', processResults results w = Done w' (verdict results)
    ∧ files w' !! path = Some (default "" (files w !! path) +:+ github_lines results)
    ∧ stdout w' = stdout w ++ report (loaded_lines w) results.
Proof.
  intros Hslice Hwf Hne Hgh Hgl Hpath Hp Hopen.
  destruct (processResults_github_file results path w) as (w' & Hrun & Hfile & Hout);
    [done..|].
  by exists w'.
Qed.

(** X4. The "fail" scenario on GitHub Actions, with an output file that
    can be opened: [RunAction] fails and the file has gained
    error_count=2, warning_count=1 and total_issues=3. *)
Theorem RunAction_mock_fail_outputs Abs rerr analyze path w :
  Validate (resolved w) = None → Mocked (resolved w) = "fail" →
  env_value w "GITHUB_ACTIONS" = "true" → env_value w "GITLAB_CI" ≠ "true" →
  env_value w "GITHUB_OUTPUT" = path → path ≠ "" →
  open_refused w AppendCreate path = false →
  ∃ w', RunAction Abs rerr analyze w
        = Done w' (Some ("failed to process results: "
                         +:+ "governance analysis failed with 2 errors and 1 warnings"))
    ∧ files w' !! path
      = Some (default "" (files w !! path)
              +:+ "error_count=2" +:+ nl +:+ "warning_count=1" +:+ nl
              +:+ "total_issues=3" +:+ nl).
Proof.
  intros Hv Hm Hgh Hgl Hpath Hp Hopen.
  rewrite RunAction_mock_run by (done || by rewrite Hm). rewrite Hm.
  destruct (generateMockResults_well_typed "fail" (RuleID (resolved w))) as [Hs Hwf].
  destruct (processResults_github_file
              (generateMockResults "fail" (RuleID (resolved w))) path
              (log_more w (started ++ mock_logs)))
    as (w' & Hrun & Hfile & _); [done..|].
  rewrite (proj2 (proj2 (verdict_mock _))) in Hrun. rewrite Hrun.
  eexists. split; [done|]. simpl. rewrite Hfile. done.
Qed.

Lemma obtain_results_normal Abs rerr analyze c w :
  Mocked c = "" →
  obtain_results Abs rerr analyze c w
  = match (if negb (filepath_IsAbs (APIPath c)) then Abs (APIPath c) else Ok (APIPath c)) with
    | Err e =>
        Done (log_more w [(LError, "Failed to read OAS file")])
             (Err ("failed to read OAS file: failed to resolve absolute path: " +:+ e))
    | Ok p =>
        match opened w p with
        | None =>
            Done (log_more (after_open w p) [(LError, "Failed to read OAS file")])
                 (Err ("failed to read OAS file: failed to read file "
                       +:+ p +:+ ": " +:+ rerr p))
        | Some content =>
            match analyze (NewGovernanceClient (GovernanceService c) (GovernanceAuth c))
                          content (RuleID c) (after_open w p) with
            | Done w1 (Ok results) => Done w1 (Ok results)
            | Done w1 (Err e) =>
                Done (log_more w1 [(LError, "Failed to analyze OAS")])
                     (Err ("failed to analyze OAS: " +:+ e))
            | Panic w1 msg => Panic w1 msg
            | OutOfFuel => OutOfFuel
            end
        end
    end.
Proof.
  intros Hm. unfold obtain_results. rewrite bool_decide_false by (by intros ?).
  io_unfold. rewrite readOASFile_run.
  destruct (if negb (filepath_IsAbs (APIPath c)) then Abs (APIPath c) else Ok (APIPath c))
    as [p|e].
  - destruct (opened w p) as [content|]; [|done].
    destruct (analyze _ content (RuleID c) (after_open w p)) as [w1 [results|e]| |]; done.
  - done.
Qed.

Lemma resolved_path_eq Abs path :
  (if negb (filepath_IsAbs path) then Abs path else Ok path) = resolved_path Abs path.
Proof. unfold resolved_path. by destruct (filepath_IsAbs path). Qed.

(** X5. In normal mode, when the document cannot be read, [RunAction]
    returns "failed to read OAS file: failed to read file P: ..." with the
    resolved path P; the client is not called, nothing is printed, and the
    one file-system event is the failed open. *)
Theorem RunAction_unreadable_document Abs rerr analyze w p :
  Validate (resolved w) = None → Mocked (resolved w) = "" →
  resolved_path Abs (APIPath (resolved w)) = Ok p → opened w p = None →
  RunAction Abs rerr analyze w
  = Done (log_more (after_open w p) (started ++ [(LError, "Failed to read OAS file")]))
         (Some ("failed to read OAS file: failed to read file " +:+ p +:+ ": " +:+ rerr p)).
Proof.
  intros Hv Hm Hp Hopen. rewrite RunAction_run, Hv.
  rewrite obtain_results_normal by done. rewrite resolved_path_eq, Hp.
  change (opened (log_more w started) p) with (opened w p). rewrite Hopen.
  f_equal. unfold log_more, after_open, with_logs, with_trace. simpl.
  by rewrite <- app_assoc.
Qed.

(** X7. In normal mode, when the document is read and the client
    returns findings, [RunAction] returns nil exactly when no finding has
    severity 0, and otherwise "failed to process results: " followed by
    the failure message; the report of a non-empty sequence is printed. *)
Theorem RunAction_normal_verdict Abs rerr analyze w p content w1 results :
  Validate (resolved w) = None → Mocked (resolved w) = "" →
  resolved_path Abs (APIPath (resolved w)) = Ok p → opened w p = Some content →
  analyze (NewGovernanceClient (GovernanceService (resolved w)) (GovernanceAuth (resolved w)))
          content (RuleID (resolved w)) (after_open (log_more w started) p)
  = Done w1 (Ok results) →
  go_slice results → Forall int_fields results →
  ∃ w', RunAction Abs rerr analyze w
        = Done w' (match verdict results with
                   | Some e => Some ("failed to process results: " +:+ e)
                   | None => None
                   end)
    ∧ stdout w' = stdout w1 ++ (if decide (results = []) then []
                                else report (loaded_lines w1) results).
Proof.
  intros Hv Hm Hp Hopen Han Hslice Hwf. rewrite RunAction_run, Hv.
  rewrite obtain_results_normal by done. rewrite resolved_path_eq, Hp.
  change (opened (log_more w started) p) with (opened w p). rewrite Hopen, Han.
  destruct results as [|r rs].
  - rewrite processResults_nil. eexists. split; [done|]. simpl. by rewrite app_nil_r.
  - destruct (processResults_run (r :: rs) w1) as (w' & _ & Hrun & Hout); [done..|].
    rewrite verdict_run in Hrun by done. rewrite Hrun.
    destruct (verdict (r :: rs)); eexists; (split; [done|]); simpl; by rewrite Hout.
Qed.



Lemma makeAnalysisRequest_run jm ue ju c request w :
  makeAnalysisRequest jm ue ju c request w
  = match jm request with
    | Err e => Done w (Err ("failed to marshal request: " +:+ e))
    | Ok requestBody =>
        match ue (baseURL c +:+ "/rulesets/evaluate") with
        | Some e => Done w (Err ("failed to create request: " +:+ e))
        | None =>
            Done (log_more w ((LDebug, "Making request to governance service")
                              :: answer_logs (remote w (sent_request c requestBody))))
                 (answer ju (remote w (sent_request c requestBody)))
        end
    end.
Proof.
  unfold makeAnalysisRequest, http_NewRequest.
  destruct (jm request) as [requestBody|e]; [|done].
  destruct (ue _) as [e|]; [done|].
  erewrite bind_Done by apply logger_run.
  erewrite bind_Done by reflexivity.
  change (Header_Set _ "X-API-Key" (authToken c)) with (sent_request c requestBody).
  change (remote (log_more w _) (sent_request c requestBody))
    with (remote w (sent_request c requestBody)).
  destruct (remote w (sent_request c requestBody)) as [e|status body [e|]]; [done..|].
  unfold answer, answer_logs.
  destruct (decide (status = 200)) as [->|Hs].
  - simpl. by destruct (ju body).
  - rewrite (proj2 (Z.eqb_neq _ _) Hs). simpl.
    erewrite bind_Done by apply logger_run. by rewrite log_more_more.
Qed.

Lemma AnalyzeOAS_run jm ue ju c oasContent ruleID filename w :
  ∃ w' r,
    AnalyzeOAS jm ue ju c oasContent ruleID filename w = Done w' r
    ∧ (∃ l, w' = log_more w l)
    ∧ r = match jm (analysis_request oasContent ruleID filename) with
          | Err e => Err ("failed to make analysis request: failed to marshal request: " +:+ e)
          | Ok requestBody =>
              match ue (baseURL c +:+ "/rulesets/evaluate") with
              | Some e =>
                  Err ("failed to make analysis request: failed to create request: " +:+ e)
              | None =>
                  match answer ju (remote w (sent_request c requestBody)) with
                  | Ok results => Ok results
                  | Err e => Err ("failed to make analysis request: " +:+ e)
                  end
              end
          end.
Proof.
  unfold AnalyzeOAS. fold (analysis_request oasContent ruleID filename).
  erewrite bind_Done by apply logger_run.
  io_unfold. rewrite makeAnalysisRequest_run.
  destruct (jm _) as [requestBody|e]; [|by eexists _, _; split_and!; [|eexists|]].
  destruct (ue _) as [e|]; [by eexists _, _; split_and!; [|eexists|]|].
  change (remote (log_more w _) (sent_request c requestBody))
    with (remote w (sent_request c requestBody)).
  destruct (answer ju _) as [results|e].
  - rewrite logger_run, !log_more_more. by eexists _, _; split_and!; [|eexists|].
  - rewrite log_more_more. by eexists _, _; split_and!; [|eexists|].
Qed.

Lemma answer_Ok ju o results :
  answer ju o = Ok results ↔ ∃ body, o = Response 200 body None ∧ ju body = Ok results.
Proof.
  unfold answer. split.
  - destruct o as [e|status body [e|]]; [done..|].
    destruct (decide (status = 200)) as [->|]; [|done].
    destruct (ju body) eqn:Hju; [|done]. intros [= ->]. by exists body.
  - intros (body & -> & Hju). simpl. by rewrite Hju.
Qed.

(** X20. [AnalyzeOAS] changes the log only. It returns findings exactly
    when the request could be built, the service answered 200 and the body
    decoded, and then returns the decoded sequence; every error it returns
    starts with "failed to make analysis request: ".
    [AnalyzeOASWithUpload] is [AnalyzeOAS] under the empty file name. *)
Theorem AnalyzeOAS_outcomes jm ue ju c oasContent ruleID filename w :
  ∃ w' r,
    AnalyzeOAS jm ue ju c oasContent ruleID filename w = Done w' r
    ∧ stdout w' = stdout w ∧ files w' = files w
    ∧ environ w' = environ w ∧ trace w' = trace w
    ∧ (∀ results,
         r = Ok results
         ↔ ∃ requestBody body,
             jm (analysis_request oasContent ruleID filename) = Ok requestBody
             ∧ ue (baseURL c +:+ "/rulesets/evaluate") = None
             ∧ remote w (sent_request c requestBody) = Response 200 body None
             ∧ ju body = Ok results)
    ∧ (∀ e, r = Err e → ∃ cause, e = "failed to make analysis request: " +:+ cause)
    ∧ AnalyzeOASWithUpload jm ue ju c oasContent ruleID w
      = AnalyzeOAS jm ue ju c oasContent ruleID ""
          (log_more w [(LInfo, "Starting OAS analysis with upload workflow")]).
Proof.
  destruct (AnalyzeOAS_run jm ue ju c oasContent ruleID filename w)
    as (w' & r & Hrun & [l ->] & Hr).
  exists (log_more w l), r. split_and!; try done.
  - intros results. rewrite Hr. split.
    + destruct (jm _) as [requestBody|e]; [|done].
      destruct (ue _) as [e|]; [done|].
      destruct (answer ju _) as [rs|e] eqn:Hans; [|done].
      intros [= ->]. apply answer_Ok in Hans as (body & Hremote & Hju).
      by exists requestBody, body.
    + intros (requestBody & body & -> & -> & Hremote & Hju).
      by rewrite (proj2 (answer_Ok ju _ results)) by (by exists body).
  - intros e. rewrite Hr.
    destruct (jm _) as [requestBody|e']; [|intros [= <-]; by eexists].
    destruct (ue _) as [e'|]; [intros [= <-]; by eexists|].
    destruct (answer ju _) as [rs|e']; [done|]. intros [= <-]. by eexists.
Qed.

(** X6. In normal mode with the repository's client, a status other
    than 200 makes [RunAction] return "failed to analyze OAS: failed to
    make analysis request: governance service returned status N: body";
    no report is printed and no output is written. *)
Theorem RunAction_rejected_by_service
    Abs rerr jm ue ju filename w p content requestBody status body :
  Validate (resolved w) = None → Mocked (resolved w) = "" →
  resolved_path Abs (APIPath (resolved w)) = Ok p → opened w p = Some content →
  jm (analysis_request content (RuleID (resolved w)) filename) = Ok requestBody →
  ue (GovernanceService (resolved w) +:+ "/rulesets/evaluate") = None →
  remote w (sent_request (NewGovernanceClient (GovernanceService (resolved w))
                                              (GovernanceAuth (resolved w)))
                         requestBody)
  = Response status body None →
  status ≠ 200 →
  ∃ w', RunAction Abs rerr
          (λ client oasContent ruleID, AnalyzeOAS jm ue ju client oasContent ruleID filename) w
        = Done w' (Some ("failed to analyze OAS: failed to make analysis request: "
                         +:+ "governance service returned status "
                         +:+ fmt_d status +:+ ": " +:+ body))
    ∧ stdout w' = stdout w ∧ files w' = files w ∧ environ w' = environ w.
Proof.
  intros Hv Hm Hp Hopen Hjm Hue Hremote Hstatus. rewrite RunAction_run, Hv.
  rewrite obtain_results_normal by done. rewrite resolved_path_eq, Hp.
  change (opened (log_more w started) p) with (opened w p). rewrite Hopen.
  destruct (AnalyzeOAS_run jm ue ju
              (NewGovernanceClient (GovernanceService (resolved w))
                                   (GovernanceAuth (resolved w)))
              content (RuleID (resolved w)) filename
              (after_open (log_more w started) p)) as (w1 & r & Hrun & [l ->] & Hr).
  rewrite Hrun, Hr, Hjm.
  change (baseURL (NewGovernanceClient _ _)) with (GovernanceService (resolved w)).
  rewrite Hue.
  change (remote (after_open (log_more w started) p)) with (remote w).
  rewrite Hremote. unfold answer. rewrite decide_False by done.
  eexists. split; [done|]. done.
Qed.

Lemma GetContext_run ci w :
  GetContext ci w
  = Done w (if decide (ci = "github") then
              <["repository" := env_value w "GITHUB_REPOSITORY"]>
                (<["commit" := env_value w "GITHUB_SHA"]>
                   (<["branch" := env_value w "GITHUB_REF_NAME"]>
                      (<["actor" := env_value w "GITHUB_ACTOR"]>
                         (<["workflow" := env_value w "GITHUB_WORKFLOW"]>
                            (<["run_id" := env_value w "GITHUB_RUN_ID"]> ∅)))))
            else if decide (ci = "gitlab") then
              <["repository" := env_value w "CI_PROJECT_PATH"]>
                (<["commit" := env_value w "CI_COMMIT_SHA"]>
                   (<["branch" := env_value w "CI_COMMIT_BRANCH"]>
                      (<["actor" := env_value w "GITLAB_USER_NAME"]>
                         (<["pipeline" := env_value w "CI_PIPELINE_ID"]>
                            (<["job" := env_value w "CI_JOB_ID"]> ∅)))))
            else <["env" := "local"]> ∅).
Proof. unfold GetContext. repeat case_bool_decide; repeat case_decide; done. Qed.

(** X21. [DetectCI] reports "github" when the GitHub flag is "true",
    also when the GitLab flag is; "gitlab" when only the GitLab flag is;
    "local" otherwise.  [GetContext] has the same six keys for a platform
    whether or not its variables are set (an unset variable gives the
    empty string), and the single entry env=local for any other name. *)
Theorem context_of_platform ci w :
  ∃ detected ctx,
    DetectCI w = Done w detected ∧ GetContext ci w = Done w ctx
    ∧ (detected = "github" ↔ env_value w "GITHUB_ACTIONS" = "true")
    ∧ (detected = "gitlab"
       ↔ env_value w "GITHUB_ACTIONS" ≠ "true" ∧ env_value w "GITLAB_CI" = "true")
    ∧ (detected = "local"
       ↔ env_value w "GITHUB_ACTIONS" ≠ "true" ∧ env_value w "GITLAB_CI" ≠ "true")
    ∧ (ci = "github" →
       dom ctx = list_to_set ["repository"; "commit"; "branch"; "actor"; "workflow"; "run_id"]
       ∧ ctx !! "repository" = Some (env_value w "GITHUB_REPOSITORY")
       ∧ ctx !! "commit" = Some (env_value w "GITHUB_SHA")
       ∧ ctx !! "branch" = Some (env_value w "GITHUB_REF_NAME")
       ∧ ctx !! "actor" = Some (env_value w "GITHUB_ACTOR")
       ∧ ctx !! "workflow" = Some (env_value w "GITHUB_WORKFLOW")
       ∧ ctx !! "run_id" = Some (env_value w "GITHUB_RUN_ID"))
    ∧ (ci = "gitlab" →
       dom ctx = list_to_set ["repository"; "commit"; "branch"; "actor"; "pipeline"; "job"]
       ∧ ctx !! "repository" = Some (env_value w "CI_PROJECT_PATH")
       ∧ ctx !! "commit" = Some (env_value w "CI_COMMIT_SHA")
       ∧ ctx !! "branch" = Some (env_value w "CI_COMMIT_BRANCH")
       ∧ ctx !! "actor" = Some (env_value w "GITLAB_USER_NAME")
       ∧ ctx !! "pipeline" = Some (env_value w "CI_PIPELINE_ID")
       ∧ ctx !! "job" = Some (env_value w "CI_JOB_ID"))
    ∧ (ci ≠ "github" → ci ≠ "gitlab" → ctx = <["env" := "local"]> ∅).
Proof.
  eexists _, _. split; [apply DetectCI_run|]. split; [apply GetContext_run|].
  destruct (platform_cases w) as (Hgh & Hgl & Hloc).
  split_and!; [done..| | |].
  - intros ->. rewrite decide_True by done.
    split; [|by split_and!]. rewrite !dom_insert_L, dom_empty_L. set_solver.
  - intros ->. rewrite decide_False by done. rewrite decide_True by done.
    split; [|by split_and!]. rewrite !dom_insert_L, dom_empty_L. set_solver.
  - intros H1 H2. by rewrite !decide_False.
Qed.

(** X9. A configuration that validates in mock mode names one of the
    three scenarios and has a rule id and a document path, so
    [generateMockResults] is empty for "success" only and its default
    branch is not reached. *)
Theorem validated_mock_scenario c :
  Validate c = None → Mocked c ≠ "" →
  scenario (Mocked c) ∧ RuleID c ≠ "" ∧ APIPath c ≠ ""
  ∧ (generateMockResults (Mocked c) (RuleID c) = [] ↔ Mocked c = "success").
Proof.
  unfold Validate, scenario. intros Hv Hm.
  rewrite bool_decide_true in Hv by done.
  destruct (decide (Mocked c = "success")) as [Hs|Hs];
    [|destruct (decide (Mocked c = "fail")) as [Hf|Hf];
      [|destruct (decide (Mocked c = "warning")) as [Hw|Hw]]].
  - rewrite Hs in *. simpl in Hv. repeat case_bool_decide; try done.
    split_and!; auto. split; done.
  - rewrite Hf in *. simpl in Hv. repeat case_bool_decide; try done.
    split_and!; auto. split; done.
  - rewrite Hw in *. simpl in Hv. repeat case_bool_decide; try done.
    split_and!; auto. split; done.
  - rewrite !bool_decide_true in Hv by done. done.
Qed.

(** X12. When the document named for snippets cannot be opened, the
    report has every finding's line and no snippet block, the verdict is
    that of the findings and the emitter runs as usual: the failed open is
    not an error. *)
Theorem processResults_unreadable_document results w :
  go_slice results → Forall int_fields results → results ≠ [] →
  snippet_path w ≠ "" → opened w (snippet_path w) = None →
  ∃ w', processResults results w = Done w' (verdict results)
    ∧ stdout w' = stdout w ++ [report_header] ++ (finding_line <$> results)
                  ++ [report_footer]
    ∧ emit_outputs (errorCount results) (warningCount results) (totalCount results)
        (with_stdout
           (with_trace w (trace w ++ [EvOpen ReadOnly (snippet_path w) false]))
           (stdout w ++ [report_header] ++ (finding_line <$> results) ++ [report_footer]))
      = Done w' tt.
Proof.
  intros Hslice Hwf Hne Hpath Hopen.
  assert (loaded_lines w = []) as Hlines.
  { unfold loaded_lines. rewrite decide_False by done. by rewrite Hopen. }
  assert (after_load w
          = with_trace w (trace w ++ [EvOpen ReadOnly (snippet_path w) false])) as Hload.
  { unfold after_load. rewrite decide_False by done. by rewrite Hopen. }
  assert (report [] results = [report_header] ++ (finding_line <$> results) ++ [report_footer])
    as Hreport.
  { unfold report.
    assert (flat_map (λ r, finding_line r :: snippet_block [] r) results
            = finding_line <$> results) as ->; [|done].
    clear. induction results as [|r rs IH]; [done|].
    simpl. rewrite IH. unfold snippet_block.
    destruct (decide (has_snippet [] r)) as [[Hl _]|_]; done. }
  destruct (processResults_run results w Hne Hwf) as (w' & Hemit & Hrun & Hout).
  rewrite verdict_run in Hrun by done.
  destruct (counts_are_ints results Hslice) as [He Hw]. rewrite He, Hw in Hemit.
  unfold printed in Hemit. rewrite Hload, Hlines, Hreport in Hemit.
  rewrite Hlines, Hreport in Hout.
  exists w'. split_and!; done.
Qed.

Lemma setGitHubOutput_fields name value path w :
  env_value w "GITHUB_OUTPUT" = path → path ≠ "" →
  open_refused w AppendCreate path = false →
  ∃ w', setGitHubOutput name value w = Done w' tt
    ∧ files w' = <[path := default "" (files w !! path) +:+ name +:+ "=" +:+ value +:+ nl]>
                   (files w)
    ∧ environ w' = environ w ∧ open_refused w' = open_refused w
    ∧ stdout w' = stdout w.
Proof.
  intros Hpath Hne Hopen. unfold setGitHubOutput.
  erewrite bind_Done by apply os_Getenv_run. rewrite Hpath.
  rewrite bool_decide_true by done.
  unfold os_OpenFile_append, file_append. io_unfold. rewrite Hopen.
  eexists. split; [done|]. simpl.
  by rewrite lookup_insert_eq, insert_insert_eq.
Qed.

(** X19. With both platform flags set [DetectCI] reports "github", yet
    both channels are written: three lines are appended to the GitHub
    output file, three export lines to the GitLab file, and the three
    variables are set. *)
Theorem emit_outputs_both_channels ec wc total path w :
  env_value w "GITHUB_ACTIONS" = "true" → env_value w "GITLAB_CI" = "true" →
  env_value w "GITHUB_OUTPUT" = path → path ≠ "" → path ≠ gitlab_output_file w →
  open_refused w AppendCreate path = false →
  open_refused w AppendCreate (gitlab_output_file w) = false →
  ∃ w', emit_outputs ec wc total w = Done w' tt
    ∧ DetectCI w = Done w "github"
    ∧ files w' !! path
      = Some (default "" (files w !! path)
              +:+ "error_count=" +:+ fmt_d ec +:+ nl
              +:+ "warning_count=" +:+ fmt_d wc +:+ nl
              +:+ "total_issues=" +:+ fmt_d total +:+ nl)
    ∧ files w' !! gitlab_output_file w
      = Some (default "" (files w !! gitlab_output_file w)
              +:+ "export error_count=" +:+ fmt_d ec +:+ nl
              +:+ "export warning_count=" +:+ fmt_d wc +:+ nl
              +:+ "export total_issues=" +:+ fmt_d total +:+ nl)
    ∧ environ w' !! "error_count" = Some (fmt_d ec)
    ∧ environ w' !! "warning_count" = Some (fmt_d wc)
    ∧ environ w' !! "total_issues" = Some (fmt_d total).
Proof.
  intros Hgh Hgl Hpath Hne Hdiff Hopen Hopen'. unfold emit_outputs.
  erewrite bind_Done by apply os_Getenv_run. rewrite Hgh.
  rewrite bool_decide_true by done.
  destruct (setGitHubOutput_fields "error_count" (fmt_d ec) path w)
    as (w1 & Hrun1 & Hf1 & He1 & Ho1 & _); [done..|].
  destruct (setGitHubOutput_fields "warning_count" (fmt_d wc) path w1)
    as (w2 & Hrun2 & Hf2 & He2 & Ho2 & _);
    [by unfold env_value; rewrite He1|done|by rewrite Ho1|].
  destruct (setGitHubOutput_fields "total_issues" (fmt_d total) path w2)
    as (w3 & Hrun3 & Hf3 & He3 & Ho3 & _);
    [by unfold env_value; rewrite He2, He1|done|by rewrite Ho2, Ho1|].
  erewrite bind_Done.
  2:{ erewrite bind_Done by exact Hrun1. erewrite bind_Done by exact Hrun2. exact Hrun3. }
  assert (environ w3 = environ w) as Henv3 by congruence.
  assert (gitlab_output_file w3 = gitlab_output_file w) as Hgl3
    by (by unfold gitlab_output_file, env_value; rewrite Henv3).
  erewrite bind_Done by apply os_Getenv_run.
  assert (env_value w3 "GITLAB_CI" = "true") as -> by (by unfold env_value; rewrite Henv3).
  rewrite bool_decide_true by done.
  destruct (setGitLabOutput_fields "error_count" (fmt_d ec) w3)
    as (w4 & Hrun4 & He4 & Hf4 & Ho4 & Hg4 & _); [done|].
  destruct (setGitLabOutput_fields "warning_count" (fmt_d wc) w4)
    as (w5 & Hrun5 & He5 & Hf5 & Ho5 & Hg5 & _); [done|].
  destruct (setGitLabOutput_fields "total_issues" (fmt_d total) w5)
    as (w6 & Hrun6 & He6 & Hf6 & Ho6 & Hg6 & _); [done|].
  exists w6. split.
  { erewrite bind_Done by exact Hrun4. by erewrite bind_Done by exact Hrun5. }
  split.
  { rewrite DetectCI_run. unfold platform. by rewrite decide_True. }
  assert (open_refused w3 AppendCreate (gitlab_output_file w) = false) as Hopen3
    by (by rewrite Ho3, Ho2, Ho1).
  rewrite Hg5, Hg4, Hgl3 in *. rewrite Ho5, Ho4, Hopen3 in Hf6.
  rewrite Ho4, Hopen3 in Hf5. rewrite Hopen3 in Hf4.
  rewrite Hf5, Hf4 in Hf6. rewrite !lookup_insert_eq, !insert_insert_eq in Hf6.
  rewrite Hf2, Hf1 in Hf3. rewrite !lookup_insert_eq, !insert_insert_eq in Hf3.
  simpl in Hf3, Hf6.
  split_and!.
  - rewrite Hf6, lookup_insert_ne by done. rewrite Hf3, lookup_insert_eq.
    f_equal. by rewrite !append_assoc.
  - rewrite Hf6, lookup_insert_eq. rewrite Hf3, lookup_insert_ne by done.
    f_equal. by rewrite !append_assoc.
  - rewrite He6, He5, He4. by rewrite !lookup_insert_ne, lookup_insert_eq by done.
  - rewrite He6, He5. by rewrite lookup_insert_ne, lookup_insert_eq by done.
  - rewrite He6. by rewrite lookup_insert_eq.
Qed.

(** ** The further properties at sample inputs *)

Ltac computed := vm_compute; first [ reflexivity | discriminate ].

Lemma one_finding_well_typed :
  go_slice [Samples.finding_at 1 1] ∧ Forall int_fields [Samples.finding_at 1 1].
Proof.
  split; [unfold go_slice, len, MaxInt; simpl; lia|].
  apply finding_at_well_typed; lia.
Qed.

Lemma RunAction_invalid_configuration_witness :
  Validate (resolved Samples.service_run) = Some "governance_service is required"
  ∧ RunAction Samples.abs Samples.read_error Samples.one_finding Samples.service_run
    = Done (log_more Samples.service_run (started ++ [(LError, "Invalid configuration")]))
           (Some "invalid configuration: governance_service is required").
Proof.
  assert (Validate (resolved Samples.service_run) = Some "governance_service is required")
    as Hv by computed.
  split; [exact Hv|].
  exact (RunAction_invalid_configuration Samples.abs Samples.read_error
           Samples.one_finding Samples.service_run _ Hv).
Defined.

Lemma RunAction_mock_ignores_service_witness :
  Mocked (resolved Samples.mock_fail_run) ≠ ""
  ∧ RunAction Samples.abs Samples.read_error Samples.one_finding Samples.mock_fail_run
    = RunAction (λ _, Err "no working directory") (λ _, "") (λ _ _ _, mret (Err "down"))
        Samples.mock_fail_run.
Proof.
  assert (Mocked (resolved Samples.mock_fail_run) ≠ "") as Hm by computed.
  split; [exact Hm|].
  exact (RunAction_mock_ignores_service _ _ _ _ _ _ Samples.mock_fail_run Hm).
Defined.

Lemma RunAction_mock_scenarios_witness :
  Validate (resolved Samples.mock_fail_run) = None
  ∧ ∃ w', RunAction Samples.abs Samples.read_error Samples.one_finding Samples.mock_fail_run
          = Done w' (Some ("failed to process results: "
                           +:+ "governance analysis failed with 2 errors and 1 warnings")).
Proof.
  assert (Validate (resolved Samples.mock_fail_run) = None) as Hv by computed.
  assert (Mocked (resolved Samples.mock_fail_run) = "fail") as Hm by computed.
  split; [exact Hv|].
  destruct (proj2 (proj2 (RunAction_mock_scenarios Samples.abs Samples.read_error
              Samples.one_finding Samples.mock_fail_run Hv)) Hm) as (w' & Hrun & _).
  exists w'. exact Hrun.
Defined.

Lemma RunAction_mock_fail_outputs_witness :
  Validate (resolved Samples.mock_fail_run) = None
  ∧ Mocked (resolved Samples.mock_fail_run) = "fail"
  ∧ env_value Samples.mock_fail_run "GITHUB_ACTIONS" = "true"
  ∧ env_value Samples.mock_fail_run "GITLAB_CI" ≠ "true"
  ∧ env_value Samples.mock_fail_run "GITHUB_OUTPUT" = "github_output"
  ∧ open_refused Samples.mock_fail_run AppendCreate "github_output" = false
  ∧ ∃ w', RunAction Samples.abs Samples.read_error Samples.one_finding Samples.mock_fail_run
          = Done w' (Some ("failed to process results: "
                           +:+ "governance analysis failed with 2 errors and 1 warnings"))
      ∧ files w' !! "github_output"
        = Some ("error_count=2" +:+ nl +:+ "warning_count=1" +:+ nl
                +:+ "total_issues=3" +:+ nl).
Proof.
  assert (Validate (resolved Samples.mock_fail_run) = None) as Hv by computed.
  assert (Mocked (resolved Samples.mock_fail_run) = "fail") as Hm by computed.
  assert (env_value Samples.mock_fail_run "GITHUB_ACTIONS" = "true") as Hgh by computed.
  assert (env_value Samples.mock_fail_run "GITLAB_CI" ≠ "true") as Hgl by computed.
  assert (env_value Samples.mock_fail_run "GITHUB_OUTPUT" = "github_output") as Hout
    by computed.
  assert ("github_output" ≠ "") as Hne by discriminate.
  assert (open_refused Samples.mock_fail_run AppendCreate "github_output" = false) as Hopen
    by reflexivity.
  split_and!; [exact Hv|exact Hm|exact Hgh|exact Hgl|exact Hout|exact Hopen|].
  exact (RunAction_mock_fail_outputs Samples.abs Samples.read_error Samples.one_finding
           "github_output" Samples.mock_fail_run Hv Hm Hgh Hgl Hout Hne Hopen).
Defined.

Lemma RunAction_unreadable_document_witness :
  Validate (resolved Samples.missing_document_run) = None
  ∧ Mocked (resolved Samples.missing_document_run) = ""
  ∧ resolved_path Samples.abs (APIPath (resolved Samples.missing_document_run))
    = Ok "/work/missing.yaml"
  ∧ opened Samples.missing_document_run "/work/missing.yaml" = None
  ∧ RunAction Samples.abs Samples.read_error Samples.one_finding Samples.missing_document_run
    = Done (log_more (after_open Samples.missing_document_run "/work/missing.yaml")
                     (started ++ [(LError, "Failed to read OAS file")]))
           (Some ("failed to read OAS file: failed to read file /work/missing.yaml: "
                  +:+ "open /work/missing.yaml: no such file or directory")).
Proof.
  assert (Validate (resolved Samples.missing_document_run) = None) as Hv by computed.
  assert (Mocked (resolved Samples.missing_document_run) = "") as Hm by computed.
  assert (resolved_path Samples.abs (APIPath (resolved Samples.missing_document_run))
          = Ok "/work/missing.yaml") as Hp by computed.
  assert (opened Samples.missing_document_run "/work/missing.yaml" = None) as Hopen
    by computed.
  split_and!; [exact Hv|exact Hm|exact Hp|exact Hopen|].
  exact (RunAction_unreadable_document Samples.abs Samples.read_error Samples.one_finding
           Samples.missing_document_run "/work/missing.yaml" Hv Hm Hp Hopen).
Defined.

Lemma RunAction_rejected_by_service_witness :
  Validate (resolved Samples.normal_run) = None
  ∧ Mocked (resolved Samples.normal_run) = ""
  ∧ opened Samples.normal_run "/work/openapi.yaml" = Some Samples.document
  ∧ ∃ w', RunAction Samples.abs Samples.read_error
            (λ client oasContent ruleID,
               AnalyzeOAS Samples.marshal (λ _, None) Samples.unmarshal
                          client oasContent ruleID "openapi.yaml")
            Samples.normal_run
          = Done w' (Some ("failed to analyze OAS: failed to make analysis request: "
                           +:+ "governance service returned status 401: unauthorized"))
      ∧ stdout w' = [] ∧ files w' = files Samples.normal_run.
Proof.
  assert (Validate (resolved Samples.normal_run) = None) as Hv by computed.
  assert (Mocked (resolved Samples.normal_run) = "") as Hm by computed.
  assert (resolved_path Samples.abs (APIPath (resolved Samples.normal_run))
          = Ok "/work/openapi.yaml") as Hp by computed.
  assert (opened Samples.normal_run "/work/openapi.yaml" = Some Samples.document) as Hopen
    by computed.
  split_and!; [exact Hv|exact Hm|exact Hopen|].
  destruct (RunAction_rejected_by_service Samples.abs Samples.read_error
              Samples.marshal (λ _, None) Samples.unmarshal "openapi.yaml"
              Samples.normal_run "/work/openapi.yaml" Samples.document "{}" 401 "unauthorized"
              Hv Hm Hp Hopen eq_refl eq_refl eq_refl ltac:(discriminate))
    as (w' & Hrun & Hout & Hfiles & _).
  exists w'. split_and!; [exact Hrun|exact Hout|exact Hfiles].
Defined.

Lemma RunAction_normal_verdict_witness :
  Validate (resolved Samples.normal_run) = None
  ∧ Mocked (resolved Samples.normal_run) = ""
  ∧ go_slice [Samples.finding_at 1 1] ∧ Forall int_fields [Samples.finding_at 1 1]
  ∧ ∃ w', RunAction Samples.abs Samples.read_error Samples.one_finding Samples.normal_run
          = Done w' None.
Proof.
  assert (Validate (resolved Samples.normal_run) = None) as Hv by computed.
  assert (Mocked (resolved Samples.normal_run) = "") as Hm by computed.
  assert (resolved_path Samples.abs (APIPath (resolved Samples.normal_run))
          = Ok "/work/openapi.yaml") as Hp by computed.
  assert (opened Samples.normal_run "/work/openapi.yaml" = Some Samples.document) as Hopen
    by computed.
  destruct one_finding_well_typed as [Hslice Hwf].
  split_and!; [exact Hv|exact Hm|exact Hslice|exact Hwf|].
  destruct (RunAction_normal_verdict Samples.abs Samples.read_error Samples.one_finding
              Samples.normal_run "/work/openapi.yaml" Samples.document _
              [Samples.finding_at 1 1] Hv Hm Hp Hopen eq_refl Hslice Hwf)
    as (w' & Hrun & _).
  exists w'. exact Hrun.
Defined.

Lemma validated_mock_scenario_witness :
  Validate (resolved Samples.mock_fail_run) = None
  ∧ Mocked (resolved Samples.mock_fail_run) ≠ ""
  ∧ scenario (Mocked (resolved Samples.mock_fail_run)).
Proof.
  assert (Validate (resolved Samples.mock_fail_run) = None) as Hv by computed.
  assert (Mocked (resolved Samples.mock_fail_run) ≠ "") as Hm by computed.
  split_and!; [exact Hv|exact Hm|].
  exact (proj1 (validated_mock_scenario (resolved Samples.mock_fail_run) Hv Hm)).
Defined.

Lemma processResults_verdict_any_world_witness :
  go_slice (generateMockResults "fail" "rule-1")
  ∧ Forall int_fields (generateMockResults "fail" "rule-1")
  ∧ ∃ w1' w2' err,
      processResults (generateMockResults "fail" "rule-1") Samples.github_run = Done w1' err
      ∧ processResults (generateMockResults "fail" "rule-1") Samples.gitlab_run = Done w2' err
      ∧ err = verdict (generateMockResults "fail" "rule-1").
Proof.
  destruct (generateMockResults_well_typed "fail" "rule-1") as [Hslice Hwf].
  split_and!; [exact Hslice|exact Hwf|].
  exact (processResults_verdict_any_world _ Samples.github_run Samples.gitlab_run Hslice Hwf).
Defined.

Lemma processResults_local_only_prints_witness :
  DetectCI Samples.one_line_run = Done Samples.one_line_run "local"
  ∧ go_slice [Samples.finding_at 1 1] ∧ Forall int_fields [Samples.finding_at 1 1]
  ∧ [Samples.finding_at 1 1] ≠ []
  ∧ processResults [Samples.finding_at 1 1] Samples.one_line_run
    = Done (printed Samples.one_line_run [Samples.finding_at 1 1])
           (verdict [Samples.finding_at 1 1]).
Proof.
  assert (DetectCI Samples.one_line_run = Done Samples.one_line_run "local") as Hci
    by reflexivity.
  destruct one_finding_well_typed as [Hslice Hwf].
  assert ([Samples.finding_at 1 1] ≠ []) as Hne by discriminate.
  split_and!; [exact Hci|exact Hslice|exact Hwf|exact Hne|].
  exact (proj1 (processResults_local_only_prints _ Samples.one_line_run Hci Hslice Hwf Hne)).
Defined.

Lemma processResults_unreadable_document_witness :
  go_slice (generateMockResults "warning" "rule-1")
  ∧ Forall int_fields (generateMockResults "warning" "rule-1")
  ∧ generateMockResults "warning" "rule-1" ≠ []
  ∧ snippet_path Samples.missing_document_run ≠ ""
  ∧ opened Samples.missing_document_run (snippet_path Samples.missing_document_run) = None
  ∧ ∃ w', processResults (generateMockResults "warning" "rule-1")
            Samples.missing_document_run
          = Done w' None.
Proof.
  destruct (generateMockResults_well_typed "warning" "rule-1") as [Hslice Hwf].
  assert (generateMockResults "warning" "rule-1" ≠ []) as Hne by discriminate.
  assert (snippet_path Samples.missing_document_run ≠ "") as Hpath by computed.
  assert (opened Samples.missing_document_run (snippet_path Samples.missing_document_run)
          = None) as Hopen by computed.
  split_and!; [exact Hslice|exact Hwf|exact Hne|exact Hpath|exact Hopen|].
  destruct (processResults_unreadable_document _ Samples.missing_document_run
              Hslice Hwf Hne Hpath Hopen) as (w' & Hrun & _).
  exists w'. exact Hrun.
Defined.

Lemma processResults_writes_github_outputs_witness :
  go_slice (generateMockResults "fail" "rule-1")
  ∧ Forall int_fields (generateMockResults "fail" "rule-1")
  ∧ generateMockResults "fail" "rule-1" ≠ []
  ∧ env_value Samples.github_run "GITHUB_ACTIONS" = "true"
  ∧ env_value Samples.github_run "GITLAB_CI" ≠ "true"
  ∧ env_value Samples.github_run "GITHUB_OUTPUT" = "github_output"
  ∧ open_refused Samples.github_run AppendCreate "github_output" = false
  ∧ ∃ w', processResults (generateMockResults "fail" "rule-1") Samples.github_run
          = Done w' (Some "governance analysis failed with 2 errors and 1 warnings")
      ∧ files w' !! "github_output"
        = Some ("error_count=2" +:+ nl +:+ "warning_count=1" +:+ nl
                +:+ "total_issues=3" +:+ nl).
Proof.
  destruct (generateMockResults_well_typed "fail" "rule-1") as [Hslice Hwf].
  assert (generateMockResults "fail" "rule-1" ≠ []) as Hne by discriminate.
  assert (env_value Samples.github_run "GITHUB_ACTIONS" = "true") as Hgh by computed.
  assert (env_value Samples.github_run "GITLAB_CI" ≠ "true") as Hgl by computed.
  assert (env_value Samples.github_run "GITHUB_OUTPUT" = "github_output") as Hout
    by computed.
  assert ("github_output" ≠ "") as Hp by discriminate.
  assert (open_refused Samples.github_run AppendCreate "github_output" = false) as Hopen
    by reflexivity.
  split_and!; [exact Hslice|exact Hwf|exact Hne|exact Hgh|exact Hgl|exact Hout|exact Hopen|].
  destruct (processResults_writes_github_outputs _ "github_output" Samples.github_run
              Hslice Hwf Hne Hgh Hgl Hout Hp Hopen) as (w' & Hrun & Hfile & _).
  exists w'. split; [exact Hrun|]. rewrite Hfile. reflexivity.
Defined.

Lemma report_result_reversed_range_witness :
  int_fields (Samples.finding_at 3 1)
  ∧ ∃ w' counters,
      report_result ["a"; "b"; "c"] (Samples.finding_at 3 1) 0 0 Samples.one_line_run
      = Done w' counters
      ∧ stdout w'
        = [finding_line (Samples.finding_at 3 1);
           "    --- OAS snippet ---" +:+ nl;
           "    -------------------" +:+ nl].
Proof.
  assert (int_fields (Samples.finding_at 3 1)) as Hr.
  { unfold int_fields. simpl. split_and!; apply is_int_small; lia. }
  split; [exact Hr|].
  exact (report_result_reversed_range ["a"; "b"; "c"] (Samples.finding_at 3 1) 0 0
           Samples.one_line_run Hr ltac:(discriminate) ltac:(simpl; lia)
           ltac:(unfold len; simpl; lia) ltac:(simpl; lia)).
Defined.

Lemma emit_outputs_local_witness :
  DetectCI Samples.one_line_run = Done Samples.one_line_run "local"
  ∧ emit_outputs 2 1 3 Samples.one_line_run = Done Samples.one_line_run tt.
Proof.
  assert (DetectCI Samples.one_line_run = Done Samples.one_line_run "local") as Hci
    by reflexivity.
  split; [exact Hci|]. exact (emit_outputs_local 2 1 3 Samples.one_line_run Hci).
Defined.

Lemma emit_outputs_gitlab_witness :
  DetectCI Samples.gitlab_run = Done Samples.gitlab_run "gitlab"
  ∧ ∃ w', emit_outputs 2 1 3 Samples.gitlab_run = Done w' tt
      ∧ environ w' !! "error_count" = Some "2"
      ∧ files w' !! "governance_output.env"
        = Some ("export error_count=2" +:+ nl +:+ "export warning_count=1" +:+ nl
                +:+ "export total_issues=3" +:+ nl).
Proof.
  assert (DetectCI Samples.gitlab_run = Done Samples.gitlab_run "gitlab") as Hci
    by reflexivity.
  split; [exact Hci|].
  destruct (emit_outputs_gitlab 2 1 3 Samples.gitlab_run Hci) as (w' & Hrun & Henv & Hf & _).
  exists w'. split_and!; [exact Hrun|rewrite Henv; reflexivity|rewrite Hf; reflexivity].
Defined.

Lemma emit_outputs_github_dropped_witness :
  DetectCI Samples.github_no_output_run = Done Samples.github_no_output_run "github"
  ∧ env_value Samples.github_no_output_run "GITLAB_CI" ≠ "true"
  ∧ env_value Samples.github_no_output_run "GITHUB_OUTPUT" = ""
  ∧ ∃ w', emit_outputs 2 1 3 Samples.github_no_output_run = Done w' tt
      ∧ files w' = files Samples.github_no_output_run.
Proof.
  assert (DetectCI Samples.github_no_output_run
          = Done Samples.github_no_output_run "github") as Hci by reflexivity.
  assert (env_value Samples.github_no_output_run "GITLAB_CI" ≠ "true") as Hgl by computed.
  assert (env_value Samples.github_no_output_run "GITHUB_OUTPUT" = "") as Hout by computed.
  split_and!; [exact Hci|exact Hgl|exact Hout|].
  destruct (emit_outputs_github_dropped 2 1 3 Samples.github_no_output_run Hci Hgl
              (or_introl Hout)) as (w' & Hrun & Hf & _).
  exists w'. split; [exact Hrun|exact Hf].
Defined.

Lemma emit_outputs_both_channels_witness :
  env_value Samples.both_flags_run "GITHUB_ACTIONS" = "true"
  ∧ env_value Samples.both_flags_run "GITLAB_CI" = "true"
  ∧ env_value Samples.both_flags_run "GITHUB_OUTPUT" = "github_output"
  ∧ "github_output" ≠ gitlab_output_file Samples.both_flags_run
  ∧ ∃ w', emit_outputs 2 1 3 Samples.both_flags_run = Done w' tt
      ∧ files w' !! "github_output"
        = Some ("error_count=2" +:+ nl +:+ "warning_count=1" +:+ nl
                +:+ "total_issues=3" +:+ nl)
      ∧ files w' !! "governance_output.env"
        = Some ("export error_count=2" +:+ nl +:+ "export warning_count=1" +:+ nl
                +:+ "export total_issues=3" +:+ nl).
Proof.
  assert (env_value Samples.both_flags_run "GITHUB_ACTIONS" = "true") as Hgh by computed.
  assert (env_value Samples.both_flags_run "GITLAB_CI" = "true") as Hgl by computed.
  assert (env_value Samples.both_flags_run "GITHUB_OUTPUT" = "github_output") as Hout
    by computed.
  assert ("github_output" ≠ "") as Hne by discriminate.
  assert ("github_output" ≠ gitlab_output_file Samples.both_flags_run) as Hdiff by computed.
  split_and!; [exact Hgh|exact Hgl|exact Hout|exact Hdiff|].
  destruct (emit_outputs_both_channels 2 1 3 "github_output" Samples.both_flags_run
              Hgh Hgl Hout Hne Hdiff eq_refl eq_refl) as (w' & Hrun & _ & Hf1 & Hf2 & _).
  exists w'. split_and!; [exact Hrun|exact Hf1|exact Hf2].
Defined.
